(** * Smart Study Space: sensing node and flow-state forecast

    A shallow embedding of the two programs of the repository:

    - [Smart_Study_Space.ino], the ESP32 sketch: the adaptive heart-beat
      detector working on a 30-sample optical window, and the HRV
      statistics ([Module SensorNode]);
    - the browser-side prediction module (JavaScript): state
      classification, cleaning of the historical feed, the 7 x 24 pattern
      table, and the ranked list of predictions ([Module Forecast]).

    The definitions come first; what is proved about them follows in
    [SensorNodeFacts] and [ForecastFacts].

    Conventions.  C integers are [Z] with the 32-bit wrap-around written
    out ([u32], [s32]); on the ESP32 [int], [long] and [unsigned long] are
    all 32 bits wide.  C [/] is [Z.quot].  C arrays are lists of the
    array's length, read with [!!] and written with [<[ i := x ]>]; an
    access outside the array (undefined in C) reads 0 and writes
    nothing.  C [float] and JavaScript numbers are real numbers:
    arithmetic is exact, and there is no NaN or infinity.  Rounding is
    modelled where the outcome of the program depends on it: the key by
    which the forecast is sorted is rounded to double precision
    ([binary64]), operation by operation, as the engine computes it. *)

From Stdlib Require Import ZArith List Reals Lra Lia Bool Permutation Sorted.
From stdpp Require Import base option list gmap.

(** * Machine integers *)

Definition u32 (z : Z) : Z := (z mod 2 ^ 32)%Z.
Definition s32 (z : Z) : Z := ((z + 2 ^ 31) mod 2 ^ 32 - 2 ^ 31)%Z.
Definition u8 (z : Z) : Z := (z mod 2 ^ 8)%Z.

(** * Sums, extrema and the statistics of the design *)

Definition sumZ (l : list Z) : Z := foldr Z.add 0%Z l.
Definition maxZ (l : list Z) : Z := foldr Z.max (hd 0%Z l) l.
Definition minZ (l : list Z) : Z := foldr Z.min (hd 0%Z l) l.
Definition sumR (l : list R) : R := foldr Rplus 0%R l.

(** Mean and population standard deviation (the sum of the squared
    deviations is divided by the number of values). *)
Definition meanOf (xs : list Z) : R :=
  (sumR (IZR <$> xs) / INR (length xs))%R.

Definition populationSD (xs : list Z) : R :=
  sqrt (sumR ((fun x => (IZR x - meanOf xs) ^ 2)%R <$> xs) / INR (length xs)).

(** Root mean square of the differences between neighbours, in the order
    of the list: [length xs - 1] differences. *)
Definition successiveDiffs (xs : list Z) : list Z :=
  zip_with (fun a b => (b - a)%Z) xs (tail xs).

Definition rootMeanSquare (ds : list Z) : R :=
  sqrt (sumR ((fun d => (IZR d) ^ 2)%R <$> ds) / INR (length ds)).

(** Population variance of 0/1 outcomes around a value [p]. *)
Definition outcomeVarianceAround (outcomes : list bool) (p : R) : R :=
  (sumR ((fun b : bool => ((if b then 1 else 0) - p) ^ 2)%R <$> outcomes)
   / INR (length outcomes))%R.

Module SensorNode.

Local Open Scope Z_scope.

(** ** Configuration ([#define]s of the sketch) *)

Definition RATE_SIZE : Z := 4.
Definition IR_THRESHOLD : Z := 50000.
Definition IR_WINDOW_SIZE : Z := 30.
Definition RR_INTERVAL_SIZE : Z := 15.

(** ** Global variables

    The sketch keeps its state in globals; they are grouped here the way
    the declarations are grouped in the source. *)

(** "Heart rate detection variables". *)
Record RateVars := {
  rates : list Z;            (* byte rates[RATE_SIZE] *)
  rateSpot : Z;              (* byte *)
  lastBeat : Z;              (* long *)
  beatsPerMinute : Z;        (* int *)
  beatAvg : Z;               (* int *)
  beatDetected : bool;
  beatCount : Z              (* int *)
}.

(** "IR change monitoring - using floating window". *)
Record WindowVars := {
  irWindow : list Z;         (* long irWindow[IR_WINDOW_SIZE] *)
  irWindowIndex : Z;
  irWindowFull : bool
}.

(** "Adaptive threshold variables" and "AC/DC component analysis". *)
Record AcDcVars := {
  irBaseline : Z;
  irAmplitude : Z;
  stableReadings : Z;
  irDC : Z;
  irAC : Z;
  irMax : Z;
  irMin : Z
}.

(** "Heart Rate Variability (HRV)". *)
Record HrvVars := {
  rrIntervals : list Z;      (* unsigned long rrIntervals[RR_INTERVAL_SIZE] *)
  rrIndex : Z;
  hrv_SDNN : R;
  hrv_RMSSD : R;
  hrvSampleCount : Z
}.

(** The [static] locals of [detectHeartBeat_Adaptive]. *)
Record DetectStatics := {
  lastValue : Z;
  inPulse : bool;
  pulseStartTime : Z;
  peakValue : Z
}.

Record Node := {
  max30102OK : bool;
  irValue : Z;
  fingerDetected : bool;
  rate : RateVars;
  window : WindowVars;
  acdc : AcDcVars;
  hrv : HrvVars;
  detect : DetectStatics
}.

Definition with_rate (f : RateVars -> RateVars) (s : Node) : Node :=
  {| max30102OK := max30102OK s; irValue := irValue s;
     fingerDetected := fingerDetected s; rate := f (rate s);
     window := window s; acdc := acdc s; hrv := hrv s; detect := detect s |}.

Definition with_window (f : WindowVars -> WindowVars) (s : Node) : Node :=
  {| max30102OK := max30102OK s; irValue := irValue s;
     fingerDetected := fingerDetected s; rate := rate s;
     window := f (window s); acdc := acdc s; hrv := hrv s; detect := detect s |}.

Definition with_acdc (f : AcDcVars -> AcDcVars) (s : Node) : Node :=
  {| max30102OK := max30102OK s; irValue := irValue s;
     fingerDetected := fingerDetected s; rate := rate s;
     window := window s; acdc := f (acdc s); hrv := hrv s; detect := detect s |}.

Definition with_hrv (f : HrvVars -> HrvVars) (s : Node) : Node :=
  {| max30102OK := max30102OK s; irValue := irValue s;
     fingerDetected := fingerDetected s; rate := rate s;
     window := window s; acdc := acdc s; hrv := f (hrv s); detect := detect s |}.

Definition with_detect (f : DetectStatics -> DetectStatics) (s : Node) : Node :=
  {| max30102OK := max30102OK s; irValue := irValue s;
     fingerDetected := fingerDetected s; rate := rate s;
     window := window s; acdc := acdc s; hrv := hrv s; detect := f (detect s) |}.

Definition set_stableReadings (v : Z) (a : AcDcVars) : AcDcVars :=
  {| irBaseline := irBaseline a; irAmplitude := irAmplitude a;
     stableReadings := v; irDC := irDC a; irAC := irAC a;
     irMax := irMax a; irMin := irMin a |}.

(** ** HRV calculation ([calculateHRV]) *)

(** [rrIntervals[i]] *)
Definition rrAt (h : HrvVars) (i : nat) : Z := default 0 (rrIntervals h !! i).

(** The three accumulation loops.  [mean] and [variance] are [float]
    accumulators; [diff] of the third loop is a [long], so the unsigned
    difference is reinterpreted as signed and its square is a [long]
    product. *)
Definition hrvMean (h : HrvVars) : R :=
  (fold_left (fun mean i => mean + IZR (rrAt h i))
             (seq 0 (Z.to_nat (hrvSampleCount h))) 0
   / IZR (hrvSampleCount h))%R.

Definition hrvVariance (h : HrvVars) : R :=
  (fold_left (fun variance i =>
                let diff := IZR (rrAt h i) - hrvMean h in
                variance + diff * diff)
             (seq 0 (Z.to_nat (hrvSampleCount h))) 0
   / IZR (hrvSampleCount h))%R.

Definition hrvSquaredDiffs (h : HrvVars) : R * Z :=
  fold_left (fun '(sumSquaredDiff, diffCount) i =>
               let diff := s32 (u32 (rrAt h i - rrAt h (i - 1))) in
               ((sumSquaredDiff + IZR (s32 (diff * diff)))%R,
                s32 (diffCount + 1)))
            (seq 1 (Z.to_nat (hrvSampleCount h) - 1)) (0%R, 0).

Definition calculateHRV (h : HrvVars) : HrvVars :=
  if hrvSampleCount h <? 5 then
    {| rrIntervals := rrIntervals h; rrIndex := rrIndex h;
       hrv_SDNN := 0; hrv_RMSSD := 0;
       hrvSampleCount := hrvSampleCount h |}
  else
    let '(sumSquaredDiff, diffCount) := hrvSquaredDiffs h in
    {| rrIntervals := rrIntervals h; rrIndex := rrIndex h;
       hrv_SDNN := sqrt (hrvVariance h);
       hrv_RMSSD := if 0 <? diffCount
                    then sqrt (sumSquaredDiff / IZR diffCount)
                    else 0%R;
       hrvSampleCount := hrvSampleCount h |}.

(** ** AC/DC components ([calculateACDC]) *)

(** [irWindow[i]] *)
Definition irAt (w : WindowVars) (i : nat) : Z := default 0 (irWindow w !! i).

(** One iteration of the [for] loop over the window: the running
    [(sum, irMax, irMin)]. *)
Definition acdcStep (w : WindowVars) (acc : Z * Z * Z) (i : nat) : Z * Z * Z :=
  let '(sum, mx, mn) := acc in
  (s32 (sum + irAt w i),
   if mx <? irAt w i then irAt w i else mx,
   if irAt w i <? mn then irAt w i else mn).

Definition acdcLoop (w : WindowVars) : Z * Z * Z :=
  fold_left (acdcStep w) (seq 0 (Z.to_nat IR_WINDOW_SIZE))
            (0, irAt w 0, irAt w 0).

Definition calculateACDC (s : Node) : Node :=
  let '(sum, mx, mn) := acdcLoop (window s) in
  let baseline := Z.quot sum IR_WINDOW_SIZE in
  let amplitude := s32 (mx - mn) in
  with_acdc (fun a =>
    {| irBaseline := baseline; irAmplitude := amplitude;
       stableReadings := stableReadings a; irDC := baseline;
       irAC := Z.quot amplitude 2; irMax := mx; irMin := mn |}) s.

(** ** Adaptive beat detection ([detectHeartBeat_Adaptive]) *)

(** [long threshold = irBaseline + (irAC * 3 / 10);] *)
Definition threshold (s : Node) : Z :=
  s32 (irBaseline (acdc s) + Z.quot (s32 (irAC (acdc s) * 3)) 10).

(** The averaging loop over [rates]: [(beatAvg, validCount)]. *)
Definition averageRates (rs : list Z) : Z :=
  let '(avg, validCount) :=
    fold_left (fun '(avg, validCount) x =>
                 if 0 <? default 0 (rs !! x)
                 then (s32 (avg + default 0 (rs !! x)), s32 (validCount + 1))
                 else (avg, validCount))
              (seq 0 (Z.to_nat RATE_SIZE)) (0, 0) in
  if 0 <? validCount then Z.quot avg validCount else avg.

(** The body of [if (beatsPerMinute >= 45 && beatsPerMinute <= 150)]:
    the beat goes into [rates] and the interval into [rrIntervals], the
    average and the HRV statistics are recomputed. *)
Definition admitBeat (bpm delta : Z) (s : Node) : Node :=
  let r := rate s in
  let h := hrv s in
  let rates' := <[ Z.to_nat (rateSpot r) := u8 bpm ]> (rates r) in
  let rrIndex' := Z.rem (s32 (rrIndex h + 1)) RR_INTERVAL_SIZE in
  let count' :=
    if rrIndex' =? 0 then RR_INTERVAL_SIZE
    else if hrvSampleCount h <? RR_INTERVAL_SIZE
         then s32 (hrvSampleCount h + 1)
         else hrvSampleCount h in
  let h' := {| rrIntervals := <[ Z.to_nat (rrIndex h) := delta ]> (rrIntervals h);
               rrIndex := rrIndex'; hrv_SDNN := hrv_SDNN h;
               hrv_RMSSD := hrv_RMSSD h; hrvSampleCount := count' |} in
  let r' := {| rates := rates';
               rateSpot := u8 (Z.rem (rateSpot r + 1) RATE_SIZE);
               lastBeat := lastBeat r; beatsPerMinute := beatsPerMinute r;
               beatAvg := averageRates rates';
               beatDetected := true; beatCount := beatCount r |} in
  with_hrv (fun _ => calculateHRV h') (with_rate (fun _ => r') s).

(** The body of [if (lastBeat > 0 && delta > 400 && delta < 3000)]. *)
Definition computeBeat (delta : Z) (s : Node) : Node :=
  let bpm := s32 (Z.quot 60000 delta) in
  let s1 := with_rate (fun r =>
    {| rates := rates r; rateSpot := rateSpot r; lastBeat := lastBeat r;
       beatsPerMinute := bpm; beatAvg := beatAvg r;
       beatDetected := beatDetected r;
       beatCount := s32 (beatCount r + 1) |}) s in
  if (45 <=? bpm) && (bpm <=? 150) then admitBeat bpm delta s1 else s1.

(** The falling edge, the body of [if (irValue < threshold)] inside the
    pulse: [millis] is the value read there. *)
Definition fallingEdge (millis : Z) (s : Node) : Node :=
  let s0 := with_detect (fun d =>
    {| lastValue := lastValue d; inPulse := false;
       pulseStartTime := pulseStartTime d; peakValue := peakValue d |}) s in
  let currentTime := u32 millis in
  let delta := u32 (currentTime - lastBeat (rate s0)) in
  let s1 := if (0 <? lastBeat (rate s0)) && (400 <? delta) && (delta <? 3000)
            then computeBeat delta s0 else s0 in
  with_rate (fun r =>
    {| rates := rates r; rateSpot := rateSpot r; lastBeat := s32 currentTime;
       beatsPerMinute := beatsPerMinute r; beatAvg := beatAvg r;
       beatDetected := beatDetected r; beatCount := beatCount r |}) s1.

(** The rising-edge test of the source. *)
Definition risingEdge (s : Node) : bool :=
  negb (inPulse (detect s)) && (threshold s <? irValue s)
  && (lastValue (detect s) <=? threshold s).

(** The falling-edge test: in a pulse (one that started earlier; a pulse
    starting in this call has [irValue > threshold]) and below the
    threshold. *)
Definition fallingEdgeSeen (s : Node) : bool :=
  inPulse (detect s) && (irValue s <? threshold s).

(** [millis] is the clock value; the source reads it once on a rising
    edge and once on a falling edge, and a single call takes at most one
    of the two. *)
Definition detectHeartBeat_Adaptive (millis : Z) (s : Node) : Node :=
  if irAC (acdc s) <? 30 then
    with_acdc (set_stableReadings 0) s
  else
    let s1 :=
      if risingEdge s then
        with_acdc (fun a => set_stableReadings (s32 (stableReadings a + 1)) a)
          (with_detect (fun d =>
             {| lastValue := lastValue d; inPulse := true;
                pulseStartTime := u32 millis; peakValue := irValue s |}) s)
      else s in
    let s2 :=
      if inPulse (detect s1) then
        let s1' :=
          if peakValue (detect s1) <? irValue s1
          then with_detect (fun d =>
                 {| lastValue := lastValue d; inPulse := inPulse d;
                    pulseStartTime := pulseStartTime d;
                    peakValue := irValue s1 |}) s1
          else s1 in
        if irValue s1' <? threshold s1' then fallingEdge millis s1' else s1'
      else s1 in
    with_detect (fun d =>
      {| lastValue := irValue s2; inPulse := inPulse d;
         pulseStartTime := pulseStartTime d; peakValue := peakValue d |}) s2.

(** ** One acquisition tick ([readHeartSensor_UltraSensitive])

    [getIR] is the reading of the optical sensor (a [uint32_t] stored
    into the [long irValue]). *)
Definition readHeartSensor_UltraSensitive (getIR millis : Z) (s : Node) : Node :=
  if negb (max30102OK s) then
    with_rate (fun r =>
      {| rates := rates r; rateSpot := rateSpot r; lastBeat := lastBeat r;
         beatsPerMinute := 0; beatAvg := 0;
         beatDetected := beatDetected r; beatCount := beatCount r |})
      {| max30102OK := max30102OK s; irValue := 0; fingerDetected := false;
         rate := rate s; window := window s; acdc := acdc s; hrv := hrv s;
         detect := detect s |}
  else
    let ir := s32 getIR in
    let finger := IR_THRESHOLD <? ir in
    let s0 := {| max30102OK := max30102OK s; irValue := ir;
                 fingerDetected := finger; rate := rate s;
                 window := window s; acdc := acdc s; hrv := hrv s;
                 detect := detect s |} in
    if negb finger then
      with_window (fun w =>
        {| irWindow := irWindow w; irWindowIndex := 0; irWindowFull := false |})
      (with_acdc (fun a =>
        {| irBaseline := 0; irAmplitude := irAmplitude a; stableReadings := 0;
           irDC := irDC a; irAC := irAC a; irMax := irMax a; irMin := irMin a |})
      (with_rate (fun r =>
        {| rates := rates r; rateSpot := rateSpot r; lastBeat := lastBeat r;
           beatsPerMinute := 0; beatAvg := 0;
           beatDetected := beatDetected r; beatCount := 0 |}) s0))
    else
      let s1 := with_window (fun w =>
        let idx := s32 (irWindowIndex w + 1) in
        {| irWindow := <[ Z.to_nat (irWindowIndex w) := ir ]> (irWindow w);
           irWindowIndex := if IR_WINDOW_SIZE <=? idx then 0 else idx;
           irWindowFull := if IR_WINDOW_SIZE <=? idx then true
                           else irWindowFull w |}) s0 in
      if irWindowFull (window s1)
      then detectHeartBeat_Adaptive millis (calculateACDC s1)
      else s1.

(** ** Notions used in the statements

    The loop body of [calculateACDC] as a function of the element read,
    one round of the third loop of [calculateHRV], the ranges in which
    the 32-bit arithmetic does not wrap, and the intervals that
    [calculateHRV] reads. *)

Definition acdcAdd (acc : Z * Z * Z) (x : Z) : Z * Z * Z :=
  let '(sum, mx, mn) := acc in
  (s32 (sum + x), if mx <? x then x else mx, if x <? mn then x else mn).

Definition sample26 (x : Z) : Prop := 0 <= x < 2 ^ 26.

Definition interval15 (x : Z) : Prop := 0 <= x < 2 ^ 15.

(** One round of the loop of squared successive differences. *)
Definition squaredDiffStep (l : list Z) (acc : R * Z) (i : nat) : R * Z :=
  let diff := s32 (u32 (default 0 (l !! i) - default 0 (l !! (i - 1)%nat))) in
  ((fst acc + IZR (s32 (diff * diff)))%R, s32 (snd acc + 1)).

Definition hrvSamples (h : HrvVars) : list Z :=
  take (Z.to_nat (hrvSampleCount h)) (rrIntervals h).

(** ** Sample states *)

(** A node in the middle of a pulse: the sensor works, the window is
    full, the detector is above its threshold. *)
Definition pulsingNode : Node :=
  {| max30102OK := true; irValue := 100300; fingerDetected := true;
     rate := {| rates := [72; 71; 0; 0]; rateSpot := 2; lastBeat := 1000;
                beatsPerMinute := 72; beatAvg := 71; beatDetected := true;
                beatCount := 7 |};
     window := {| irWindow := replicate 15 100000 ++ replicate 15 100200;
                  irWindowIndex := 0; irWindowFull := true |};
     acdc := {| irBaseline := 100100; irAmplitude := 200; stableReadings := 3;
                irDC := 100100; irAC := 100; irMax := 100200; irMin := 100000 |};
     hrv := {| rrIntervals := [830; 845] ++ replicate 13 0; rrIndex := 2;
               hrv_SDNN := 0; hrv_RMSSD := 0; hrvSampleCount := 2 |};
     detect := {| lastValue := 100250; inPulse := true; pulseStartTime := 1300;
                  peakValue := 100300 |} |}.


(** A full window swinging between 100000 and 100064: the mean is
    100032 and half the swing is 32, both exactly. *)
Definition swingingNode : Node :=
  {| max30102OK := true; irValue := 100064; fingerDetected := true;
     rate := rate pulsingNode;
     window := {| irWindow := replicate 15 100000 ++ replicate 15 100064;
                  irWindowIndex := 0; irWindowFull := true |};
     acdc := acdc pulsingNode; hrv := hrv pulsingNode;
     detect := {| lastValue := 100064; inPulse := false; pulseStartTime := 0;
                  peakValue := 0 |} |}.

(** Six beats, each 1000 ms after the one before. *)
Definition steadyHrv : HrvVars :=
  {| rrIntervals := replicate 6 1000 ++ replicate 9 0; rrIndex := 6;
     hrv_SDNN := 0; hrv_RMSSD := 0; hrvSampleCount := 6 |}.

End SensorNode.

(** * The prediction module (JavaScript) *)

(** Comparisons of numbers are decided; [bool_decide] turns them into the
    booleans the source computes with. *)
#[global] Instance Rlt_decision (x y : R) : Decision (x < y)%R := Rlt_dec x y.
#[global] Instance Rle_decision (x y : R) : Decision (x <= y)%R := Rle_dec x y.
#[global] Instance Rgt_decision (x y : R) : Decision (x > y)%R := Rgt_dec x y.
#[global] Instance Rge_decision (x y : R) : Decision (x >= y)%R := Rge_dec x y.
#[global] Instance Req_decision : EqDecision R := Req_dec_T.

(** [Math.round]: the integer nearest to [x], halves going up. *)
Definition Math_round (x : R) : Z := Int_part (x + / 2).

(** ** Double precision

    A JavaScript number is a binary64 value: 53 significant bits, the
    smallest exponent -1022, every operation rounded to the nearest
    value, ties to the even significand.  [binary64 x] is the value
    nearest to the real [x]: with [e] the exponent of [x] (at least
    -1022, which gives the subnormal numbers their fixed spacing), [x] is
    rounded to a multiple of [2 ^ (e - 52)].  Zero rounds to zero.  Values
    beyond the largest finite number, which the engine turns into
    [Infinity], are not modelled. *)

(** The largest [e] with [2 ^ e <= |x|]. *)
Definition floorLog2 (x : R) : Z := Int_part (ln (Rabs x) / ln 2).

(** The integer nearest to [y]; of two integers equally near, the even
    one. *)
Definition nearestEven (y : R) : Z :=
  let f := Int_part y in
  if bool_decide (y - IZR f < 1 / 2)%R then f
  else if bool_decide (y - IZR f > 1 / 2)%R then (f + 1)%Z
  else if Z.even f then f else (f + 1)%Z.

Definition binary64 (x : R) : R :=
  let e := Z.max (floorLog2 x) (-1022) in
  (IZR (nearestEven (x * powerRZ 2 (52 - e))) * powerRZ 2 (e - 52))%R.

(** [Array.prototype.sort(compareFn)] is a built-in of the JavaScript
    engine, stable since ECMAScript 2019.  It is modelled as a stable
    insertion sort: [x] moves behind [y] exactly when [compareFn x y > 0]. *)
Fixpoint insertSorted {A} (compareFn : A -> A -> R) (x : A) (l : list A) : list A :=
  match l with
  | [] => [x]
  | y :: l' =>
      if bool_decide (compareFn x y > 0)%R
      then y :: insertSorted compareFn x l'
      else x :: y :: l'
  end.

Definition Array_sort {A} (compareFn : A -> A -> R) (l : list A) : list A :=
  foldr (insertSorted compareFn) [] l.



Module Forecast.

Local Open Scope R_scope.

(** ** Configuration *)

(** [PREDICTION_CONFIG] *)
Definition PREDICTION_WINDOW : nat := 24.
Definition MIN_DATA_POINTS : nat := 100.
Definition FLOW_STATE_THRESHOLD : R := 3 / 10.
Definition TOP_PREDICTIONS : nat := 5.

(** [STATE_THRESHOLDS] *)
Definition NOISE_THRESHOLD : R := 55.
Definition BPM_LOW : R := 60.
Definition BPM_HIGH : R := 80.
Definition HRV_THRESHOLD : R := 700.
Definition BPM_MIN_VALID : R := 40.
Definition BPM_MAX_VALID : R := 200.

(** ** Data model *)

(** The state labels ['Flow State'], ['Normal Learning'], ['Standby'],
    ['Distracted']. *)
Inductive State := FlowState | NormalLearning | Standby | Distracted.

#[global] Instance State_eq_dec : EqDecision State.
Proof. solve_decision. Defined.

(** The labels of [assessDataQuality]. *)
Inductive DataQuality := insufficient | low | moderate | good | excellent.

(** Milliseconds since the epoch, the value of a [Date]. *)
Definition Time := Z.

(** One row of the feed, after [parseFloat] / [parseInt]: [None] is a
    missing or non-numeric field ([NaN]). *)
Record Feed := {
  created_at : Time;
  field2 : option R;
  field3 : option R;
  field5 : option Z;
  field6 : option Z
}.

(** An element of [cleanData] (the [date] string, which nothing reads,
    is left out). *)
Record Entry := {
  timestamp : Time;
  hour : nat;
  dayOfWeek : nat;
  noise : R;
  bpm : R;
  rrInterval : R;
  state : State;
  isFlowState : bool
}.

Record Sample := {
  sample_timestamp : Time;
  sample_state : State
}.

(** The accumulators of one slot of [hourlyPatterns]. *)
Record Cell := {
  day : nat;
  cell_hour : nat;
  flowStateCount : nat;
  totalCount : nat;
  noiseSum : R;
  bpmSum : R;
  rrIntervalSum : R;
  samples : list Sample
}.

(** A slot after the statistics have been added to it. *)
Record Pattern := {
  cell : Cell;
  avgNoise : R;
  avgBPM : R;
  avgRRInterval : R;
  probability : R;
  consistency : R
}.

Record Prediction := {
  time : Time;
  pred_hour : nat;
  pred_dayOfWeek : nat;
  pred_probability : R;
  confidence : Z;
  expectedNoise : R;
  expectedBPM : R;
  expectedRRInterval : R;
  sampleSize : nat;
  pred_consistency : R;
  hoursFromNow : nat
}.

(** The global [predictionData]. *)
Record PredictionData := {
  predictions : list Prediction;
  lastUpdate : option Time;
  overallConfidence : Z;
  dataQuality : DataQuality
}.

Definition initialPredictionData : PredictionData :=
  {| predictions := []; lastUpdate := None; overallConfidence := 0;
     dataQuality := insufficient |}.

(** What a run does to the outside: console messages and the calls that
    redraw the page, in order. *)
Inductive Event :=
| LogStarting
| LogCleaned (n : nat)
| LogFetchError
| LogInsufficient (current : nat)
| LogProcessing (n : nat)
| LogPatternAnalysis (slots : nat)
| LogComplete (found : nat)
| UpdatePredictionUINoData (currentDataPoints : nat)
| UpdatePredictionUI (preds : list Prediction) (overall : Z).

(** ** State classification ([classifyStateForPrediction]) *)

Definition classifyStateForPrediction (noise bpm rrInterval : R) : State :=
  if bool_decide (bpm < BPM_MIN_VALID) || bool_decide (bpm > BPM_MAX_VALID)
  then Standby
  else
    let isQuiet := bool_decide (noise < NOISE_THRESHOLD) in
    let hasGoodHRV := bool_decide (rrInterval > HRV_THRESHOLD) in
    let hasOptimalBPM :=
      bool_decide (bpm >= BPM_LOW) && bool_decide (bpm <= BPM_HIGH) in
    let isGoodPhysio := hasGoodHRV || hasOptimalBPM in
    if isQuiet && isGoodPhysio then FlowState
    else if negb isQuiet && isGoodPhysio then NormalLearning
    else if isQuiet && negb isGoodPhysio then Standby
    else Distracted.

(** The four quadrants in the words of the design: quiet is a noise
    level below 55 dB, good physiology is an R-R interval above 700 ms or
    a heart rate from 60 to 80. *)
Definition isQuiet (noiseDb : R) : Prop := noiseDb < 55.
Definition isGoodPhysio (bpm rrIntervalMs : R) : Prop :=
  rrIntervalMs > 700 \/ (60 <= bpm <= 80).

Inductive quadrant (noiseDb bpm rrIntervalMs : R) : State -> Prop :=
| quiet_good :
    isQuiet noiseDb -> isGoodPhysio bpm rrIntervalMs ->
    quadrant noiseDb bpm rrIntervalMs FlowState
| loud_good :
    ~ isQuiet noiseDb -> isGoodPhysio bpm rrIntervalMs ->
    quadrant noiseDb bpm rrIntervalMs NormalLearning
| quiet_not_good :
    isQuiet noiseDb -> ~ isGoodPhysio bpm rrIntervalMs ->
    quadrant noiseDb bpm rrIntervalMs Standby
| loud_not_good :
    ~ isQuiet noiseDb -> ~ isGoodPhysio bpm rrIntervalMs ->
    quadrant noiseDb bpm rrIntervalMs Distracted.

(** The heart rate a row stands for: the averaged rate (field 5) when it
    is greater than zero, otherwise the instantaneous rate (field 6); a
    missing field counts as 0. *)
Definition usedBpm (feed : Feed) : R :=
  match field5 feed with
  | Some averaged =>
      if (0 <? averaged)%Z then IZR averaged
      else IZR (default 0%Z (field6 feed))
  | None => IZR (default 0%Z (field6 feed))
  end.

Section Clock.

(** [Date.prototype.getDay] and [getHours] in the browser's time zone. *)
Variable getDay : Time -> nat.
Variable getHours : Time -> nat.

(** ** Cleaning the feed ([fetchPredictionHistoricalData]) *)

(** The arrow function given to [data.feeds.map]. *)
Definition parseFeed (feed : Feed) : Entry :=
  let timestamp := created_at feed in
  let noise := default 0 (field2 feed) in
  let rrInterval := default 0 (field3 feed) in
  let bpmAvg := default 0%Z (field5 feed) in
  let bpmRealtime := default 0%Z (field6 feed) in
  let bpm := IZR (if (0 <? bpmAvg)%Z then bpmAvg else bpmRealtime) in
  let state := classifyStateForPrediction noise bpm rrInterval in
  {| timestamp := timestamp;
     hour := getHours timestamp;
     dayOfWeek := getDay timestamp;
     noise := noise;
     bpm := bpm;
     rrInterval := rrInterval;
     state := state;
     isFlowState := bool_decide (state = FlowState) |}.

Definition validBpm (d : Entry) : Prop :=
  bpm d >= BPM_MIN_VALID /\ bpm d <= BPM_MAX_VALID.

Definition cleanData (feeds : list Feed) : list Entry :=
  filter validBpm (parseFeed <$> feeds).

(** [response] is what the request to the channel delivered: [None] when
    the request failed or the answer was not [ok] (the exception is caught
    inside, and the result is [null]); [Some []] when the answer had no
    feeds. *)
Definition fetchPredictionHistoricalData (response : option (list Feed))
  : option (list Entry) * list Event :=
  match response with
  | None => (None, [LogFetchError])
  | Some [] => (None, [])
  | Some feeds => (Some (cleanData feeds), [LogCleaned (length (cleanData feeds))])
  end.

(** ** Pattern analysis ([analyzeTemporalPatterns]) *)

(** The key [`${day}-${hour}`] of [hourlyPatterns] is the pair
    [(day, hour)]. *)
Definition emptyCell (day hour : nat) : Cell :=
  {| day := day; cell_hour := hour; flowStateCount := 0; totalCount := 0;
     noiseSum := 0; bpmSum := 0; rrIntervalSum := 0; samples := [] |}.

Definition slotKeys : list (nat * nat) :=
  day ← seq 0 7; hour ← seq 0 24; [(day, hour)].

Definition initialPatterns : gmap (nat * nat) Cell :=
  fold_left (fun m '(day, hour) => <[ (day, hour) := emptyCell day hour ]> m)
            slotKeys ∅.

(** The body of [data.forEach]. *)
Definition addEntry (c : Cell) (entry : Entry) : Cell :=
  {| day := day c; cell_hour := cell_hour c;
     flowStateCount :=
       if isFlowState entry then S (flowStateCount c) else flowStateCount c;
     totalCount := S (totalCount c);
     noiseSum := noiseSum c + noise entry;
     bpmSum := bpmSum c + bpm entry;
     rrIntervalSum := rrIntervalSum c + rrInterval entry;
     samples := samples c ++ [ {| sample_timestamp := timestamp entry;
                                  sample_state := state entry |} ] |}.

Definition aggregate (m : gmap (nat * nat) Cell) (entry : Entry)
  : gmap (nat * nat) Cell :=
  let key := (dayOfWeek entry, hour entry) in
  match m !! key with
  | Some c => <[ key := addEntry c entry ]> m
  | None => m
  end.

(** The [reduce] over the samples of a slot, divided by [totalCount]. *)
Definition outcomeVariance (c : Cell) (probability : R) : R :=
  fold_left (fun sum sample =>
               let isFlow :=
                 if bool_decide (sample_state sample = FlowState) then 1 else 0 in
               sum + (isFlow - probability) ^ 2)
            (samples c) 0
  / INR (totalCount c).

(** The body of [Object.keys(hourlyPatterns).forEach]. *)
Definition statistics (c : Cell) : Pattern :=
  if bool_decide (0 < totalCount c)%nat then
    let probability := INR (flowStateCount c) / INR (totalCount c) in
    {| cell := c;
       avgNoise := noiseSum c / INR (totalCount c);
       avgBPM := bpmSum c / INR (totalCount c);
       avgRRInterval := rrIntervalSum c / INR (totalCount c);
       probability := probability;
       consistency := 1 - sqrt (outcomeVariance c probability) |}
  else
    {| cell := c; avgNoise := 0; avgBPM := 0; avgRRInterval := 0;
       probability := 0; consistency := 0 |}.

Definition analyzeTemporalPatterns (data : list Entry)
  : gmap (nat * nat) Pattern :=
  statistics <$> fold_left aggregate data initialPatterns.

(** ** Confidence ([calculatePredictionConfidence]) *)

Definition MIN_SAMPLES_FOR_CONFIDENCE : nat := 10.
Definition IDEAL_SAMPLES : R := 50.

Definition calculatePredictionConfidence (pattern : Pattern) : Z :=
  let sampleFactor := Rmin (INR (totalCount (cell pattern)) / IDEAL_SAMPLES) 1 in
  let consistencyFactor := consistency pattern in
  let probabilityFactor := probability pattern in
  if bool_decide (totalCount (cell pattern) < MIN_SAMPLES_FOR_CONFIDENCE)%nat
  then 0%Z
  else
    Math_round ((sampleFactor * (4 / 10) + consistencyFactor * (3 / 10)
                 + probabilityFactor * (3 / 10)) * 100).

(** ** Prediction generation ([generateFlowStatePredictions]) *)

(** One round of the [for] loop: the prediction pushed for hour [i], if
    any. *)
Definition candidate (now : Time) (patterns : gmap (nat * nat) Pattern)
  (i : nat) : option Prediction :=
  let futureTime := (now + Z.of_nat i * 60 * 60 * 1000)%Z in
  let futureDay := getDay futureTime in
  let futureHour := getHours futureTime in
  match patterns !! (futureDay, futureHour) with
  | Some pattern =>
      if bool_decide (probability pattern >= FLOW_STATE_THRESHOLD) then
        Some {| time := futureTime;
                pred_hour := futureHour;
                pred_dayOfWeek := futureDay;
                pred_probability := probability pattern;
                confidence := calculatePredictionConfidence pattern;
                expectedNoise := avgNoise pattern;
                expectedBPM := avgBPM pattern;
                expectedRRInterval := avgRRInterval pattern;
                sampleSize := totalCount (cell pattern);
                pred_consistency := consistency pattern;
                hoursFromNow := i |}
      else None
  | None => None
  end.

(** The array [predictions] when the loop is over. *)
Definition candidates (now : Time) (patterns : gmap (nat * nat) Pattern)
  : list Prediction :=
  omap (candidate now patterns) (seq 1 PREDICTION_WINDOW).

(** [a.probability * (a.confidence / 100)] as the engine computes it.
    The field [probability] holds the quotient of two counts, which the
    engine has rounded to double precision; the quotient by 100 and the
    product are rounded in turn. *)
Definition score (a : Prediction) : R :=
  binary64 (binary64 (pred_probability a)
            * binary64 (IZR (confidence a) / 100)).

(** The same product in exact arithmetic, as the design words it. *)
Definition exactScore (a : Prediction) : R :=
  pred_probability a * (IZR (confidence a) / 100).

(** The comparison function given to [sort].  The sort looks at the sign
    of the result only, and the difference of two double precision
    numbers, once rounded, has the sign of the exact difference. *)
Definition byScore (a b : Prediction) : R :=
  let scoreA := score a in
  let scoreB := score b in
  scoreB - scoreA.

Definition generateFlowStatePredictions (now : Time)
  (patterns : gmap (nat * nat) Pattern) : list Prediction :=
  take TOP_PREDICTIONS (Array_sort byScore (candidates now patterns)).

(** ** Overall confidence and data quality *)

Definition calculateOverallConfidence (predictions : list Prediction)
  (dataPoints : nat) : Z :=
  if bool_decide (length predictions = 0%nat) then 0%Z
  else
    let avgConfidence :=
      fold_left (fun sum p => sum + IZR (confidence p)) predictions 0
      / INR (length predictions) in
    let dataFactor := Rmin (INR dataPoints / 500) 1 in
    Math_round (avgConfidence * (7 / 10) + dataFactor * 30).

Definition assessDataQuality (dataPoints : nat) : DataQuality :=
  if (dataPoints <? 100)%nat then insufficient
  else if (dataPoints <? 300)%nat then low
  else if (dataPoints <? 800)%nat then moderate
  else if (dataPoints <? 1500)%nat then good
  else excellent.

(** ** A run ([runPredictionAnalysis]) *)

Record Run := {
  returned : option (list Prediction);
  stored : PredictionData;
  events : list Event
}.

(** [response] is the answer of the channel, [now] the clock when the
    predictions are generated, [finished] the clock when the results are
    stored, [pd] the global [predictionData] before the run.  Nothing in
    the modelled steps throws, so the [catch] branch is not entered. *)
Definition runPredictionAnalysis (response : option (list Feed))
  (now finished : Time) (pd : PredictionData) : Run :=
  let '(historicalData, fetchEvents) := fetchPredictionHistoricalData response in
  let current := from_option length 0%nat historicalData in
  let noData :=
    {| returned := None; stored := pd;
       events := [LogStarting] ++ fetchEvents
                 ++ [LogInsufficient current;
                     UpdatePredictionUINoData current] |} in
  match historicalData with
  | None => noData
  | Some data =>
      if (length data <? MIN_DATA_POINTS)%nat then noData
      else
        let patterns := analyzeTemporalPatterns data in
        let predictions := generateFlowStatePredictions now patterns in
        let overall := calculateOverallConfidence predictions (length data) in
        {| returned := Some predictions;
           stored := {| predictions := predictions;
                        lastUpdate := Some finished;
                        overallConfidence := overall;
                        dataQuality := assessDataQuality (length data) |};
           events := [LogStarting] ++ fetchEvents
                     ++ [LogProcessing (length data);
                         LogPatternAnalysis (size patterns);
                         UpdatePredictionUI predictions overall;
                         LogComplete (length predictions)] |}
  end.

End Clock.

(** ** Notions used in the statements *)

Definition inSlot (d h : nat) (e : Entry) : Prop :=
  dayOfWeek e = d /\ hour e = h.

(** The cell of a slot after the entries of that slot have been added to
    it, in the order of the data. *)
Definition slotCell (d h : nat) (data : list Entry) : Cell :=
  fold_left addEntry (filter (inSlot d h) data) (emptyCell d h).

(** The flow samples of a slot; a cell whose counters agree with its
    samples; an entry whose flow flag agrees with its state. *)
Definition flowSamples (l : list Sample) : nat :=
  length (filter (fun s => sample_state s = FlowState) l).

Definition countsAgree (c : Cell) : Prop :=
  totalCount c = length (samples c)
  /\ flowStateCount c = flowSamples (samples c).

Definition flagAgrees (e : Entry) : Prop :=
  isFlowState e = bool_decide (state e = FlowState).

(** The slot that hour [i] of a forecast made at [now] falls into. *)
Definition slotOf (getDay getHours : Time -> nat) (now : Time) (i : nat)
  : nat * nat :=
  let futureTime := (now + Z.of_nat i * 60 * 60 * 1000)%Z in
  (getDay futureTime, getHours futureTime).

(** A prediction that comes from the slot of its day and hour, with a
    probability of at least 0.30, and with confidence 0 when the slot
    has fewer than 10 samples. *)
Definition admissible (patterns : gmap (nat * nat) Pattern) (p : Prediction) : Prop :=
  exists pattern,
    patterns !! (pred_dayOfWeek p, pred_hour p) = Some pattern
    /\ pred_probability p = probability pattern
    /\ sampleSize p = totalCount (cell pattern)
    /\ probability pattern >= 3 / 10
    /\ ((sampleSize p < 10)%nat -> confidence p = 0%Z).

(** ** A sample history

    A browser in the UTC time zone (the epoch began on a Thursday, day 4),
    and a channel holding 95 rows taken on a loud Thursday afternoon at
    15:00 and 5 rows taken on a quiet Thursday morning at 09:00. *)

Definition utcDay (t : Time) : nat := Z.to_nat ((t / 86400000 + 4) mod 7)%Z.
Definition utcHours (t : Time) : nat := Z.to_nat ((t / 3600000) mod 24)%Z.

Definition quietFeed : Feed :=
  {| created_at := 32400000%Z; field2 := Some 40; field3 := Some 820;
     field5 := Some 70%Z; field6 := Some 71%Z |}.

Definition loudFeed : Feed :=
  {| created_at := 54000000%Z; field2 := Some 65; field3 := Some 640;
     field5 := Some 90%Z; field6 := Some 91%Z |}.

Definition quietEntry : Entry :=
  {| timestamp := 32400000%Z; hour := 9; dayOfWeek := 4; noise := 40;
     bpm := 70; rrInterval := 820; state := FlowState; isFlowState := true |}.

Definition loudEntry : Entry :=
  {| timestamp := 54000000%Z; hour := 15; dayOfWeek := 4; noise := 65;
     bpm := 90; rrInterval := 640; state := Distracted; isFlowState := false |}.

Definition thinFeeds : list Feed := replicate 95 loudFeed ++ replicate 5 quietFeed.
Definition thinData : list Entry := replicate 95 loudEntry ++ replicate 5 quietEntry.
Definition fewFeeds : list Feed := replicate 50 loudFeed.

(** Thursday 08:00, one week after the rows were taken. *)
Definition sampleNow : Time := 633600000%Z.

(** An hour of the sample forecast whose slot has no flow sample. *)
Definition flowless (i : nat) : bool :=
  let slot := slotOf utcDay utcHours sampleNow i in
  (slot.1 <? 7)%nat && (slot.2 <? 24)%nat
  && (flowStateCount (slotCell slot.1 slot.2 thinData) =? 0)%nat.

End Forecast.

(** * The other tasks of the sketch, and sequences of ticks *)

Module NodeTasks.

Import SensorNode.
Local Open Scope Z_scope.

(** ** Sound sensor ([readSoundSensor]) *)

Definition SOUND_FILTER_SIZE : Z := 5.

Record SoundVars := {
  soundSignalMax : Z;        (* unsigned int *)
  soundSignalMin : Z;        (* unsigned int *)
  soundPeakToPeak : Z;       (* unsigned int *)
  soundDB : R;               (* float *)
  soundBuffer : list R;      (* float soundBuffer[SOUND_FILTER_SIZE] *)
  soundIndex : Z
}.

(** The sampling loop: [samples] are the values [analogRead] delivers
    during the 50 ms window; the result is [(soundSignalMax,
    soundSignalMin)].  The [int] sample is compared with an
    [unsigned int], so it is converted. *)
Definition soundPeaks (samples : list Z) : Z * Z :=
  fold_left (fun '(mx, mn) sample =>
               (if mx <? u32 sample then u32 sample else mx,
                if u32 sample <? mn then u32 sample else mn))
            samples (0, 4095).

(** The mapping of the peak-to-peak value to a level in dB
    ([SOUND_P2P_MIN = 500], [SOUND_P2P_MAX = 1500], [SOUND_DB_MIN = 25],
    [SOUND_DB_MAX = 85]). *)
Definition soundLevel (peakToPeak : Z) : R :=
  if bool_decide (IZR peakToPeak < 500)%R then 25%R
  else if bool_decide (IZR peakToPeak > 1500)%R then 85%R
  else
    let ratio := ((IZR peakToPeak - 500) / (1500 - 500))%R in
    (25 + ratio * (85 - 25))%R.

(** The sum over the filter buffer. *)
Definition soundSum (buffer : list R) : R :=
  fold_left (fun sum i => (sum + default 0 (buffer !! i))%R)
            (seq 0 (Z.to_nat SOUND_FILTER_SIZE)) 0%R.

Definition readSoundSensor (samples : list Z) (v : SoundVars) : SoundVars :=
  let '(mx, mn) := soundPeaks samples in
  let peakToPeak := u32 (mx - mn) in
  let buffer :=
    <[ Z.to_nat (soundIndex v) := soundLevel peakToPeak ]> (soundBuffer v) in
  {| soundSignalMax := mx; soundSignalMin := mn;
     soundPeakToPeak := peakToPeak;
     soundDB := (soundSum buffer / IZR SOUND_FILTER_SIZE)%R;
     soundBuffer := buffer;
     soundIndex := Z.rem (s32 (soundIndex v + 1)) SOUND_FILTER_SIZE |}.

(** The peak-to-peak value of a sampling window. *)
Definition peakToPeakOf (samples : list Z) : Z :=
  let '(mx, mn) := soundPeaks samples in u32 (mx - mn).

(** The filter buffer has its 5 entries, all of them levels from 25 to
    85 dB, and the write index lies inside it. *)
Definition levelValue (x : R) : Prop := (25 <= x <= 85)%R.

Definition soundInRange (v : SoundVars) : Prop :=
  length (soundBuffer v) = 5%nat
  /\ 0 <= soundIndex v < 5
  /\ Forall levelValue (soundBuffer v).

(** The sound task run once for every sampling window. *)
Definition runSound (windows : list (list Z)) (v : SoundVars) : SoundVars :=
  fold_left (fun v samples => readSoundSensor samples v) windows v.

(** The sound variables when [setup] is over. *)
Definition initialSound : SoundVars :=
  {| soundSignalMax := 0; soundSignalMin := 4095; soundPeakToPeak := 0;
     soundDB := 30; soundBuffer := replicate 5 30%R; soundIndex := 0 |}.

(** ** System status ([updateSystemStatus]) *)

Inductive Status :=
| READY | OFFLINE | NOISY | ALERT | RELAXED | STRESSED | CALM | ACTIVE | OPTIMAL.

(** [connected] is [WiFi.status() == WL_CONNECTED]. *)
Definition updateSystemStatus (connected : bool) (v : SoundVars) (s : Node)
  : Status :=
  if negb connected then OFFLINE
  else if bool_decide (soundDB v > 70)%R then NOISY
  else if bool_decide (soundDB v > 60)%R then ALERT
  else if fingerDetected s && (0 <? beatAvg (rate s)) then
    if bool_decide (hrv_RMSSD (hrv s) > 50)%R then RELAXED
    else if bool_decide (hrv_RMSSD (hrv s) < 20)%R then STRESSED
    else if beatAvg (rate s) <? 60 then CALM
    else if 90 <? beatAvg (rate s) then ACTIVE
    else OPTIMAL
  else READY.

(** ** Session log ([logSessionData]) *)

Definition MAX_LOG_ENTRIES : Z := 50.

Record StudySession := {
  session_timestamp : Z;     (* unsigned long *)
  noiseLevel : R;
  heartRate : Z;
  session_hrv : R;
  session_status : Status
}.

Record LogVars := {
  sessionLog : list StudySession;   (* sessionLog[MAX_LOG_ENTRIES] *)
  logIndex : Z;
  logFull : bool
}.

(** What one call writes into [sessionLog[logIndex]]. *)
Definition sessionOf (millis : Z) (v : SoundVars) (s : Node) (status : Status)
  : StudySession :=
  {| session_timestamp := Z.quot (u32 millis) 1000;
     noiseLevel := soundDB v;
     heartRate := beatAvg (rate s);
     session_hrv := hrv_RMSSD (hrv s);
     session_status := status |}.

Definition logSessionData (millis : Z) (v : SoundVars) (s : Node)
  (status : Status) (l : LogVars) : LogVars :=
  let logIndex' := Z.rem (s32 (logIndex l + 1)) MAX_LOG_ENTRIES in
  {| sessionLog :=
       <[ Z.to_nat (logIndex l) := sessionOf millis v s status ]> (sessionLog l);
     logIndex := logIndex';
     logFull := if logIndex' =? 0 then true else logFull l |}.

(** ** The periodic tasks of [loop] *)

Record System := {
  node : Node;
  sound : SoundVars;
  systemStatus : Status;
  sessions : LogVars;
  recordCount : Z            (* unsigned long *)
}.

(** The task run every [sensorInterval]. *)
Definition sensorTask (samples : list Z) (getIR millis : Z) (connected : bool)
  (y : System) : System :=
  let sound' := readSoundSensor samples (sound y) in
  let node' := readHeartSensor_UltraSensitive getIR millis (node y) in
  {| node := node'; sound := sound';
     systemStatus := updateSystemStatus connected sound' node';
     sessions := sessions y; recordCount := recordCount y |}.

(** The task run every [uploadInterval]; the upload itself leaves the
    variables alone. *)
Definition uploadTask (millis : Z) (y : System) : System :=
  {| node := node y; sound := sound y; systemStatus := systemStatus y;
     sessions := logSessionData millis (sound y) (node y) (systemStatus y)
                   (sessions y);
     recordCount := u32 (recordCount y + 1) |}.

(** ** Sequences of ticks *)

(** The heart sensor task run once for every pair [(getIR, millis)]. *)
Definition runTicks (inputs : list (Z * Z)) (s : Node) : Node :=
  fold_left (fun s '(getIR, millis) =>
               readHeartSensor_UltraSensitive getIR millis s)
            inputs s.

(** The readings of a sequence of ticks, as they are stored. *)
Definition readings (inputs : list (Z * Z)) : list Z :=
  (fun input => s32 input.1) <$> inputs.

(** A tick that sees the finger. *)
Definition fingerOn (input : Z * Z) : Prop := IR_THRESHOLD < s32 input.1.

(** ** Well-formed nodes *)

(** Every array has its declared size and every index lies inside its
    array; the sample count of the HRV buffer is the write index until the
    buffer has wrapped once, and 15 from then on. *)
Definition inBounds (s : Node) : Prop :=
  length (rates (rate s)) = 4%nat
  /\ 0 <= rateSpot (rate s) < 4
  /\ length (irWindow (window s)) = 30%nat
  /\ 0 <= irWindowIndex (window s) < 30
  /\ length (rrIntervals (hrv s)) = 15%nat
  /\ 0 <= rrIndex (hrv s) < 15
  /\ (hrvSampleCount (hrv s) = 15 \/ hrvSampleCount (hrv s) = rrIndex (hrv s)).

Definition rateValue (r : Z) : Prop := r = 0 \/ 45 <= r <= 150.
Definition intervalValue (x : Z) : Prop := x = 0 \/ 400 < x <= 1333.

(** The values a node can hold: rates and averaged rate are 0 or from 45
    to 150, the instantaneous rate is at most 149, the stored intervals
    are 0 or from 401 to 1333 ms, and the HRV values are 0 as long as
    fewer than 5 intervals are counted. *)
Definition plausible (s : Node) : Prop :=
  Forall rateValue (rates (rate s))
  /\ rateValue (beatAvg (rate s))
  /\ 0 <= beatsPerMinute (rate s) <= 149
  /\ Forall intervalValue (rrIntervals (hrv s))
  /\ (hrvSampleCount (hrv s) < 5 ->
      hrv_SDNN (hrv s) = 0%R /\ hrv_RMSSD (hrv s) = 0%R).

(** One round of the averaging loop of [averageRates], as a function of
    the rate read. *)
Definition averageStep (acc : Z * Z) (x : Z) : Z * Z :=
  if 0 <? x then (s32 (fst acc + x), s32 (snd acc + 1)) else acc.

(** The node when [setup] is over, with a working sensor. *)
Definition initialNode : Node :=
  {| max30102OK := true; irValue := 0; fingerDetected := false;
     rate := {| rates := replicate 4 0; rateSpot := 0; lastBeat := 0;
                beatsPerMinute := 0; beatAvg := 0; beatDetected := false;
                beatCount := 0 |};
     window := {| irWindow := replicate 30 0; irWindowIndex := 0;
                  irWindowFull := false |};
     acdc := {| irBaseline := 0; irAmplitude := 0; stableReadings := 0;
                irDC := 0; irAC := 0; irMax := 0; irMin := 999999 |};
     hrv := {| rrIntervals := replicate 15 0; rrIndex := 0; hrv_SDNN := 0;
               hrv_RMSSD := 0; hrvSampleCount := 0 |};
     detect := {| lastValue := 0; inPulse := false; pulseStartTime := 0;
                  peakValue := 0 |} |}.

(** The statuses that depend on the heart. *)
Definition heartStatus (status : Status) : Prop :=
  status = RELAXED \/ status = STRESSED \/ status = CALM
  \/ status = ACTIVE \/ status = OPTIMAL.

(** The log task run once for every snapshot
    [(millis, sound, node, status)]. *)
Definition Snapshot : Type := Z * SoundVars * Node * Status.

Definition sessionOfSnapshot (c : Snapshot) : StudySession :=
  let '(millis, v, s, status) := c in sessionOf millis v s status.

Definition runLog (calls : list Snapshot) (l : LogVars) : LogVars :=
  fold_left (fun l '(millis, v, s, status) =>
               logSessionData millis v s status l)
            calls l.

(** A log in which nothing has been written yet (the 50 slots hold a
    placeholder). *)
Definition placeholderSession : StudySession :=
  {| session_timestamp := 0; noiseLevel := 0; heartRate := 0;
     session_hrv := 0; session_status := READY |}.

Definition freshLog : LogVars :=
  {| sessionLog := replicate 50 placeholderSession; logIndex := 0;
     logFull := false |}.

(** A system whose node has a finger on the sensor and a heart rate. *)
Definition pulsingSystem : System :=
  {| node := pulsingNode; sound := initialSound; systemStatus := OPTIMAL;
     sessions := freshLog; recordCount := 0 |}.

End NodeTasks.

(** * Rows of a slot, and sequences of forecast runs *)

Module ForecastRuns.

Import Forecast.
Local Open Scope R_scope.

(** The rows of a slot, and the rows flagged as flow state. *)
Definition slotRows (d h : nat) (data : list Entry) : list Entry :=
  filter (inSlot d h) data.

Definition flowRows (rows : list Entry) : list Entry :=
  filter (fun e => isFlowState e = true) rows.

(** A row of the feed whose heart rate passes the filter of
    [fetchPredictionHistoricalData]. *)
Definition usable (feed : Feed) : Prop := 40 <= usedBpm feed <= 200.

Section Clock.

Variable getDay getHours : Time -> nat.

(** A prediction of the forecast made at [now]: an hour of the window,
    the slot of that hour, and values in their ranges. *)
Definition wellFormed (now : Time) (p : Prediction) : Prop :=
  (1 <= hoursFromNow p <= 24)%nat
  /\ time p = (now + Z.of_nat (hoursFromNow p) * 3600000)%Z
  /\ pred_dayOfWeek p = getDay (time p)
  /\ pred_hour p = getHours (time p)
  /\ (1 <= sampleSize p)%nat
  /\ 3 / 10 <= pred_probability p <= 1
  /\ 1 / 2 <= pred_consistency p <= 1
  /\ (0 <= confidence p <= 100)%Z.

(** The stored [predictionData] as the runs leave it. *)
Definition wellFormedData (pd : PredictionData) : Prop :=
  (length (predictions pd) <= 5)%nat
  /\ (exists now, Forall (wellFormed now) (predictions pd))
  /\ (0 <= overallConfidence pd <= 100)%Z
  /\ (dataQuality pd = insufficient <-> lastUpdate pd = None)
  /\ (lastUpdate pd = None -> predictions pd = [] /\ overallConfidence pd = 0%Z).

(** Runs one after the other, each [(response, now, finished)] on the
    data the run before it stored. *)
Definition runAll (calls : list (option (list Feed) * Time * Time))
  (pd : PredictionData) : PredictionData :=
  fold_left (fun pd '(response, now, finished) =>
               stored (runPredictionAnalysis getDay getHours response
                         now finished pd))
            calls pd.

End Clock.

(** A prediction for Thursday 09:00, one hour after [sampleNow]. *)
Definition samplePrediction : Prediction :=
  {| time := 637200000%Z; pred_hour := 9; pred_dayOfWeek := 4;
     pred_probability := 1; confidence := 80%Z; expectedNoise := 40;
     expectedBPM := 70; expectedRRInterval := 820; sampleSize := 50;
     pred_consistency := 1; hoursFromNow := 1 |}.

End ForecastRuns.

(** * Facts about the sensing node *)

Module SensorNodeFacts.

Import SensorNode.
Local Open Scope Z_scope.

(** ** Machine integers inside their range *)

Lemma s32_small z : - 2 ^ 31 <= z < 2 ^ 31 -> s32 z = z.
Proof. intros Hz. unfold s32. rewrite Z.mod_small; lia. Qed.

Lemma u32_small z : 0 <= z < 2 ^ 32 -> u32 z = z.
Proof. intros Hz. unfold u32. now rewrite Z.mod_small. Qed.

Lemma u8_small z : 0 <= z < 2 ^ 8 -> u8 z = z.
Proof. intros Hz. unfold u8. now rewrite Z.mod_small. Qed.

(** ** Loss of the finger *)




(** ** The falling edge *)

Lemma fallingEdge_rate_hrv (millis : Z) (s1 s2 : Node) :
  rate s1 = rate s2 -> hrv s1 = hrv s2 ->
  rate (fallingEdge millis s1) = rate (fallingEdge millis s2)
  /\ hrv (fallingEdge millis s1) = hrv (fallingEdge millis s2).
Proof.
  destruct s1, s2; cbn [rate hrv]; intros -> ->.
  unfold fallingEdge; cbn [with_detect with_rate rate hrv].
  destruct (_ && _); [unfold computeBeat; cbn [with_rate rate hrv];
                      destruct (_ && _) |]; split; reflexivity.
Qed.

Lemma fallingEdge_inPulse (millis : Z) (s : Node) :
  inPulse (detect (fallingEdge millis s)) = false.
Proof.
  unfold fallingEdge; cbn [with_detect with_rate rate hrv detect].
  destruct (_ && _); [unfold computeBeat; cbn [with_rate rate hrv];
                      destruct (_ && _) |]; reflexivity.
Qed.

Lemma detect_falling_edge (s : Node) (millis : Z) :
  30 <= irAC (acdc s) ->
  fallingEdgeSeen s = true ->
  let s' := detectHeartBeat_Adaptive millis s in
  rate s' = rate (fallingEdge millis s)
  /\ hrv s' = hrv (fallingEdge millis s)
  /\ inPulse (detect s') = false.
Proof.
  intros Hac Hfall. unfold fallingEdgeSeen in Hfall.
  apply andb_true_iff in Hfall as [Hin Hlt].
  unfold detectHeartBeat_Adaptive.
  assert (Hac' : (irAC (acdc s) <? 30) = false) by (apply Z.ltb_ge; lia).
  rewrite Hac'. unfold risingEdge. rewrite Hin. cbn [negb andb].
  rewrite Hin.
  set (sp := if peakValue (detect s) <? irValue s then _ else s).
  assert (Hsp : irValue sp = irValue s /\ threshold sp = threshold s
                /\ rate sp = rate s /\ hrv sp = hrv s).
  { subst sp. destruct (peakValue (detect s) <? irValue s); repeat split; reflexivity. }
  destruct Hsp as (Hir & Hth & Hr & Hh).
  rewrite Hir, Hth, Hlt. cbv zeta. cbn [with_detect rate hrv detect inPulse].
  destruct (fallingEdge_rate_hrv millis sp s Hr Hh) as [-> ->].
  repeat split. apply fallingEdge_inPulse.
Qed.


Lemma calculateHRV_frame (h : HrvVars) :
  rrIntervals (calculateHRV h) = rrIntervals h
  /\ rrIndex (calculateHRV h) = rrIndex h
  /\ hrvSampleCount (calculateHRV h) = hrvSampleCount h.
Proof.
  unfold calculateHRV. destruct (hrvSampleCount h <? 5); [easy |].
  destruct (hrvSquaredDiffs h); easy.
Qed.

Lemma instant_rate_range (delta : Z) :
  400 < delta < 3000 ->
  20 <= Z.quot 60000 delta <= 149.
Proof.
  intros Hd. rewrite Z.quot_div_nonneg by lia. split.
  - apply Z.div_le_lower_bound; lia.
  - apply Z.lt_succ_r. apply Z.div_lt_upper_bound; lia.
Qed.



(** ** The window statistics and the threshold *)

(** The loop over the indices of an array is the loop over its elements. *)
Lemma fold_left_indices {B} (f : B -> Z -> B) (l pre : list Z) (acc : B) :
  fold_left (fun a i => f a (default 0 ((pre ++ l) !! i)))
            (seq (length pre) (length l)) acc
  = fold_left f l acc.
Proof.
  revert pre acc. induction l as [| x l IH]; intros pre acc; [reflexivity |].
  cbn [length seq fold_left].
  rewrite list_lookup_middle by reflexivity. cbn [default].
  specialize (IH (pre ++ [x]) (f acc x)).
  rewrite <- app_assoc in IH. cbn [app] in IH.
  rewrite length_app in IH. cbn [length] in IH.
  replace (length pre + 1)%nat with (S (length pre)) in IH by lia.
  exact IH.
Qed.

Lemma acdcLoop_elements (w : WindowVars) :
  length (irWindow w) = 30%nat ->
  acdcLoop w = fold_left acdcAdd (irWindow w) (0, irAt w 0, irAt w 0).
Proof.
  intros Hlen. unfold acdcLoop.
  change (Z.to_nat IR_WINDOW_SIZE) with 30%nat. rewrite <- Hlen.
  exact (fold_left_indices acdcAdd (irWindow w) [] _).
Qed.

Lemma acdcAdd_fold (l : list Z) (sum mx mn : Z) :
  Forall sample26 l ->
  0 <= sum -> sum + 2 ^ 26 * Z.of_nat (length l) < 2 ^ 31 ->
  fold_left acdcAdd l (sum, mx, mn)
  = (sum + sumZ l, foldr Z.max mx l, foldr Z.min mn l).
Proof.
  revert sum mx mn. induction l as [| x l IH]; intros sum mx mn Hl Hs Hb.
  - cbn. now rewrite Z.add_0_r.
  - apply Forall_cons in Hl as [Hx Hl]. unfold sample26 in Hx.
    cbn [fold_left acdcAdd length] in *.
    rewrite s32_small by lia.
    rewrite IH by (try assumption; lia).
    cbn [sumZ foldr]. f_equal; [f_equal; [fold (sumZ l); lia |] |].
    + clear. revert mx. induction l as [| y l IH]; intros mx; cbn [foldr].
      * destruct (Z.ltb_spec mx x); lia.
      * rewrite IH. destruct (Z.ltb_spec mx x); lia.
    + clear. revert mn. induction l as [| y l IH]; intros mn; cbn [foldr].
      * destruct (Z.ltb_spec x mn); lia.
      * rewrite IH. destruct (Z.ltb_spec x mn); lia.
Qed.

Lemma foldr_max_bounds (l : list Z) (a : Z) :
  Forall sample26 l -> sample26 a ->
  a <= foldr Z.max a l < 2 ^ 26.
Proof.
  unfold sample26. induction 1 as [| x l Hx Hl IH]; intros Ha; cbn [foldr]; lia.
Qed.

Lemma foldr_min_bounds (l : list Z) (a : Z) :
  Forall sample26 l -> sample26 a ->
  0 <= foldr Z.min a l <= a.
Proof.
  unfold sample26. induction 1 as [| x l Hx Hl IH]; intros Ha; cbn [foldr]; lia.
Qed.

Lemma sumZ_bounds (l : list Z) :
  Forall sample26 l -> 0 <= sumZ l <= 2 ^ 26 * Z.of_nat (length l).
Proof.
  unfold sample26. induction 1 as [| x l Hx Hl IH]; cbn [sumZ foldr length].
  - lia.
  - fold (sumZ l). lia.
Qed.

(** What [calculateACDC] leaves in the globals, for a window of 30
    samples of at most 26 bits. *)
Lemma calculateACDC_values (s : Node) :
  let w := irWindow (window s) in
  length w = 30%nat -> Forall sample26 w ->
  let s' := calculateACDC s in
  irBaseline (acdc s') = sumZ w / 30
  /\ irAC (acdc s') = (maxZ w - minZ w) / 2
  /\ threshold s' = sumZ w / 30 + (3 * ((maxZ w - minZ w) / 2)) / 10
  /\ stableReadings (acdc s') = stableReadings (acdc s)
  /\ window s' = window s /\ detect s' = detect s /\ irValue s' = irValue s.
Proof.
  intros w Hlen Hw s'.
  assert (Hloop : acdcLoop (window s) = (sumZ w, maxZ w, minZ w)).
  { rewrite acdcLoop_elements by exact Hlen. fold w.
    unfold irAt. fold w.
    destruct w as [| x0 w0] eqn:Ew; [discriminate Hlen |].
    cbn [lookup list_lookup default].
    rewrite acdcAdd_fold; [reflexivity | exact Hw | lia |].
    rewrite Hlen. reflexivity. }
  pose proof (sumZ_bounds w Hw) as Hsum. rewrite Hlen in Hsum.
  assert (Hmm : 0 <= minZ w <= maxZ w /\ maxZ w < 2 ^ 26).
  { unfold minZ, maxZ. destruct w as [| x0 w0]; [discriminate Hlen |].
    cbn [hd]. pose proof Hw as Hw'. apply Forall_cons in Hw' as [Hx0 _].
    pose proof (foldr_max_bounds _ x0 Hw Hx0).
    pose proof (foldr_min_bounds _ x0 Hw Hx0). lia. }
  subst s'. unfold calculateACDC. rewrite Hloop.
  unfold threshold. cbn [with_acdc acdc irBaseline irAC stableReadings window detect irValue].
  change IR_WINDOW_SIZE with 30.
  rewrite (s32_small (maxZ w - minZ w)) by lia.
  rewrite (Z.quot_div_nonneg (sumZ w)) by lia.
  rewrite (Z.quot_div_nonneg (maxZ w - minZ w)) by lia.
  assert (Hac : 0 <= (maxZ w - minZ w) / 2 < 2 ^ 25).
  { split; [apply Z.div_pos; lia | apply Z.div_lt_upper_bound; lia]. }
  assert (Hbase : 0 <= sumZ w / 30 <= 2 ^ 26).
  { split; [apply Z.div_pos; lia | apply Z.div_le_upper_bound; lia]. }
  rewrite (s32_small (_ * 3)) by lia.
  rewrite Z.quot_div_nonneg by lia.
  rewrite (Z.mul_comm _ 3).
  assert (Hq : 0 <= 3 * ((maxZ w - minZ w) / 2) / 10 < 2 ^ 26).
  { split; [apply Z.div_pos; lia | apply Z.div_lt_upper_bound; lia]. }
  rewrite s32_small by lia.
  repeat split; reflexivity.
Qed.

Ltac split_branches :=
  repeat match goal with
         | |- context [if ?c then _ else _] => destruct c
         end.

Lemma fallingEdge_frame (millis : Z) (s : Node) :
  window (fallingEdge millis s) = window s
  /\ acdc (fallingEdge millis s) = acdc s
  /\ irValue (fallingEdge millis s) = irValue s.
Proof.
  unfold fallingEdge, computeBeat, admitBeat.
  cbn [with_detect with_rate with_hrv rate hrv].
  split_branches; repeat split; reflexivity.
Qed.

(** The detector writes neither the window nor the baseline and the
    amplitude: the threshold it used can be read back afterwards. *)
Lemma detect_frame (millis : Z) (s : Node) :
  let s' := detectHeartBeat_Adaptive millis s in
  window s' = window s
  /\ irBaseline (acdc s') = irBaseline (acdc s)
  /\ irAC (acdc s') = irAC (acdc s)
  /\ threshold s' = threshold s.
Proof.
  cbv zeta. unfold threshold, detectHeartBeat_Adaptive.
  destruct (irAC (acdc s) <? 30); [repeat split; reflexivity |].
  destruct (risingEdge s); cbn [with_acdc with_detect detect inPulse].
  - destruct (peakValue _ <? irValue _);
      cbn [with_acdc with_detect detect inPulse irValue acdc];
      match goal with
      | |- context [if ?c then _ else _] => destruct c
      end; cbn [with_acdc with_detect window acdc];
      rewrite ?(proj1 (fallingEdge_frame _ _)),
              ?(proj1 (proj2 (fallingEdge_frame _ _)));
      repeat split; reflexivity.
  - destruct (inPulse (detect s)); [| repeat split; reflexivity].
    destruct (peakValue _ <? irValue _);
      cbn [with_acdc with_detect detect inPulse irValue acdc];
      match goal with
      | |- context [if ?c then _ else _] => destruct c
      end; cbn [with_acdc with_detect window acdc];
      rewrite ?(proj1 (fallingEdge_frame _ _)),
              ?(proj1 (proj2 (fallingEdge_frame _ _)));
      repeat split; reflexivity.
Qed.

Lemma detect_weak_signal (millis : Z) (s : Node) :
  irAC (acdc s) < 30 ->
  let s' := detectHeartBeat_Adaptive millis s in
  detect s' = detect s /\ stableReadings (acdc s') = 0
  /\ rate s' = rate s /\ hrv s' = hrv s.
Proof.
  intros Hweak. cbv zeta. unfold detectHeartBeat_Adaptive.
  apply Z.ltb_lt in Hweak. rewrite Hweak. repeat split; reflexivity.
Qed.

(** C4, as stated, fails: on a full window with mean 100032 and half
    swing 32, the threshold is 100041, that is the mean plus 9, while
    [32 * 0.3 = 9.6] rounds to 10 (the only integer within one half of
    9.6). *)
Lemma threshold_truncates :
  let s' := readHeartSensor_UltraSensitive 100000 5000 swingingNode in
  let w := irWindow (window s') in
  irWindowFull (window s') = true
  /\ sumZ w = 30 * 100032
  /\ maxZ w - minZ w = 2 * 32
  /\ threshold s' = 100032 + 9
  /\ forall r : Z, Z.abs (10 * r - 3 * 32) <= 5 -> threshold s' <> 100032 + r.
Proof.
  cbv zeta.
  assert (Ht : threshold (readHeartSensor_UltraSensitive 100000 5000 swingingNode)
               = 100041) by (vm_compute; reflexivity).
  rewrite Ht.
  split; [vm_compute; reflexivity |].
  split; [vm_compute; reflexivity |].
  split; [vm_compute; reflexivity |].
  split; [reflexivity |]. intros r Hr. lia.
Qed.

(** C4 (amended): on every tick that leaves the 30-sample window full
    (sensor present, reading above the detection threshold), the
    threshold is [baseline + amplitude * 3 / 10] in integer arithmetic:
    the baseline is the mean of the window rounded down, the amplitude is
    half of maximum minus minimum rounded down, and three tenths of it
    are rounded down again; and when the amplitude is below 30 the
    statics of the detector are untouched (no rising edge) and the
    stable-readings counter is zero. *)
Theorem tick_threshold (s : Node) (getIR millis : Z) :
  max30102OK s = true ->
  IR_THRESHOLD < getIR < 2 ^ 26 ->
  length (irWindow (window s)) = 30%nat ->
  Forall sample26 (irWindow (window s)) ->
  let s' := readHeartSensor_UltraSensitive getIR millis s in
  let w := irWindow (window s') in
  irWindowFull (window s') = true ->
  irBaseline (acdc s') = sumZ w / 30
  /\ irAC (acdc s') = (maxZ w - minZ w) / 2
  /\ threshold s' = sumZ w / 30 + (3 * ((maxZ w - minZ w) / 2)) / 10
  /\ (irAC (acdc s') < 30 ->
      detect s' = detect s /\ stableReadings (acdc s') = 0).
Proof.
  intros Hok Hir Hlen Hw. unfold readHeartSensor_UltraSensitive.
  rewrite Hok. cbn [negb].
  unfold IR_THRESHOLD in Hir.
  rewrite (s32_small getIR) by lia.
  assert (Hf : (IR_THRESHOLD <? getIR) = true) by (apply Z.ltb_lt; apply Hir).
  rewrite Hf. cbn [negb].
  set (s1 := with_window _ _).
  assert (Hlen1 : length (irWindow (window s1)) = 30%nat).
  { subst s1. cbn [with_window window irWindow]. now rewrite length_insert. }
  assert (Hw1 : Forall sample26 (irWindow (window s1))).
  { subst s1. cbn [with_window window irWindow].
    apply Forall_insert; [exact Hw | unfold sample26; lia]. }
  assert (Hd1 : detect s1 = detect s) by reflexivity.
  clearbody s1.
  destruct (irWindowFull (window s1)) eqn:Hfull.
  - destruct (calculateACDC_values s1 Hlen1 Hw1)
      as (Hb & Ha & Ht & _ & Hwin & Hdet & _).
    destruct (detect_frame millis (calculateACDC s1)) as (Fw & Fb & Fa & Ft).
    cbv zeta. intros _. rewrite Fw, Fb, Fa, Ft, Hwin.
    split; [exact Hb |]. split; [exact Ha |]. split; [exact Ht |].
    intros Hweak.
    destruct (detect_weak_signal millis (calculateACDC s1) Hweak)
      as (D1 & D2 & _).
    rewrite D1, D2, Hdet, Hd1. split; reflexivity.
  - cbv zeta. rewrite Hfull. discriminate.
Qed.

Lemma tick_threshold_witness :
  let s' := readHeartSensor_UltraSensitive 100000 5000 swingingNode in
  threshold s' = 100041.
Proof.
  pose proof (tick_threshold swingingNode 100000 5000 eq_refl) as H.
  assert (H1 : IR_THRESHOLD < 100000 < 2 ^ 26) by (vm_compute; split; reflexivity).
  assert (H2 : length (irWindow (window swingingNode)) = 30%nat) by reflexivity.
  assert (H3 : Forall sample26 (irWindow (window swingingNode))).
  { unfold sample26. repeat constructor; vm_compute; congruence. }
  specialize (H H1 H2 H3). cbv zeta in H.
  assert (H4 : irWindowFull (window (readHeartSensor_UltraSensitive 100000 5000
                                        swingingNode)) = true)
    by (vm_compute; reflexivity).
  destruct (H H4) as (_ & _ & Ht & _).
  cbv zeta. rewrite Ht. vm_compute. reflexivity.
Defined.

(** ** HRV statistics *)

Lemma s32_u32 z : - 2 ^ 31 <= z < 2 ^ 31 -> s32 (u32 z) = z.
Proof.
  intros Hz. unfold s32, u32. rewrite Z.add_mod_idemp_l by lia.
  rewrite Z.mod_small; lia.
Qed.

Lemma fold_left_ext_in {A B} (f g : B -> A -> B) (l : list A) (acc : B) :
  (forall a x, In x l -> f a x = g a x) ->
  fold_left f l acc = fold_left g l acc.
Proof.
  revert acc. induction l as [| x l IH]; intros acc Hfg; [reflexivity |].
  cbn [fold_left]. rewrite Hfg by (left; reflexivity).
  apply IH. intros a y Hy. apply Hfg. now right.
Qed.

(** A loop over the first [n] indices of an array is a loop over its
    first [n] elements. *)
Lemma fold_left_indices_take {B} (f : B -> Z -> B) (l : list Z) (n : nat) (acc : B) :
  (n <= length l)%nat ->
  fold_left (fun a i => f a (default 0 (l !! i))) (seq 0 n) acc
  = fold_left f (take n l) acc.
Proof.
  intros Hn.
  rewrite <- (fold_left_indices f (take n l) [] acc).
  rewrite length_take_le by exact Hn. cbn [length app].
  apply fold_left_ext_in. intros a i Hi. apply in_seq in Hi.
  now rewrite lookup_take_lt by lia.
Qed.

Lemma fold_left_sumR {A} (g : A -> R) (l : list A) (acc : R) :
  fold_left (fun a x => (a + g x)%R) l acc = (acc + sumR (g <$> l))%R.
Proof.
  revert acc. induction l as [| x l IH]; intros acc; cbn [fold_left fmap list_fmap sumR foldr].
  - lra.
  - rewrite IH. fold (sumR (g <$> l)). lra.
Qed.

Lemma hrvSquaredDiffs_steps (h : HrvVars) :
  hrvSquaredDiffs h
  = fold_left (squaredDiffStep (rrIntervals h))
              (seq 1 (Z.to_nat (hrvSampleCount h) - 1)) (0%R, 0).
Proof.
  unfold hrvSquaredDiffs. apply fold_left_ext_in.
  intros [sum count] i _. reflexivity.
Qed.

(** The loop started in the middle of the array: [p] is the element
    before the ones still to visit. *)
Lemma squaredDiffs_fold (l pre : list Z) (p : Z) (sum : R) (count : Z) :
  interval15 p -> Forall interval15 l ->
  0 <= count -> count + Z.of_nat (length l) < 2 ^ 31 ->
  fold_left (squaredDiffStep (pre ++ p :: l))
            (seq (S (length pre)) (length l)) (sum, count)
  = ((sum + sumR ((fun d => (IZR d) ^ 2)%R <$> successiveDiffs (p :: l)))%R,
     count + Z.of_nat (length l)).
Proof.
  revert pre p sum count.
  induction l as [| x l IH]; intros pre p sum count Hp Hl Hc Hb.
  - cbn. f_equal; [lra | lia].
  - apply Forall_cons in Hl as [Hx Hl].
    unfold interval15 in Hp, Hx.
    cbn [length seq fold_left] in *.
    assert (Hstep : squaredDiffStep (pre ++ p :: x :: l) (sum, count) (S (length pre))
                    = ((sum + IZR ((x - p) * (x - p)))%R, count + 1)).
    { unfold squaredDiffStep. cbn [fst snd].
      replace (S (length pre) - 1)%nat with (length pre) by lia.
      rewrite (list_lookup_middle pre (x :: l) p (length pre)) by reflexivity.
      replace (pre ++ p :: x :: l) with ((pre ++ [p]) ++ x :: l)
        by (now rewrite <- app_assoc).
      rewrite (list_lookup_middle (pre ++ [p]) l x (S (length pre)))
        by (rewrite length_app; cbn; lia).
      cbn [default from_option Datatypes.id].
      rewrite (s32_u32 (x - p)) by lia.
      rewrite (s32_small ((x - p) * (x - p))) by nia.
      rewrite (s32_small (count + 1)) by lia. reflexivity. }
    rewrite Hstep.
    specialize (IH (pre ++ [p]) x (sum + IZR ((x - p) * (x - p)))%R (count + 1)).
    rewrite length_app in IH. cbn [length] in IH.
    replace (length pre + 1)%nat with (S (length pre)) in IH by lia.
    rewrite <- app_assoc in IH. cbn [app] in IH.
    rewrite IH by (try assumption; unfold interval15; lia).
    unfold successiveDiffs. cbn [tail zip_with fmap list_fmap sumR foldr length].
    f_equal; [| lia].
    rewrite mult_IZR. lra.
Qed.

Section Statistics.

Variable h : HrvVars.

Hypothesis array_length : length (rrIntervals h) = 15%nat.
Hypothesis count_range : 5 <= hrvSampleCount h <= 15.

Lemma hrvSamples_length :
  length (hrvSamples h) = Z.to_nat (hrvSampleCount h).
Proof. unfold hrvSamples. apply length_take_le. lia. Qed.

Lemma count_INR : IZR (hrvSampleCount h) = INR (length (hrvSamples h)).
Proof.
  rewrite hrvSamples_length, INR_IZR_INZ. f_equal. lia.
Qed.

Lemma hrvMean_meanOf : hrvMean h = meanOf (hrvSamples h).
Proof.
  unfold hrvMean, meanOf. rewrite count_INR. f_equal.
  unfold rrAt.
  rewrite (fold_left_indices_take (fun a x => (a + IZR x)%R)) by lia.
  fold (hrvSamples h). rewrite fold_left_sumR. lra.
Qed.

Lemma sdnn_populationSD : sqrt (hrvVariance h) = populationSD (hrvSamples h).
Proof.
  unfold hrvVariance, populationSD. rewrite count_INR. do 2 f_equal.
  unfold rrAt. rewrite hrvMean_meanOf.
  rewrite (fold_left_indices_take
             (fun a x => (a + (IZR x - meanOf (hrvSamples h))
                              * (IZR x - meanOf (hrvSamples h)))%R))
    by lia.
  fold (hrvSamples h). rewrite fold_left_sumR. rewrite Rplus_0_l. f_equal.
  apply list_fmap_ext. intros _ x _. ring.
Qed.

Lemma squaredDiffs_values :
  Forall interval15 (hrvSamples h) ->
  hrvSquaredDiffs h
  = (sumR ((fun d => (IZR d) ^ 2)%R <$> successiveDiffs (hrvSamples h)),
     Z.of_nat (length (successiveDiffs (hrvSamples h)))).
Proof.
  intros Hxs. rewrite hrvSquaredDiffs_steps.
  pose proof hrvSamples_length as Hn.
  destruct (hrvSamples h) as [| p l] eqn:Exs; [cbn in Hn; lia |].
  apply Forall_cons in Hxs as [Hp Hl].
  cbn [length] in Hn.
  replace (Z.to_nat (hrvSampleCount h) - 1)%nat with (length l) by lia.
  transitivity (fold_left (squaredDiffStep (p :: l)) (seq 1 (length l)) (0%R, 0)).
  { apply fold_left_ext_in. intros acc i Hi. apply in_seq in Hi.
    unfold squaredDiffStep. rewrite <- Exs. unfold hrvSamples.
    rewrite !lookup_take_lt by lia. reflexivity. }
  pose proof (squaredDiffs_fold l [] p 0 0 Hp Hl) as Hfold.
  cbn [app length] in Hfold. rewrite Hfold by lia.
  f_equal; [lra |].
  unfold successiveDiffs. rewrite length_zip_with. cbn [tail length]. lia.
Qed.

Lemma rmssd_rootMeanSquare :
  Forall interval15 (hrvSamples h) ->
  hrv_RMSSD (calculateHRV h) = rootMeanSquare (successiveDiffs (hrvSamples h)).
Proof.
  intros Hxs. unfold calculateHRV.
  assert (Hc : (hrvSampleCount h <? 5) = false) by (apply Z.ltb_ge; lia).
  rewrite Hc, (squaredDiffs_values Hxs). cbn [hrv_RMSSD].
  assert (Hlen : length (successiveDiffs (hrvSamples h))
                 = (Z.to_nat (hrvSampleCount h) - 1)%nat).
  { unfold successiveDiffs. rewrite length_zip_with.
    pose proof hrvSamples_length as Hn.
    destruct (hrvSamples h); cbn [tail length] in *; lia. }
  assert (Hpos : (0 <? Z.of_nat (length (successiveDiffs (hrvSamples h)))) = true)
    by (apply Z.ltb_lt; lia).
  rewrite Hpos. unfold rootMeanSquare. now rewrite INR_IZR_INZ.
Qed.

End Statistics.

(** Statistics of a constant sequence. *)

Lemma sumR_all_zero (l : list R) : Forall (eq 0%R) l -> sumR l = 0%R.
Proof.
  induction 1 as [| x l Hx Hl IH]; cbn [sumR foldr]; [reflexivity |].
  fold (sumR l). rewrite IH, <- Hx. lra.
Qed.

Lemma meanOf_constant (c : Z) (l : list Z) :
  l <> [] -> Forall (eq c) l -> meanOf l = IZR c.
Proof.
  intros Hne Hl. unfold meanOf.
  assert (Hsum : sumR (IZR <$> l) = (INR (length l) * IZR c)%R).
  { clear Hne. induction Hl as [| x l Hx Hl IH].
    - cbn. lra.
    - cbn [fmap list_fmap sumR foldr length]. fold (sumR (IZR <$> l)).
      rewrite S_INR, <- Hx, IH. change (list_fmap _ _ IZR l) with (IZR <$> l).
      lra. }
  rewrite Hsum. field. apply not_0_INR.
  destruct l; [contradiction | discriminate].
Qed.

Lemma populationSD_constant (c : Z) (l : list Z) :
  l <> [] -> Forall (eq c) l -> populationSD l = 0%R.
Proof.
  intros Hne Hl. unfold populationSD.
  rewrite (meanOf_constant c l Hne Hl).
  rewrite sumR_all_zero.
  - unfold Rdiv. rewrite Rmult_0_l. apply sqrt_0.
  - apply Forall_fmap. eapply Forall_impl; [exact Hl |].
    intros x <-. cbn. ring.
Qed.

Lemma successiveDiffs_constant (c : Z) (l : list Z) :
  Forall (eq c) l -> Forall (eq 0) (successiveDiffs l).
Proof.
  intros Hl. unfold successiveDiffs.
  assert (Ht : Forall (eq c) (tail l)) by (destruct Hl; [constructor | assumption]).
  revert Ht. generalize (tail l) as t.
  induction Hl as [| x l Hx Hl IH]; intros t Ht; [constructor |].
  destruct Ht as [| y t Hy Ht]; cbn [zip_with]; constructor.
  - lia.
  - now apply IH.
Qed.

Lemma rootMeanSquare_zero (ds : list Z) :
  Forall (eq 0) ds -> rootMeanSquare ds = 0%R.
Proof.
  intros Hds. unfold rootMeanSquare. rewrite sumR_all_zero.
  - unfold Rdiv. rewrite Rmult_0_l. apply sqrt_0.
  - apply Forall_fmap. eapply Forall_impl; [exact Hds |].
    intros d <-. cbn. ring.
Qed.

(** C5: with fewer than 5 inter-beat intervals both HRV values are zero;
    with [N >= 5] intervals (the first [N] entries of the 15-entry
    buffer), SDNN is the population standard deviation of these entries
    and RMSSD the root mean square of their [N - 1] successive
    differences in buffer order (for intervals of less than [2 ^ 15] ms,
    which the detector's bound of 3000 ms guarantees); and when all [N]
    are 1000 ms both values are zero. *)
Theorem hrv_values (h : HrvVars) :
  length (rrIntervals h) = 15%nat ->
  hrvSampleCount h <= 15 ->
  let h' := calculateHRV h in
  (hrvSampleCount h < 5 -> hrv_SDNN h' = 0%R /\ hrv_RMSSD h' = 0%R)
  /\ (5 <= hrvSampleCount h -> Forall interval15 (hrvSamples h) ->
      hrv_SDNN h' = populationSD (hrvSamples h)
      /\ hrv_RMSSD h' = rootMeanSquare (successiveDiffs (hrvSamples h)))
  /\ (5 <= hrvSampleCount h -> Forall (eq 1000) (hrvSamples h) ->
      hrv_SDNN h' = 0%R /\ hrv_RMSSD h' = 0%R).
Proof.
  intros Hlen Hmax h'.
  assert (Hformula : 5 <= hrvSampleCount h -> Forall interval15 (hrvSamples h) ->
            hrv_SDNN h' = populationSD (hrvSamples h)
            /\ hrv_RMSSD h' = rootMeanSquare (successiveDiffs (hrvSamples h))).
  { intros Hmin Hxs. split.
    - subst h'. unfold calculateHRV.
      assert (Hc : (hrvSampleCount h <? 5) = false) by (apply Z.ltb_ge; lia).
      rewrite Hc. destruct (hrvSquaredDiffs h). cbn [hrv_SDNN].
      apply sdnn_populationSD; [exact Hlen | lia].
    - apply rmssd_rootMeanSquare; [exact Hlen | lia | exact Hxs]. }
  split; [| split; [exact Hformula |]].
  - intros Hfew. subst h'. unfold calculateHRV.
    apply Z.ltb_lt in Hfew. rewrite Hfew. split; reflexivity.
  - intros Hmin Hsteady.
    assert (Hxs : Forall interval15 (hrvSamples h)).
    { eapply Forall_impl; [exact Hsteady |]. intros x <-.
      unfold interval15. lia. }
    destruct (Hformula Hmin Hxs) as [-> ->].
    assert (Hne : hrvSamples h <> []).
    { intros E. apply (f_equal length) in E.
      rewrite hrvSamples_length in E by (try exact Hlen; lia).
      cbn in E. lia. }
    split.
    + exact (populationSD_constant 1000 _ Hne Hsteady).
    + apply rootMeanSquare_zero.
      exact (successiveDiffs_constant 1000 _ Hsteady).
Qed.

Lemma hrv_values_witness :
  hrv_SDNN (calculateHRV steadyHrv) = 0%R
  /\ hrv_RMSSD (calculateHRV steadyHrv) = 0%R.
Proof.
  pose proof (hrv_values steadyHrv eq_refl) as H.
  assert (H1 : hrvSampleCount steadyHrv <= 15) by (vm_compute; discriminate).
  specialize (H H1). cbv zeta in H. destruct H as (_ & _ & H).
  apply H.
  - vm_compute; discriminate.
  - repeat constructor.
Defined.

End SensorNodeFacts.

(** * Facts about the prediction module *)

Module ForecastFacts.

Import Forecast.
Local Open Scope R_scope.

(** ** State classification *)

Lemma quadrant_functional (noiseDb bpm rr : R) (s1 s2 : State) :
  quadrant noiseDb bpm rr s1 -> quadrant noiseDb bpm rr s2 -> s1 = s2.
Proof. intros H1 H2. destruct H1; destruct H2; tauto. Qed.

Lemma classify_in_range (noiseDb bpm rr : R) :
  40 <= bpm <= 200 ->
  quadrant noiseDb bpm rr (classifyStateForPrediction noiseDb bpm rr).
Proof.
  intros Hb. unfold classifyStateForPrediction.
  unfold BPM_MIN_VALID, BPM_MAX_VALID, NOISE_THRESHOLD, HRV_THRESHOLD,
    BPM_LOW, BPM_HIGH.
  rewrite (bool_decide_eq_false_2 (bpm < 40)) by lra.
  rewrite (bool_decide_eq_false_2 (bpm > 200)) by lra.
  cbn [orb].
  destruct (bool_decide_reflect (noiseDb < 55)) as [Hq | Hq];
    destruct (bool_decide_reflect (rr > 700)) as [Hh | Hh];
    destruct (bool_decide_reflect (bpm >= 60)) as [Hl | Hl];
    destruct (bool_decide_reflect (bpm <= 80)) as [Hu | Hu];
    cbn [andb orb negb];
    constructor; unfold isQuiet, isGoodPhysio; lra.
Qed.

(** C2: a heart rate below 40 or above 200 gives [Standby] whatever the
    noise level and the R-R interval; any other input gives the state of
    its quadrant, where quiet is [noiseDb < 55] and good physiology is
    [rrIntervalMs > 700] or [60 <= bpm <= 80]. *)
Theorem classify_quadrants (noiseDb bpm rrIntervalMs : R) :
  (bpm < 40 \/ bpm > 200 ->
   classifyStateForPrediction noiseDb bpm rrIntervalMs = Standby)
  /\ (~ (bpm < 40 \/ bpm > 200) ->
      quadrant noiseDb bpm rrIntervalMs
               (classifyStateForPrediction noiseDb bpm rrIntervalMs)).
Proof.
  split.
  - intros Hout. unfold classifyStateForPrediction, BPM_MIN_VALID, BPM_MAX_VALID.
    destruct Hout as [Hlow | Hhigh].
    + now rewrite (bool_decide_eq_true_2 (bpm < 40)) by exact Hlow.
    + rewrite (bool_decide_eq_true_2 (bpm > 200)) by exact Hhigh.
      now rewrite orb_true_r.
  - intros Hin. apply classify_in_range. lra.
Qed.

(** ** Cleaning the feed *)

Section CleanData.

Variable getDay getHours : Time -> nat.

Lemma parseFeed_bpm (feed : Feed) :
  bpm (parseFeed getDay getHours feed) = usedBpm feed.
Proof.
  unfold parseFeed, usedBpm. cbn [bpm].
  destruct (field5 feed) as [averaged |]; cbn [default from_option Datatypes.id].
  - now destruct (0 <? averaged)%Z.
  - reflexivity.
Qed.

Lemma filter_fmap {A B} (f : A -> B) (P : B -> Prop)
  `{!forall y, Decision (P y)} (l : list A) :
  filter P (f <$> l) = f <$> filter (fun x => P (f x)) l.
Proof.
  induction l as [| x l IH]; [reflexivity |].
  cbn [fmap list_fmap]. rewrite !filter_cons.
  destruct (decide (P (f x))); cbn [fmap list_fmap]; now rewrite <- IH.
Qed.

(** C10: the heart rate of a materialized row, which is classified,
    filtered on and later summed, is field 5 when that is greater than
    zero and field 6 otherwise; the rows kept are those whose rate lies
    in [40, 200]; hence the state of every kept row is that of its
    quadrant, never the [Standby] of the out-of-range guard. *)
Theorem cleanData_usedBpm (feeds : list Feed) :
  (forall feed,
     let d := parseFeed getDay getHours feed in
     bpm d = usedBpm feed
     /\ state d = classifyStateForPrediction (noise d) (usedBpm feed) (rrInterval d)
     /\ isFlowState d = bool_decide (state d = FlowState))
  /\ cleanData getDay getHours feeds
     = parseFeed getDay getHours
       <$> filter (fun feed => usedBpm feed >= 40 /\ usedBpm feed <= 200) feeds
  /\ Forall (fun d =>
               ~ (bpm d < 40 \/ bpm d > 200)
               /\ quadrant (noise d) (bpm d) (rrInterval d) (state d))
            (cleanData getDay getHours feeds).
Proof.
  split; [| split].
  - intros feed d. split; [apply parseFeed_bpm |].
    split; [| reflexivity].
    subst d. rewrite <- parseFeed_bpm. reflexivity.
  - unfold cleanData. rewrite filter_fmap. f_equal.
    apply list_filter_iff. intros feed. unfold validBpm.
    now rewrite parseFeed_bpm.
  - apply Forall_forall. intros d Hd. unfold cleanData in Hd.
    apply list_elem_of_filter in Hd as [[Hlo Hhi] Hd].
    apply list_elem_of_fmap in Hd as (feed & -> & _).
    unfold BPM_MIN_VALID, BPM_MAX_VALID in Hlo, Hhi.
    split; [lra |].
    apply (classify_in_range _ (bpm (parseFeed getDay getHours feed))). lra.
Qed.

Lemma cleanData_flags (feeds : list Feed) :
  Forall flagAgrees (cleanData getDay getHours feeds).
Proof.
  apply Forall_forall. intros d Hd. unfold cleanData in Hd.
  apply list_elem_of_filter in Hd as [_ Hd].
  apply list_elem_of_fmap in Hd as (feed & -> & _). reflexivity.
Qed.

End CleanData.

(** ** The pattern table *)

Lemma initialPatterns_lookup (d h : nat) :
  (d < 7)%nat -> (h < 24)%nat ->
  initialPatterns !! (d, h) = Some (emptyCell d h).
Proof.
  intros Hd Hh. unfold initialPatterns.
  assert (Hin : (d, h) ∈ slotKeys).
  { unfold slotKeys. apply list_elem_of_bind. exists d. split.
    - apply list_elem_of_bind. exists h. split; [apply list_elem_of_singleton; reflexivity |].
      apply elem_of_seq. lia.
    - apply elem_of_seq. lia. }
  revert Hin. generalize (∅ : gmap (nat * nat) Cell) as m.
  induction slotKeys as [| [d' h'] keys IH] using rev_ind; intros m Hin.
  - inversion Hin.
  - rewrite fold_left_app. cbn [fold_left].
    destruct (decide ((d', h') = (d, h))) as [E | NE].
    + injection E as -> ->. apply lookup_insert_eq.
    + rewrite lookup_insert_ne by exact NE. apply IH.
      apply elem_of_app in Hin as [Hin | Hin]; [exact Hin |].
      apply list_elem_of_singleton in Hin. congruence.
Qed.

Lemma aggregate_lookup (d h : nat) (data : list Entry)
  (m : gmap (nat * nat) Cell) (c : Cell) :
  m !! (d, h) = Some c ->
  fold_left aggregate data m !! (d, h)
  = Some (fold_left addEntry (filter (inSlot d h) data) c).
Proof.
  revert m c. induction data as [| e data IH]; intros m c Hm; [exact Hm |].
  cbn [fold_left]. rewrite filter_cons.
  destruct (decide (inSlot d h e)) as [[Hd Hh] | Hout].
  - cbn [fold_left]. apply IH. unfold aggregate. rewrite Hd, Hh, Hm.
    apply lookup_insert_eq.
  - apply IH. unfold aggregate.
    destruct (m !! (dayOfWeek e, hour e)) as [c' |]; [| exact Hm].
    rewrite lookup_insert_ne; [exact Hm |].
    intros E. injection E as Hd Hh. apply Hout. split; assumption.
Qed.

Lemma aggregate_lookup_Some (data : list Entry) (m : gmap (nat * nat) Cell)
  (key : nat * nat) (c : Cell) :
  fold_left aggregate data m !! key = Some c ->
  is_Some (m !! key).
Proof.
  revert m. induction data as [| e data IH]; intros m Hc; [now exists c |].
  cbn [fold_left] in Hc. apply IH in Hc. unfold aggregate in Hc.
  destruct (m !! (dayOfWeek e, hour e)) as [c' |] eqn:Em; [| exact Hc].
  destruct (decide ((dayOfWeek e, hour e) = key)) as [<- | NE].
  - now exists c'.
  - now rewrite lookup_insert_ne in Hc by exact NE.
Qed.

Lemma initialPatterns_keys (key : nat * nat) (c : Cell) :
  initialPatterns !! key = Some c ->
  (key.1 < 7)%nat /\ (key.2 < 24)%nat /\ c = emptyCell key.1 key.2.
Proof.
  unfold initialPatterns.
  assert (Hkeys : Forall (fun k => (k.1 < 7)%nat /\ (k.2 < 24)%nat) slotKeys).
  { apply Forall_forall. intros [d h] Hin. unfold slotKeys in Hin.
    apply list_elem_of_bind in Hin as (d' & Hin & Hd).
    apply list_elem_of_bind in Hin as (h' & Hin & Hh).
    apply list_elem_of_singleton in Hin. injection Hin as -> ->.
    apply elem_of_seq in Hd, Hh. cbn. lia. }
  revert Hkeys. generalize slotKeys as keys.
  induction keys as [| [d' h'] keys IH] using rev_ind; intros Hkeys Hc.
  - cbn in Hc. now rewrite lookup_empty in Hc.
  - apply Forall_app in Hkeys as [Hkeys Hlast].
    apply Forall_cons in Hlast as [Hlast _].
    rewrite fold_left_app in Hc. cbn [fold_left] in Hc.
    destruct (decide ((d', h') = key)) as [<- | NE].
    + rewrite lookup_insert_eq in Hc. injection Hc as <-.
      cbn [fst snd] in *. repeat split; [lia .. ].
    + rewrite lookup_insert_ne in Hc by exact NE. now apply IH.
Qed.

(** Every slot of the table is the statistics of the cell of its slot. *)
Lemma analyze_lookup (data : list Entry) (d h : nat) :
  (d < 7)%nat -> (h < 24)%nat ->
  analyzeTemporalPatterns data !! (d, h) = Some (statistics (slotCell d h data)).
Proof.
  intros Hd Hh. unfold analyzeTemporalPatterns. rewrite lookup_fmap.
  rewrite (aggregate_lookup d h data initialPatterns (emptyCell d h)).
  - reflexivity.
  - now apply initialPatterns_lookup.
Qed.

Lemma analyze_lookup_inv (data : list Entry) (key : nat * nat) (pattern : Pattern) :
  analyzeTemporalPatterns data !! key = Some pattern ->
  pattern = statistics (slotCell key.1 key.2 data).
Proof.
  intros Hp. unfold analyzeTemporalPatterns in Hp. rewrite lookup_fmap in Hp.
  destruct (fold_left aggregate data initialPatterns !! key) as [c |] eqn:Ec;
    [| discriminate].
  destruct (aggregate_lookup_Some _ _ _ _ Ec) as [c0 Hc0].
  destruct (initialPatterns_keys key c0 Hc0) as (Hd & Hh & _).
  destruct key as [d h]. cbn [fst snd] in *.
  pose proof (analyze_lookup data d h Hd Hh) as Hl.
  unfold analyzeTemporalPatterns in Hl. rewrite lookup_fmap, Ec in Hl.
  cbn in Hp, Hl. congruence.
Qed.

(** ** Consistency *)

Lemma addEntry_counts (c : Cell) (e : Entry) :
  flagAgrees e -> countsAgree c -> countsAgree (addEntry c e).
Proof.
  unfold flagAgrees, countsAgree, flowSamples. intros He [Ht Hf].
  cbn [addEntry totalCount flowStateCount samples].
  rewrite filter_app, !length_app, filter_cons, He. cbn [sample_state length].
  rewrite Ht, Hf. split; [lia |].
  case_bool_decide; destruct (decide (state e = FlowState));
    try contradiction; cbn [filter list_filter length]; lia.
Qed.

Lemma slotCell_counts (d h : nat) (data : list Entry) :
  Forall flagAgrees data -> countsAgree (slotCell d h data).
Proof.
  intros Hdata. unfold slotCell.
  assert (Hslot : Forall flagAgrees (filter (inSlot d h) data)).
  { apply Forall_forall. intros e He. apply list_elem_of_filter in He as [_ He].
    revert e He. now apply Forall_forall. }
  assert (H0 : countsAgree (emptyCell d h)) by (split; reflexivity).
  revert H0. generalize (emptyCell d h) as c.
  induction Hslot as [| e l He Hl IH]; intros c Hc; [exact Hc |].
  cbn [fold_left]. apply IH. now apply addEntry_counts.
Qed.

(** The sum of the squared deviations of 0/1 outcomes from [p]. *)
Lemma squared_deviations (l : list Sample) (p : R) :
  sumR ((fun b : bool => ((if b then 1 else 0) - p) ^ 2)
          <$> ((fun s => bool_decide (sample_state s = FlowState)) <$> l))
  = INR (flowSamples l) * (1 - p) ^ 2
    + (INR (length l) - INR (flowSamples l)) * p ^ 2.
Proof.
  unfold flowSamples. induction l as [| s l IH].
  - cbn. lra.
  - cbn [fmap list_fmap sumR foldr]. rewrite filter_cons.
    change (foldr Rplus 0 ?x) with (sumR x).
    change (list_fmap _ _ ?f ?x) with (f <$> x).
    rewrite IH. cbn [length]. rewrite !S_INR.
    case_bool_decide; destruct (decide (sample_state s = FlowState));
      try contradiction; cbn [length]; rewrite ?S_INR; lra.
Qed.

Lemma flowSamples_le (l : list Sample) : (flowSamples l <= length l)%nat.
Proof. apply length_filter. Qed.

Lemma outcomeVariance_spec (c : Cell) (p : R) :
  countsAgree c ->
  outcomeVariance c p
  = outcomeVarianceAround
      ((fun s => bool_decide (sample_state s = FlowState)) <$> samples c) p.
Proof.
  intros [Ht _]. unfold outcomeVariance, outcomeVarianceAround.
  rewrite length_fmap, Ht. f_equal.
  rewrite (SensorNodeFacts.fold_left_sumR
             (fun sample =>
                ((if bool_decide (sample_state sample = FlowState) then 1 else 0)
                 - p) ^ 2)).
  rewrite Rplus_0_l. f_equal. rewrite <- list_fmap_compose.
  apply list_fmap_ext. intros _ x _. reflexivity.
Qed.

(** The variance of 0/1 outcomes around their own frequency is
    [p * (1 - p)]. *)
Lemma bernoulli_variance (l : list Sample) :
  l <> [] ->
  let p := INR (flowSamples l) / INR (length l) in
  outcomeVarianceAround
    ((fun s => bool_decide (sample_state s = FlowState)) <$> l) p
  = p * (1 - p)
  /\ 0 <= p <= 1.
Proof.
  intros Hne p.
  assert (Hn : 0 < INR (length l)).
  { apply lt_0_INR. destruct l; [contradiction | cbn; lia]. }
  assert (Hk : INR (flowSamples l) = p * INR (length l)).
  { subst p. field. lra. }
  assert (Hp : 0 <= p <= 1).
  { pose proof (flowSamples_le l) as Hle. apply le_INR in Hle.
    pose proof (pos_INR (flowSamples l)) as H0.
    subst p. split.
    - apply Rmult_le_pos; [exact H0 |]. apply Rlt_le. now apply Rinv_0_lt_compat.
    - apply (Rmult_le_reg_r (INR (length l))); [exact Hn |].
      unfold Rdiv. rewrite Rmult_assoc, Rinv_l by lra. lra. }
  split; [| exact Hp].
  unfold outcomeVarianceAround. rewrite squared_deviations, length_fmap, Hk.
  field. lra.
Qed.

(** C9: in the table built from entries whose flow flag agrees with
    their state (as the entries of the cleaned feed do), every slot with
    at least one sample has consistency one minus the square root of the
    population variance of its 0/1 flow outcomes around the slot's own
    probability, and this value lies between 0.5 and 1 without any
    clamping. *)
Theorem consistency_range (data : list Entry) (key : nat * nat) (pattern : Pattern) :
  Forall flagAgrees data ->
  analyzeTemporalPatterns data !! key = Some pattern ->
  (0 < totalCount (cell pattern))%nat ->
  let outcomes :=
    (fun s => bool_decide (sample_state s = FlowState))
      <$> samples (cell pattern) in
  consistency pattern
  = 1 - sqrt (outcomeVarianceAround outcomes (probability pattern))
  /\ 1 / 2 <= consistency pattern <= 1.
Proof.
  intros Hdata Hlookup Hpos outcomes.
  apply analyze_lookup_inv in Hlookup.
  pose proof (slotCell_counts key.1 key.2 data Hdata) as Hcounts.
  set (c := slotCell key.1 key.2 data) in *.
  assert (Hcell : cell pattern = c).
  { subst pattern. unfold statistics. now case_bool_decide. }
  rewrite Hcell in Hpos. subst outcomes. rewrite Hcell.
  assert (Hstat : probability pattern = INR (flowStateCount c) / INR (totalCount c)
                  /\ consistency pattern
                     = 1 - sqrt (outcomeVariance c (probability pattern))).
  { subst pattern. unfold statistics.
    rewrite bool_decide_eq_true_2 by exact Hpos. split; reflexivity. }
  destruct Hstat as [Hprob Hcons].
  rewrite Hcons, (outcomeVariance_spec c _ Hcounts).
  split; [reflexivity |].
  destruct Hcounts as [Ht Hf].
  assert (Hne : samples c <> []).
  { intros E. rewrite E in Ht. cbn in Ht. lia. }
  destruct (bernoulli_variance (samples c) Hne) as [Hvar Hp].
  cbv zeta in Hvar, Hp. rewrite <- Hf, <- Ht, <- Hprob in Hvar, Hp.
  rewrite Hvar.
  set (p := probability pattern) in *.
  assert (Hlo : 0 <= sqrt (p * (1 - p))) by apply sqrt_pos.
  assert (Hhi : sqrt (p * (1 - p)) <= 1 / 2).
  { replace (1 / 2) with (sqrt (1 / 2 * (1 / 2)))
      by (apply sqrt_square; lra).
    apply sqrt_le_1_alt.
    pose proof (Rle_0_sqr (p - 1 / 2)) as Hsq. unfold Rsqr in Hsq. lra. }
  lra.
Qed.

(** ** Sorting by a key, largest first *)

Section SortByKey.

Context {A : Type} (key : A -> R).

Lemma insertSorted_perm (cmp : A -> A -> R) (x : A) (l : list A) :
  insertSorted cmp x l ≡ₚ x :: l.
Proof.
  induction l as [| y l IH]; cbn [insertSorted]; [reflexivity |].
  case_bool_decide; [| reflexivity].
  rewrite IH. apply Permutation_swap.
Qed.

Lemma Array_sort_perm (cmp : A -> A -> R) (l : list A) :
  Array_sort cmp l ≡ₚ l.
Proof.
  induction l as [| x l IH]; cbn [Array_sort foldr]; [reflexivity |].
  fold (Array_sort cmp l). now rewrite insertSorted_perm, IH.
Qed.





End SortByKey.

(** ** The ranked predictions *)

Section Predictions.

Variable getDay getHours : Time -> nat.


Lemma candidate_admissible (now : Time) (patterns : gmap (nat * nat) Pattern)
  (i : nat) (p : Prediction) :
  candidate getDay getHours now patterns i = Some p -> admissible patterns p.
Proof.
  unfold candidate. intros Hc.
  destruct (patterns !! _) as [pattern |] eqn:Ep; [| discriminate].
  case_bool_decide as Hprob; [| discriminate].
  injection Hc as <-. exists pattern. cbn.
  split; [exact Ep |]. split; [reflexivity |]. split; [reflexivity |].
  split; [exact Hprob |].
  intros Hfew. unfold calculatePredictionConfidence, MIN_SAMPLES_FOR_CONFIDENCE.
  now rewrite bool_decide_eq_true_2 by exact Hfew.
Qed.

Lemma candidates_admissible (now : Time) (patterns : gmap (nat * nat) Pattern)
  (l : list nat) :
  Forall (admissible patterns) (omap (candidate getDay getHours now patterns) l).
Proof.
  induction l as [| i l IH]; [constructor |].
  cbn [omap list_omap].
  destruct (candidate getDay getHours now patterns i) as [p |] eqn:Ei;
    [| exact IH].
  constructor; [| exact IH].
  exact (candidate_admissible now patterns i p Ei).
Qed.

Lemma generate_admissible (now : Time) (patterns : gmap (nat * nat) Pattern) :
  let preds := generateFlowStatePredictions getDay getHours now patterns in
  (length preds <= 5)%nat /\ Forall (admissible patterns) preds.
Proof.
  cbv zeta. unfold generateFlowStatePredictions, TOP_PREDICTIONS. split.
  - rewrite length_take. lia.
  - apply Forall_take.
    eapply Permutation_Forall; [symmetry; apply Array_sort_perm |].
    apply candidates_admissible.
Qed.

End Predictions.

(** ** The sample history *)

Lemma classify_quiet : classifyStateForPrediction 40 70 820 = FlowState.
Proof.
  unfold classifyStateForPrediction, BPM_MIN_VALID, BPM_MAX_VALID,
    NOISE_THRESHOLD, HRV_THRESHOLD, BPM_LOW, BPM_HIGH.
  rewrite (bool_decide_eq_false_2 (70 < 40)) by lra.
  rewrite (bool_decide_eq_false_2 (70 > 200)) by lra.
  rewrite (bool_decide_eq_true_2 (40 < 55)) by lra.
  rewrite (bool_decide_eq_true_2 (820 > 700)) by lra.
  reflexivity.
Qed.

Lemma classify_loud : classifyStateForPrediction 65 90 640 = Distracted.
Proof.
  unfold classifyStateForPrediction, BPM_MIN_VALID, BPM_MAX_VALID,
    NOISE_THRESHOLD, HRV_THRESHOLD, BPM_LOW, BPM_HIGH.
  rewrite (bool_decide_eq_false_2 (90 < 40)) by lra.
  rewrite (bool_decide_eq_false_2 (90 > 200)) by lra.
  rewrite (bool_decide_eq_false_2 (65 < 55)) by lra.
  rewrite (bool_decide_eq_false_2 (640 > 700)) by lra.
  rewrite (bool_decide_eq_true_2 (90 >= 60)) by lra.
  rewrite (bool_decide_eq_false_2 (90 <= 80)) by lra.
  reflexivity.
Qed.

Lemma parse_quietFeed : parseFeed utcDay utcHours quietFeed = quietEntry.
Proof.
  unfold parseFeed, quietFeed, quietEntry.
  cbn [created_at field2 field3 field5 field6 default from_option Datatypes.id].
  change (0 <? 70)%Z with true. cbv iota.
  rewrite classify_quiet. reflexivity.
Qed.

Lemma parse_loudFeed : parseFeed utcDay utcHours loudFeed = loudEntry.
Proof.
  unfold parseFeed, loudFeed, loudEntry.
  cbn [created_at field2 field3 field5 field6 default from_option Datatypes.id].
  change (0 <? 90)%Z with true. cbv iota.
  rewrite classify_loud. reflexivity.
Qed.

Lemma filter_replicate_all {A} (P : A -> Prop) `{!forall x, Decision (P x)}
  (n : nat) (x : A) :
  P x -> filter P (replicate n x) = replicate n x.
Proof.
  intros Hx. induction n as [| n IH]; [reflexivity |].
  cbn [replicate]. rewrite filter_cons_True by exact Hx. now rewrite IH.
Qed.

Lemma validBpm_quiet : validBpm quietEntry.
Proof. unfold validBpm, BPM_MIN_VALID, BPM_MAX_VALID. cbn. lra. Qed.

Lemma validBpm_loud : validBpm loudEntry.
Proof. unfold validBpm, BPM_MIN_VALID, BPM_MAX_VALID. cbn. lra. Qed.

Lemma cleanData_replicate (n m : nat) :
  cleanData utcDay utcHours (replicate n loudFeed ++ replicate m quietFeed)
  = replicate n loudEntry ++ replicate m quietEntry.
Proof.
  unfold cleanData.
  rewrite fmap_app, !fmap_replicate, parse_loudFeed, parse_quietFeed.
  rewrite filter_app.
  rewrite (filter_replicate_all validBpm n loudEntry validBpm_loud).
  now rewrite (filter_replicate_all validBpm m quietEntry validBpm_quiet).
Qed.

Lemma fetch_thinFeeds :
  fetchPredictionHistoricalData utcDay utcHours (Some thinFeeds)
  = (Some thinData, [LogCleaned 100]).
Proof.
  unfold fetchPredictionHistoricalData.
  change thinFeeds with (loudFeed :: (replicate 94 loudFeed ++ replicate 5 quietFeed)).
  cbv iota beta.
  change (loudFeed :: (replicate 94 loudFeed ++ replicate 5 quietFeed))
    with (replicate 95 loudFeed ++ replicate 5 quietFeed).
  rewrite cleanData_replicate. reflexivity.
Qed.

Lemma fetch_fewFeeds :
  fetchPredictionHistoricalData utcDay utcHours (Some fewFeeds)
  = (Some (replicate 50 loudEntry), [LogCleaned 50]).
Proof.
  unfold fetchPredictionHistoricalData.
  change fewFeeds with (loudFeed :: replicate 49 loudFeed).
  cbv iota beta.
  change (loudFeed :: replicate 49 loudFeed)
    with (replicate 50 loudFeed ++ replicate 0 quietFeed).
  rewrite cleanData_replicate. reflexivity.
Qed.

(** ** Candidates over an analysed history *)

Section CandidatesOfHistory.

Variable getDay getHours : Time -> nat.
Variable now : Time.
Variable data : list Entry.

Lemma statistics_without_flow (c : Cell) :
  flowStateCount c = 0%nat -> probability (statistics c) = 0.
Proof.
  intros Hf. unfold statistics. case_bool_decide; [| reflexivity].
  cbn [probability]. rewrite Hf. cbn [INR]. unfold Rdiv. apply Rmult_0_l.
Qed.

Lemma candidate_without_flow (i : nat) :
  let slot := slotOf getDay getHours now i in
  (slot.1 < 7)%nat -> (slot.2 < 24)%nat ->
  flowStateCount (slotCell slot.1 slot.2 data) = 0%nat ->
  candidate getDay getHours now (analyzeTemporalPatterns data) i = None.
Proof.
  unfold slotOf. cbn [fst snd]. cbv zeta. intros Hd Hh Hf. unfold candidate.
  rewrite (analyze_lookup data _ _ Hd Hh).
  rewrite (statistics_without_flow _ Hf).
  unfold FLOW_STATE_THRESHOLD.
  now rewrite bool_decide_eq_false_2 by lra.
Qed.

Lemma candidate_all_flow (i : nat) :
  let slot := slotOf getDay getHours now i in
  (slot.1 < 7)%nat -> (slot.2 < 24)%nat ->
  let c := slotCell slot.1 slot.2 data in
  (0 < totalCount c)%nat -> flowStateCount c = totalCount c ->
  exists p,
    candidate getDay getHours now (analyzeTemporalPatterns data) i = Some p
    /\ sampleSize p = totalCount c
    /\ pred_probability p = 1
    /\ confidence p = calculatePredictionConfidence (statistics c)
    /\ hoursFromNow p = i.
Proof.
  unfold slotOf. cbn [fst snd]. cbv zeta. intros Hd Hh.
  set (c := slotCell _ _ data). intros Hpos Hall. unfold candidate.
  rewrite (analyze_lookup data _ _ Hd Hh). fold c.
  assert (Hcell : cell (statistics c) = c).
  { unfold statistics. now case_bool_decide. }
  assert (Hprob : probability (statistics c) = 1).
  { unfold statistics. rewrite bool_decide_eq_true_2 by exact Hpos.
    cbn [probability]. rewrite Hall. apply Rdiv_diag.
    apply not_0_INR. lia. }
  unfold FLOW_STATE_THRESHOLD. rewrite Hprob.
  rewrite bool_decide_eq_true_2 by lra.
  eexists. split; [reflexivity |]. cbn. rewrite Hcell. repeat split.
Qed.

Lemma omap_all_None {A B} (f : A -> option B) (l : list A) :
  Forall (fun x => f x = None) l -> omap f l = [].
Proof.
  induction 1 as [| x l Hx Hl IH]; [reflexivity |].
  cbn [omap list_omap]. now rewrite Hx.
Qed.

End CandidatesOfHistory.

Lemma Forall_of_forallb {A} (P : A -> Prop) (b : A -> bool) (l : list A) :
  (forall x, b x = true -> P x) -> forallb b l = true -> Forall P l.
Proof.
  intros Hb. induction l as [| x l IH]; cbn [forallb]; intros H; constructor.
  - apply Hb. now apply andb_true_iff in H as [H _].
  - apply IH. now apply andb_true_iff in H as [_ H].
Qed.

(** In the sample history, seen on Thursday at 08:00, only the hour from
    09:00 has a chance of flow: 5 samples, all of them flow. *)
Lemma thin_first :
  exists p,
    candidate utcDay utcHours sampleNow (analyzeTemporalPatterns thinData) 1 = Some p
    /\ sampleSize p = 5%nat /\ pred_probability p = 1
    /\ confidence p = 0%Z /\ hoursFromNow p = 1%nat.
Proof.
  destruct (candidate_all_flow utcDay utcHours sampleNow thinData 1)
    as (p & Hp & Hsize & Hprob & Hconf & Hi).
  { vm_compute. lia. }
  { vm_compute. lia. }
  { vm_compute. lia. }
  { vm_compute. reflexivity. }
  exists p.
  assert (Hn : totalCount (slotCell (slotOf utcDay utcHours sampleNow 1).1
                                    (slotOf utcDay utcHours sampleNow 1).2
                                    thinData) = 5%nat)
    by (vm_compute; reflexivity).
  rewrite Hn in Hsize.
  assert (Hc0 : confidence p = 0%Z).
  { rewrite Hconf. unfold calculatePredictionConfidence, MIN_SAMPLES_FOR_CONFIDENCE.
    assert (Hcell : forall c, cell (statistics c) = c).
    { intros c. unfold statistics. now case_bool_decide. }
    rewrite Hcell, Hn. now rewrite bool_decide_eq_true_2 by lia. }
  repeat split; assumption.
Qed.

Lemma thin_others :
  omap (candidate utcDay utcHours sampleNow (analyzeTemporalPatterns thinData))
       (seq 2 23) = [].
Proof.
  apply omap_all_None.
  apply (Forall_of_forallb _ flowless); [| vm_compute; reflexivity].
  intros i Hi. unfold flowless in Hi. cbv zeta in Hi.
  apply andb_true_iff in Hi as [Hi Hf]. apply andb_true_iff in Hi as [Hd Hh].
  apply Nat.ltb_lt in Hd, Hh. apply Nat.eqb_eq in Hf.
  now apply candidate_without_flow.
Qed.

Lemma omap_single {A B} (f : A -> option B) (x : A) (y : B) (l : list A) :
  f x = Some y -> omap f l = [] -> omap f (x :: l) = [y].
Proof. intros Hx Hl. cbn [omap list_omap]. now rewrite Hx, Hl. Qed.

Lemma generate_single (getDay getHours : Time -> nat) (now : Time)
  (patterns : gmap (nat * nat) Pattern) (p : Prediction) :
  candidates getDay getHours now patterns = [p] ->
  generateFlowStatePredictions getDay getHours now patterns = [p].
Proof.
  intros Hc. unfold generateFlowStatePredictions. rewrite Hc. reflexivity.
Qed.

Lemma thin_generate :
  exists p,
    generateFlowStatePredictions utcDay utcHours sampleNow
      (analyzeTemporalPatterns thinData) = [p]
    /\ sampleSize p = 5%nat /\ pred_probability p = 1
    /\ confidence p = 0%Z /\ hoursFromNow p = 1%nat.
Proof.
  destruct thin_first as (p & Hp & Hrest). exists p.
  split; [| exact Hrest].
  apply generate_single.
  exact (omap_single _ 1%nat p (seq 2 23) Hp thin_others).
Qed.

(** ** Runs *)

Section Runs.

Variable getDay getHours : Time -> nat.

Lemma run_enough (response : option (list Feed)) (now finished : Time)
  (pd : PredictionData) (data : list Entry) (fetchEvents : list Event) :
  fetchPredictionHistoricalData getDay getHours response = (Some data, fetchEvents) ->
  (MIN_DATA_POINTS <= length data)%nat ->
  let patterns := analyzeTemporalPatterns data in
  let preds := generateFlowStatePredictions getDay getHours now patterns in
  let overall := calculateOverallConfidence preds (length data) in
  runPredictionAnalysis getDay getHours response now finished pd
  = {| returned := Some preds;
       stored := {| predictions := preds; lastUpdate := Some finished;
                    overallConfidence := overall;
                    dataQuality := assessDataQuality (length data) |};
       events := [LogStarting] ++ fetchEvents
                 ++ [LogProcessing (length data);
                     LogPatternAnalysis (size patterns);
                     UpdatePredictionUI preds overall;
                     LogComplete (length preds)] |}.
Proof.
  intros Hfetch Hlen. cbv zeta. unfold runPredictionAnalysis.
  rewrite Hfetch. apply Nat.ltb_ge in Hlen. now rewrite Hlen.
Qed.

Lemma run_short (response : option (list Feed)) (now finished : Time)
  (pd : PredictionData) :
  let fetched := fetchPredictionHistoricalData getDay getHours response in
  let current := from_option length 0%nat fetched.1 in
  (current < MIN_DATA_POINTS)%nat ->
  runPredictionAnalysis getDay getHours response now finished pd
  = {| returned := None; stored := pd;
       events := [LogStarting] ++ fetched.2
                 ++ [LogInsufficient current;
                     UpdatePredictionUINoData current] |}.
Proof.
  cbv zeta. unfold runPredictionAnalysis.
  destruct (fetchPredictionHistoricalData getDay getHours response)
    as [[data |] fetchEvents]; cbn [fst snd from_option]; intros Hlen.
  - apply Nat.ltb_lt in Hlen. now rewrite Hlen.
  - reflexivity.
Qed.

Lemma run_returned (response : option (list Feed)) (now finished : Time)
  (pd : PredictionData) (preds : list Prediction) :
  returned (runPredictionAnalysis getDay getHours response now finished pd)
  = Some preds ->
  exists data,
    (fetchPredictionHistoricalData getDay getHours response).1 = Some data
    /\ (MIN_DATA_POINTS <= length data)%nat
    /\ preds = generateFlowStatePredictions getDay getHours now
                 (analyzeTemporalPatterns data).
Proof.
  unfold runPredictionAnalysis.
  destruct (fetchPredictionHistoricalData getDay getHours response)
    as [[data |] fetchEvents]; cbn [fst]; [| discriminate].
  destruct (length data <? MIN_DATA_POINTS)%nat eqn:Hlen; [discriminate |].
  cbn [returned]. intros [= <-]. exists data.
  apply Nat.ltb_ge in Hlen. repeat split; assumption.
Qed.

(** C1 (amended): a run that returns predictions returns at most 5, and
    each of them comes from the slot of its day and hour in the table of
    the run, carries that slot's probability, which is at least 0.30,
    and that slot's sample count; a prediction whose slot has fewer than
    10 samples is returned all the same, with confidence 0. *)
Theorem run_predictions_admissible (response : option (list Feed))
  (now finished : Time) (pd : PredictionData) (preds : list Prediction) :
  returned (runPredictionAnalysis getDay getHours response now finished pd)
  = Some preds ->
  exists data,
    (fetchPredictionHistoricalData getDay getHours response).1 = Some data
    /\ (length preds <= 5)%nat
    /\ Forall (fun p =>
                 exists pattern,
                   analyzeTemporalPatterns data !! (pred_dayOfWeek p, pred_hour p)
                   = Some pattern
                   /\ pred_probability p = probability pattern
                   /\ sampleSize p = totalCount (cell pattern)
                   /\ probability pattern >= 3 / 10
                   /\ ((sampleSize p < 10)%nat -> confidence p = 0%Z))
              preds.
Proof.
  intros Hret. apply run_returned in Hret as (data & Hfetch & _ & ->).
  exists data. split; [exact Hfetch |].
  exact (generate_admissible getDay getHours now (analyzeTemporalPatterns data)).
Qed.

(** C7 (amended): a run whose cleaned history has fewer than 100 entries
    (none at all when the fetch fails) returns no predictions, reports
    the count through the no-data view, analyses and scores nothing, and
    leaves the stored prediction data as it was: the stored label stays
    ['insufficient'] when it was so before, as it is initially.
    [assessDataQuality] itself gives ['insufficient'] for such a count. *)
Theorem run_insufficient (response : option (list Feed)) (now finished : Time)
  (pd : PredictionData) :
  let fetched := fetchPredictionHistoricalData getDay getHours response in
  let current := from_option length 0%nat fetched.1 in
  (current < 100)%nat ->
  let r := runPredictionAnalysis getDay getHours response now finished pd in
  returned r = None
  /\ stored r = pd
  /\ events r = [LogStarting] ++ fetched.2
                ++ [LogInsufficient current; UpdatePredictionUINoData current]
  /\ assessDataQuality current = insufficient
  /\ (dataQuality pd = insufficient -> dataQuality (stored r) = insufficient).
Proof.
  intros fetched current Hlen r.
  pose proof (run_short response now finished pd Hlen) as Hrun.
  fold r in Hrun. fold fetched in Hrun. fold current in Hrun.
  rewrite Hrun. cbn [returned stored events].
  repeat split; try reflexivity.
  - unfold assessDataQuality. apply Nat.ltb_lt in Hlen. now rewrite Hlen.
  - intros H. exact H.
Qed.

End Runs.

Lemma thin_run (finished : Time) (pd : PredictionData) :
  exists p,
    returned (runPredictionAnalysis utcDay utcHours (Some thinFeeds)
                sampleNow finished pd) = Some [p]
    /\ stored (runPredictionAnalysis utcDay utcHours (Some thinFeeds)
                 sampleNow finished pd)
       = {| predictions := [p]; lastUpdate := Some finished;
            overallConfidence := calculateOverallConfidence [p] 100;
            dataQuality := low |}
    /\ sampleSize p = 5%nat /\ pred_probability p = 1
    /\ confidence p = 0%Z /\ hoursFromNow p = 1%nat.
Proof.
  destruct thin_generate as (p & Hgen & Hrest). exists p.
  assert (Hlen : length thinData = 100%nat) by reflexivity.
  assert (Hmin : (MIN_DATA_POINTS <= length thinData)%nat)
    by (rewrite Hlen; unfold MIN_DATA_POINTS; lia).
  rewrite (run_enough utcDay utcHours (Some thinFeeds) sampleNow finished pd
             thinData [LogCleaned 100] fetch_thinFeeds Hmin).
  cbn [returned stored]. rewrite Hgen, Hlen.
  split; [reflexivity |]. split; [reflexivity | exact Hrest].
Qed.

(** C1, as stated, fails: the run over the sample history returns a
    prediction whose slot holds 5 samples, fewer than 10. *)
Lemma thin_run_returns_thin_slot :
  exists p,
    returned (runPredictionAnalysis utcDay utcHours (Some thinFeeds)
                sampleNow sampleNow initialPredictionData) = Some [p]
    /\ sampleSize p = 5%nat /\ (sampleSize p < 10)%nat.
Proof.
  destruct (thin_run sampleNow initialPredictionData)
    as (p & Hret & _ & Hsize & _).
  exists p. split; [exact Hret |]. split; [exact Hsize |].
  rewrite Hsize. lia.
Qed.

Lemma run_predictions_admissible_witness :
  exists p data,
    (fetchPredictionHistoricalData utcDay utcHours (Some thinFeeds)).1 = Some data
    /\ (length [p] <= 5)%nat
    /\ Forall (fun p =>
                 exists pattern,
                   analyzeTemporalPatterns data !! (pred_dayOfWeek p, pred_hour p)
                   = Some pattern
                   /\ pred_probability p = probability pattern
                   /\ sampleSize p = totalCount (cell pattern)
                   /\ probability pattern >= 3 / 10
                   /\ ((sampleSize p < 10)%nat -> confidence p = 0%Z))
              [p].
Proof.
  destruct (thin_run sampleNow initialPredictionData) as (p & Hret & _).
  exists p.
  exact (run_predictions_admissible utcDay utcHours (Some thinFeeds)
           sampleNow sampleNow initialPredictionData [p] Hret).
Defined.

(** C7, as stated, fails: after the run over the sample history has
    stored the label ['low'], a run that finds only 50 entries returns
    nothing and leaves that label, and the old prediction, in place. *)
Lemma short_run_keeps_label :
  let r1 := runPredictionAnalysis utcDay utcHours (Some thinFeeds)
              sampleNow sampleNow initialPredictionData in
  let r2 := runPredictionAnalysis utcDay utcHours (Some fewFeeds)
              (sampleNow + 3600000)%Z (sampleNow + 3600000)%Z (stored r1) in
  from_option length 0%nat
    (fetchPredictionHistoricalData utcDay utcHours (Some fewFeeds)).1 = 50%nat
  /\ returned r2 = None
  /\ dataQuality (stored r2) = low
  /\ predictions (stored r2) <> [].
Proof.
  cbv zeta.
  destruct (thin_run sampleNow initialPredictionData) as (p & _ & Hst & _).
  rewrite Hst.
  assert (Hshort :
    (from_option length 0%nat
       (fetchPredictionHistoricalData utcDay utcHours (Some fewFeeds)).1
     < MIN_DATA_POINTS)%nat).
  { rewrite fetch_fewFeeds. cbn [fst from_option].
    rewrite length_replicate. unfold MIN_DATA_POINTS. lia. }
  rewrite (run_short utcDay utcHours (Some fewFeeds) _ _ _ Hshort).
  cbn [returned stored dataQuality predictions].
  rewrite fetch_fewFeeds. cbn [fst from_option]. rewrite length_replicate.
  repeat split; discriminate.
Qed.

Lemma run_insufficient_witness :
  let r := runPredictionAnalysis utcDay utcHours (Some fewFeeds)
             sampleNow sampleNow initialPredictionData in
  returned r = None /\ dataQuality (stored r) = insufficient.
Proof.
  assert (Hshort :
    (from_option length 0%nat
       (fetchPredictionHistoricalData utcDay utcHours (Some fewFeeds)).1
     < 100)%nat).
  { rewrite fetch_fewFeeds. cbn [fst from_option].
    rewrite length_replicate. lia. }
  destruct (run_insufficient utcDay utcHours (Some fewFeeds) sampleNow sampleNow
              initialPredictionData Hshort) as (Hret & _ & _ & _ & Hlabel).
  cbv zeta. split; [exact Hret | exact (Hlabel eq_refl)].
Defined.

Lemma consistency_range_witness :
  1 / 2 <= consistency (statistics (slotCell 4 9 thinData)) <= 1.
Proof.
  assert (Hflags : Forall flagAgrees thinData).
  { unfold thinData. apply Forall_app. split; apply Forall_replicate; reflexivity. }
  assert (Hlookup : analyzeTemporalPatterns thinData !! (4%nat, 9%nat)
                    = Some (statistics (slotCell 4 9 thinData)))
    by (apply analyze_lookup; lia).
  assert (Hpos : (0 < totalCount (cell (statistics (slotCell 4 9 thinData))))%nat).
  { assert (Hcell : forall c, cell (statistics c) = c).
    { intros c. unfold statistics. now case_bool_decide. }
    rewrite Hcell.
    assert (Hn : totalCount (slotCell 4 9 thinData) = 5%nat)
      by (vm_compute; reflexivity).
    rewrite Hn. lia. }
  exact (proj2 (consistency_range thinData (4%nat, 9%nat) _ Hflags Hlookup Hpos)).
Defined.

End ForecastFacts.

(** * Facts about the tasks of the sketch *)

Module NodeTasksFacts.

Import SensorNode NodeTasks SensorNodeFacts.
Local Open Scope Z_scope.

(** ** Beats are counted on falling edges only *)

Lemma detect_without_falling_edge (s : Node) (millis : Z) :
  irAC (acdc s) < 30 \/ fallingEdgeSeen s = false ->
  rate (detectHeartBeat_Adaptive millis s) = rate s
  /\ hrv (detectHeartBeat_Adaptive millis s) = hrv s.
Proof.
  intros Hcase. unfold detectHeartBeat_Adaptive.
  destruct (irAC (acdc s) <? 30) eqn:Hac; [split; reflexivity |].
  destruct Hcase as [Hweak | Hfall]; [apply Z.ltb_ge in Hac; lia |].
  unfold fallingEdgeSeen in Hfall.
  destruct (risingEdge s) eqn:Hrise.
  - unfold risingEdge in Hrise.
    apply andb_true_iff in Hrise as [Hrise _].
    apply andb_true_iff in Hrise as [_ Habove].
    apply Z.ltb_lt in Habove.
    cbn [with_acdc with_detect detect inPulse irValue peakValue].
    rewrite Z.ltb_irrefl.
    assert (Hbelow : (irValue s <? threshold s) = false)
      by (apply Z.ltb_ge; lia).
    unfold threshold in *.
    cbn [with_acdc with_detect acdc set_stableReadings irBaseline irAC irValue].
    rewrite Hbelow. split; reflexivity.
  - destruct (inPulse (detect s)) eqn:Hin; [| split; reflexivity].
    cbn [andb] in Hfall.
    destruct (peakValue (detect s) <? irValue s);
      unfold threshold in *;
      cbn [with_detect irValue acdc]; rewrite Hfall; split; reflexivity.
Qed.

(** ** The averaged rate *)

Lemma averageRates_steps (rs : list Z) :
  length rs = 4%nat ->
  averageRates rs
  = let '(avg, validCount) := fold_left averageStep rs (0, 0) in
    if 0 <? validCount then Z.quot avg validCount else avg.
Proof.
  intros Hlen. unfold averageRates.
  change (Z.to_nat RATE_SIZE) with 4%nat. rewrite <- Hlen.
  rewrite <- (fold_left_indices averageStep rs [] (0, 0)).
  cbn [app length].
  erewrite fold_left_ext_in; [reflexivity |].
  intros [avg validCount] i _. reflexivity.
Qed.

Lemma averageStep_fold (l : list Z) (avg validCount : Z) :
  Forall rateValue l ->
  0 <= validCount -> validCount + Z.of_nat (length l) < 2 ^ 20 ->
  45 * validCount <= avg <= 150 * validCount ->
  let '(avg', validCount') := fold_left averageStep l (avg, validCount) in
  validCount <= validCount'
  /\ 45 * validCount' <= avg' <= 150 * validCount'.
Proof.
  revert avg validCount.
  induction l as [| x l IH]; intros avg validCount Hl Hc Hb Ha.
  - cbn. lia.
  - apply Forall_cons in Hl as [Hx Hl]. cbn [fold_left length] in *.
    unfold averageStep at 2. cbn [fst snd].
    destruct (Z.ltb_spec 0 x) as [Hpos | Hzero].
    + assert (Hr : 45 <= x <= 150) by (destruct Hx; lia).
      rewrite (s32_small (avg + x)), (s32_small (validCount + 1)) by lia.
      specialize (IH (avg + x) (validCount + 1) Hl).
      destruct (fold_left averageStep l (avg + x, validCount + 1)) as [a c].
      destruct IH; lia.
    + specialize (IH avg validCount Hl).
      destruct (fold_left averageStep l (avg, validCount)) as [a c].
      destruct IH; lia.
Qed.

Lemma averageRates_value (rs : list Z) :
  length rs = 4%nat -> Forall rateValue rs -> rateValue (averageRates rs).
Proof.
  intros Hlen Hrs. rewrite averageRates_steps by exact Hlen.
  pose proof (averageStep_fold rs 0 0 Hrs) as H. rewrite Hlen in H.
  destruct (fold_left averageStep rs (0, 0)) as [avg validCount].
  destruct H as [Hc Ha]; [lia .. |].
  unfold rateValue. destruct (Z.ltb_spec 0 validCount) as [Hpos | Hzero].
  - right. rewrite Z.quot_div_nonneg by lia. split.
    + apply Z.div_le_lower_bound; lia.
    + apply Z.div_le_upper_bound; lia.
  - left. lia.
Qed.

(** ** What a falling edge keeps *)

Lemma admitted_interval (delta : Z) :
  400 < delta < 3000 -> 45 <= Z.quot 60000 delta -> intervalValue delta.
Proof.
  intros Hd Hq. right. split; [lia |].
  rewrite Z.quot_div_nonneg in Hq by lia.
  destruct (Z.le_gt_cases delta 1333) as [Hle | Hgt]; [exact Hle |].
  exfalso. assert (60000 / delta < 45); [| lia].
  apply Z.div_lt_upper_bound; lia.
Qed.

Lemma fallingEdge_keeps (millis : Z) (s : Node) :
  inBounds s -> plausible s ->
  let s' := fallingEdge millis s in
  (length (rates (rate s')) = 4%nat
   /\ 0 <= rateSpot (rate s') < 4
   /\ length (rrIntervals (hrv s')) = 15%nat
   /\ 0 <= rrIndex (hrv s') < 15
   /\ (hrvSampleCount (hrv s') = 15
       \/ hrvSampleCount (hrv s') = rrIndex (hrv s')))
  /\ (Forall rateValue (rates (rate s'))
      /\ rateValue (beatAvg (rate s'))
      /\ 0 <= beatsPerMinute (rate s') <= 149
      /\ Forall intervalValue (rrIntervals (hrv s'))
      /\ (hrvSampleCount (hrv s') < 5 ->
          hrv_SDNN (hrv s') = 0%R /\ hrv_RMSSD (hrv s') = 0%R)).
Proof.
  intros (Hrl & Hrs & _ & _ & Hil & Hii & Hic) (Pr & Pa & Pb & Pi & Ph).
  cbv zeta. unfold fallingEdge. cbn [with_detect with_rate rate hrv].
  set (delta := u32 (u32 millis - lastBeat (rate s))).
  destruct ((0 <? lastBeat (rate s)) && (400 <? delta) && (delta <? 3000))
    eqn:Hc; [| cbn; tauto].
  apply andb_true_iff in Hc as [Hc Hc3].
  apply andb_true_iff in Hc as [_ Hc2].
  apply Z.ltb_lt in Hc2, Hc3.
  pose proof (instant_rate_range delta (conj Hc2 Hc3)) as Hrange.
  unfold computeBeat. cbn [with_rate rate hrv].
  rewrite (s32_small (Z.quot 60000 delta)) by lia.
  destruct ((45 <=? Z.quot 60000 delta) && (Z.quot 60000 delta <=? 150)) eqn:Ha;
    [| cbn; repeat split; try tauto; lia].
  apply andb_true_iff in Ha as [Ha _]. apply Z.leb_le in Ha.
  unfold admitBeat. cbn [with_rate with_hrv with_detect rate hrv].
  rewrite (u8_small (Z.quot 60000 delta)) by lia.
  cbn [rates rateSpot beatAvg beatsPerMinute].
  set (h' := {| rrIntervals := _ |}).
  destruct (calculateHRV_frame h') as (Fi & Fx & Fc).
  rewrite Fi, Fx, Fc. subst h'. cbn [rrIntervals rrIndex hrvSampleCount].
  change RATE_SIZE with 4. change RR_INTERVAL_SIZE with 15.
  rewrite (s32_small (rrIndex (hrv s) + 1)) by lia.
  assert (Hrates : Forall rateValue
            (<[Z.to_nat (rateSpot (rate s)) := Z.quot 60000 delta]> (rates (rate s)))).
  { apply Forall_insert; [exact Pr |]. right. lia. }
  assert (Hspot : 0 <= u8 (Z.rem (rateSpot (rate s) + 1) 4) < 4).
  { rewrite Z.rem_mod_nonneg by lia.
    pose proof (Z.mod_pos_bound (rateSpot (rate s) + 1) 4 ltac:(lia)).
    rewrite u8_small by lia. lia. }
  assert (Hidx : 0 <= Z.rem (rrIndex (hrv s) + 1) 15 < 15).
  { rewrite Z.rem_mod_nonneg by lia. apply Z.mod_pos_bound. lia. }
  split.
  - rewrite !length_insert. repeat split; try assumption; try lia.
    destruct (Z.eqb_spec (Z.rem (rrIndex (hrv s) + 1) 15) 0) as [E | NE];
      [left; reflexivity |].
    assert (Hnext : Z.rem (rrIndex (hrv s) + 1) 15 = rrIndex (hrv s) + 1).
    { rewrite Z.rem_mod_nonneg by lia.
      destruct (Z.eq_dec (rrIndex (hrv s)) 14) as [E | NE'].
      - rewrite E in NE. rewrite Z.rem_mod_nonneg in NE by lia.
        exfalso. apply NE. reflexivity.
      - apply Z.mod_small. lia. }
    destruct (Z.ltb_spec (hrvSampleCount (hrv s)) 15) as [Hlt | Hge].
    + right. rewrite s32_small by lia. lia.
    + left. lia.
  - split; [exact Hrates |].
    split; [apply averageRates_value; [now rewrite length_insert | exact Hrates] |].
    split; [lia |].
    split.
    + apply Forall_insert; [exact Pi |]. now apply admitted_interval.
    + intros Hfew. unfold calculateHRV. cbn [hrvSampleCount].
      apply Z.ltb_lt in Hfew. rewrite Hfew. split; reflexivity.
Qed.

(** ** Ticks keep the node well formed *)

Lemma calculateACDC_frame (s : Node) :
  rate (calculateACDC s) = rate s /\ hrv (calculateACDC s) = hrv s
  /\ window (calculateACDC s) = window s
  /\ detect (calculateACDC s) = detect s.
Proof.
  unfold calculateACDC. destruct (acdcLoop (window s)) as [[sum mx] mn].
  repeat split; reflexivity.
Qed.

Lemma detect_rate_hrv (millis : Z) (s : Node) :
  let s' := detectHeartBeat_Adaptive millis s in
  (rate s' = rate s /\ hrv s' = hrv s)
  \/ (rate s' = rate (fallingEdge millis s)
      /\ hrv s' = hrv (fallingEdge millis s)).
Proof.
  cbv zeta. destruct (Z.lt_ge_cases (irAC (acdc s)) 30) as [Hweak | Hstrong].
  - left. apply detect_without_falling_edge. now left.
  - destruct (fallingEdgeSeen s) eqn:Hfall.
    + right.
      destruct (detect_falling_edge s millis Hstrong Hfall) as (Hr & Hh & _).
      split; assumption.
    + left. apply detect_without_falling_edge. now right.
Qed.

Lemma wellFormed_transfer (s t : Node) :
  inBounds s -> plausible s ->
  window t = window s ->
  (rate t = rate s /\ hrv t = hrv s)
  \/ (exists millis, rate t = rate (fallingEdge millis s)
                     /\ hrv t = hrv (fallingEdge millis s)) ->
  inBounds t /\ plausible t.
Proof.
  intros Hb Hp Hw [[Hr Hh] | (millis & Hr & Hh)].
  - unfold inBounds, plausible in *. rewrite Hw, Hr, Hh. split; assumption.
  - destruct (fallingEdge_keeps millis s Hb Hp) as [Kb Kp].
    cbv zeta in Kb, Kp.
    destruct Hb as (_ & _ & Hwl & Hwi & _).
    unfold inBounds, plausible. rewrite Hw, Hr, Hh. split; [| exact Kp].
    destruct Kb as (K1 & K2 & K3 & K4 & K5). repeat split; try assumption; lia.
Qed.

Lemma tick_keeps (getIR millis : Z) (s : Node) :
  inBounds s -> plausible s ->
  inBounds (readHeartSensor_UltraSensitive getIR millis s)
  /\ plausible (readHeartSensor_UltraSensitive getIR millis s).
Proof.
  intros Hb Hp. unfold readHeartSensor_UltraSensitive.
  pose proof Hb as (Hrl & Hrs & Hwl & Hwi & Hil & Hii & Hic).
  pose proof Hp as (Pr & Pa & Pb & Pi & Ph).
  destruct (max30102OK s); cbn [negb].
  - destruct (IR_THRESHOLD <? s32 getIR); cbn [negb].
    + set (s1 := with_window _ _).
      assert (Hb1 : inBounds s1).
      { subst s1. unfold inBounds.
        cbn [with_window rate hrv window irWindow irWindowIndex].
        rewrite length_insert. change IR_WINDOW_SIZE with 30.
        rewrite (s32_small (irWindowIndex (window s) + 1)) by lia.
        repeat split; try assumption; try lia;
          destruct (Z.leb_spec 30 (irWindowIndex (window s) + 1)); lia. }
      assert (Hp1 : plausible s1) by exact Hp.
      destruct (irWindowFull (window s1)); [| split; assumption].
      destruct (calculateACDC_frame s1) as (Cr & Ch & Cw & _).
      destruct (detect_frame millis (calculateACDC s1)) as (Dw & _).
      apply (wellFormed_transfer s1 _ Hb1 Hp1);
        [exact (eq_trans Dw Cw) |].
      destruct (detect_rate_hrv millis (calculateACDC s1)) as [[Hr Hh] | [Hr Hh]].
      * left. split; [exact (eq_trans Hr Cr) | exact (eq_trans Hh Ch)].
      * right. exists millis.
        destruct (fallingEdge_rate_hrv millis (calculateACDC s1) s1 Cr Ch)
          as [Er Eh].
        split; [exact (eq_trans Hr Er) | exact (eq_trans Hh Eh)].
    + unfold inBounds, plausible.
      cbn [with_window with_acdc with_rate rate hrv window rates rateSpot
           beatAvg beatsPerMinute irWindow irWindowIndex].
      repeat split; try assumption; try lia; try (left; reflexivity).
      all: try (apply Ph; assumption).
  - unfold inBounds, plausible.
    cbn [with_rate rate hrv window rates rateSpot beatAvg beatsPerMinute].
    repeat split; try assumption; try lia; try (left; reflexivity).
    all: try (apply Ph; assumption).
Qed.

Lemma runTicks_keeps (inputs : list (Z * Z)) (s : Node) :
  inBounds s -> plausible s ->
  inBounds (runTicks inputs s) /\ plausible (runTicks inputs s).
Proof.
  revert s. induction inputs as [| [getIR millis] inputs IH]; intros s Hb Hp.
  - split; assumption.
  - unfold runTicks. cbn [fold_left]. fold (runTicks inputs).
    destruct (tick_keeps getIR millis s Hb Hp) as [Hb' Hp'].
    now apply IH.
Qed.

Lemma initialNode_wellFormed : inBounds initialNode /\ plausible initialNode.
Proof.
  split.
  - unfold inBounds. cbn. repeat split; try lia.
  - unfold plausible. cbn. repeat split; try lia.
    + repeat (constructor; [now left |]). constructor.
    + now left.
    + repeat (constructor; [now left |]). constructor.
Qed.

(** ** Filling the window *)

Lemma tick_acquiring (getIR millis : Z) (s : Node) :
  max30102OK s = true ->
  IR_THRESHOLD < s32 getIR ->
  irWindowFull (window s) = false ->
  0 <= irWindowIndex (window s) < 29 ->
  readHeartSensor_UltraSensitive getIR millis s
  = {| max30102OK := true; irValue := s32 getIR; fingerDetected := true;
       rate := rate s;
       window := {| irWindow := <[ Z.to_nat (irWindowIndex (window s))
                                   := s32 getIR ]> (irWindow (window s));
                    irWindowIndex := irWindowIndex (window s) + 1;
                    irWindowFull := false |};
       acdc := acdc s; hrv := hrv s; detect := detect s |}.
Proof.
  intros Hok Hir Hfull Hidx. unfold readHeartSensor_UltraSensitive.
  rewrite Hok. cbn [negb].
  apply Z.ltb_lt in Hir. rewrite Hir. cbn [negb].
  unfold with_window.
  cbn [window irWindowFull irWindow irWindowIndex rate acdc hrv detect
       max30102OK irValue fingerDetected].
  change IR_WINDOW_SIZE with 30.
  rewrite (s32_small (irWindowIndex (window s) + 1)) by lia.
  assert (Hlt : (30 <=? irWindowIndex (window s) + 1) = false)
    by (apply Z.leb_gt; lia).
  rewrite Hlt, Hfull. reflexivity.
Qed.

Lemma runTicks_acquiring (inputs : list (Z * Z)) (s : Node) (j : nat) :
  max30102OK s = true ->
  irWindowFull (window s) = false ->
  irWindowIndex (window s) = Z.of_nat j ->
  length (irWindow (window s)) = 30%nat ->
  Forall fingerOn inputs ->
  (j + length inputs <= 29)%nat ->
  let s' := runTicks inputs s in
  max30102OK s' = true
  /\ irWindowFull (window s') = false
  /\ irWindowIndex (window s') = Z.of_nat (j + length inputs)
  /\ irWindow (window s')
     = take j (irWindow (window s)) ++ readings inputs
       ++ drop (j + length inputs) (irWindow (window s))
  /\ rate s' = rate s /\ acdc s' = acdc s /\ hrv s' = hrv s
  /\ detect s' = detect s.
Proof.
  revert s j.
  induction inputs as [| [getIR millis] inputs IH];
    intros s j Hok Hfull Hidx Hlen Hin Hj; cbv zeta.
  - cbn [runTicks fold_left readings fmap list_fmap length app].
    rewrite Nat.add_0_r, take_drop. repeat split; assumption.
  - apply Forall_cons in Hin as [Hir Hin]. unfold fingerOn in Hir.
    cbn [fst length] in Hir, Hj.
    unfold runTicks. cbn [fold_left]. fold (runTicks inputs).
    rewrite (tick_acquiring getIR millis s Hok Hir Hfull) by lia.
    set (s1 := {| max30102OK := true |}).
    assert (E3 : irWindowIndex (window s1) = Z.of_nat (S j))
      by (subst s1; cbn [window irWindowIndex]; lia).
    assert (E4 : irWindow (window s1)
                 = <[ j := s32 getIR ]> (irWindow (window s))).
    { subst s1. cbn [window irWindow]. now rewrite Hidx, Nat2Z.id. }
    assert (E1 : max30102OK s1 = true) by reflexivity.
    assert (E2 : irWindowFull (window s1) = false) by reflexivity.
    assert (E5 : rate s1 = rate s /\ acdc s1 = acdc s /\ hrv s1 = hrv s
                 /\ detect s1 = detect s) by (repeat split; reflexivity).
    destruct E5 as (E5 & E6 & E7 & E8).
    clearbody s1. fold (runTicks inputs s1).
    assert (Hlen1 : length (irWindow (window s1)) = 30%nat)
      by (rewrite E4; now rewrite length_insert).
    destruct (IH s1 (S j) E1 E2 E3 Hlen1 Hin ltac:(lia))
      as (I1 & I2 & I3 & I4 & I5 & I6 & I7 & I8).
    cbn [length].
    split; [exact I1 |]. split; [exact I2 |].
    split; [rewrite I3; f_equal; lia |].
    split; [| rewrite I5, I6, I7, I8; repeat split; assumption].
    rewrite I4, E4.
    rewrite (insert_take_drop (irWindow (window s)) j (s32 getIR)) by lia.
    assert (Htl : length (take j (irWindow (window s))) = j)
      by (apply length_take_le; lia).
    set (T := take j (irWindow (window s))) in *.
    set (D := drop (S j) (irWindow (window s))).
    assert (A1 : take (S j) (T ++ s32 getIR :: D) = T ++ [s32 getIR]).
    { replace (S j) with (length T + 1)%nat by lia.
      rewrite take_app_add. cbn [take]. now rewrite take_0. }
    assert (A2 : drop (S j + length inputs) (T ++ s32 getIR :: D)
                 = drop (j + S (length inputs)) (irWindow (window s))).
    { replace (S j + length inputs)%nat with (length T + S (length inputs))%nat
        by lia.
      rewrite drop_app_add. cbn [drop]. subst D. rewrite drop_drop.
      f_equal. lia. }
    rewrite A1, A2, <- app_assoc. reflexivity.
Qed.

(** X1: whatever the readings and the clock, ticks keep a well-formed
    node well formed: every index stays inside its array, rates and the
    averaged rate are 0 or from 45 to 150, the instantaneous rate is at
    most 149, stored intervals are 0 or from 401 to 1333 ms, and the HRV
    values are 0 as long as fewer than 5 intervals are counted. *)
Theorem ticks_keep_wellFormed (inputs : list (Z * Z)) (s : Node) :
  inBounds s -> plausible s ->
  inBounds (runTicks inputs s) /\ plausible (runTicks inputs s).
Proof. intros Hb Hp. exact (runTicks_keeps inputs s Hb Hp). Qed.

Lemma ticks_keep_wellFormed_witness :
  inBounds (runTicks [(100000, 100); (100200, 200); (40000, 300)] initialNode)
  /\ plausible (runTicks [(100000, 100); (100200, 200); (40000, 300)] initialNode).
Proof.
  exact (ticks_keep_wellFormed _ initialNode
           (proj1 initialNode_wellFormed) (proj2 initialNode_wellFormed)).
Defined.

(** X2: starting with an empty window, fewer than 30 ticks that see the
    finger only store their readings: the window is not full, the write
    index is the number of ticks, and no baseline, beat, rate or HRV
    value changes. *)
Theorem acquiring_stores_readings (inputs : list (Z * Z)) (s : Node) :
  max30102OK s = true ->
  irWindowFull (window s) = false ->
  irWindowIndex (window s) = 0 ->
  length (irWindow (window s)) = 30%nat ->
  Forall fingerOn inputs ->
  (length inputs < 30)%nat ->
  let s' := runTicks inputs s in
  irWindowFull (window s') = false
  /\ irWindowIndex (window s') = Z.of_nat (length inputs)
  /\ take (length inputs) (irWindow (window s')) = readings inputs
  /\ rate s' = rate s /\ acdc s' = acdc s /\ hrv s' = hrv s
  /\ detect s' = detect s.
Proof.
  intros Hok Hfull Hidx Hlen Hin Hn.
  destruct (runTicks_acquiring inputs s 0 Hok Hfull Hidx Hlen Hin ltac:(lia))
    as (_ & I2 & I3 & I4 & I5 & I6 & I7 & I8).
  cbv zeta. rewrite I4, take_0. cbn [app Nat.add] in *.
  repeat split; try assumption.
  apply take_app_length'. unfold readings. now rewrite length_fmap.
Qed.

Lemma acquiring_stores_readings_witness :
  let s' := runTicks [(100000, 100); (100200, 200)] initialNode in
  irWindowFull (window s') = false /\ irWindowIndex (window s') = 2
  /\ rate s' = rate initialNode.
Proof.
  assert (Hin : Forall fingerOn [(100000, 100); (100200, 200)]).
  { repeat constructor; vm_compute; reflexivity. }
  destruct (acquiring_stores_readings [(100000, 100); (100200, 200)] initialNode
              eq_refl eq_refl eq_refl eq_refl Hin ltac:(cbn; lia))
    as (H1 & H2 & _ & H4 & _).
  cbv zeta. repeat split; assumption.
Defined.

(** X3: the 30th consecutive tick that sees the finger fills the window:
    the full flag is set, the write index is back at 0, and the window
    holds exactly the 30 readings in the order they came. *)
Theorem window_full_after_30 (inputs : list (Z * Z)) (s : Node) :
  max30102OK s = true ->
  irWindowFull (window s) = false ->
  irWindowIndex (window s) = 0 ->
  length (irWindow (window s)) = 30%nat ->
  Forall fingerOn inputs ->
  length inputs = 30%nat ->
  let s' := runTicks inputs s in
  irWindowFull (window s') = true
  /\ irWindowIndex (window s') = 0
  /\ irWindow (window s') = readings inputs.
Proof.
  intros Hok Hfull Hidx Hlen Hin Hn.
  destruct inputs as [| last inputs _] using rev_ind; [discriminate Hn |].
  rewrite length_app in Hn. cbn [length] in Hn.
  apply Forall_app in Hin as [Hin Hlast].
  apply Forall_cons in Hlast as [Hlast _]. unfold fingerOn in Hlast.
  destruct (runTicks_acquiring inputs s 0 Hok Hfull Hidx Hlen Hin ltac:(lia))
    as (I1 & I2 & I3 & I4 & _).
  cbv zeta. unfold runTicks. rewrite fold_left_app. cbn [fold_left].
  fold (runTicks inputs s). destruct last as [getIR millis]. cbn [fst] in Hlast.
  set (s29 := runTicks inputs s) in *.
  rewrite take_0 in I4. cbn [app Nat.add] in I3, I4.
  unfold readHeartSensor_UltraSensitive. rewrite I1. cbn [negb].
  apply Z.ltb_lt in Hlast. rewrite Hlast. cbn [negb].
  set (s1 := with_window _ _).
  assert (E1 : irWindowFull (window s1) = true).
  { subst s1. unfold with_window. cbn [window irWindowFull]. rewrite I3.
    replace (Z.of_nat (length inputs)) with 29 by lia. reflexivity. }
  assert (E2 : irWindowIndex (window s1) = 0).
  { subst s1. unfold with_window. cbn [window irWindowIndex]. rewrite I3.
    replace (Z.of_nat (length inputs)) with 29 by lia. reflexivity. }
  assert (E3 : irWindow (window s1) = readings (inputs ++ [(getIR, millis)])).
  { subst s1. unfold with_window. cbn [window irWindow]. rewrite I3, I4.
    rewrite Nat2Z.id. unfold readings at 2. rewrite fmap_app.
    fold (readings inputs). cbn [fmap list_fmap fst].
    assert (Hr : length (readings inputs) = length inputs)
      by (unfold readings; apply length_fmap).
    replace (length inputs) with (length (readings inputs) + 0)%nat at 1 by lia.
    rewrite insert_app_r. f_equal.
    assert (Hd : length (drop (length inputs) (irWindow (window s))) = 1%nat)
      by (rewrite length_drop; lia).
    destruct (drop (length inputs) (irWindow (window s))) as [| y [| z l]];
      try discriminate Hd. reflexivity. }
  clearbody s1. rewrite E1.
  destruct (detect_frame millis (calculateACDC s1)) as (Dw & _).
  destruct (calculateACDC_frame s1) as (_ & _ & Cw & _).
  rewrite Dw, Cw, E1, E2, E3. repeat split; reflexivity.
Qed.

Lemma window_full_after_30_witness :
  let inputs := replicate 30 (100000, 100) in
  irWindowFull (window (runTicks inputs initialNode)) = true
  /\ irWindow (window (runTicks inputs initialNode)) = replicate 30 100000.
Proof.
  assert (Hin : Forall fingerOn (replicate 30 (100000, 100))).
  { apply Forall_replicate. vm_compute. reflexivity. }
  destruct (window_full_after_30 (replicate 30 (100000, 100)) initialNode
              eq_refl eq_refl eq_refl eq_refl Hin eq_refl) as (H1 & _ & H3).
  cbv zeta. split; [exact H1 |]. rewrite H3. reflexivity.
Defined.

(** X4: a call of the detector that sees no falling edge (the signal is
    too weak, or the node is not in a pulse, or the reading is not under
    the threshold) counts no beat: the rate buffer, both rates, the beat
    counter, the time of the last beat, the inter-beat intervals and the
    HRV values stay as they are. *)
Theorem no_beat_without_falling_edge (s : Node) (millis : Z) :
  irAC (acdc s) < 30 \/ fallingEdgeSeen s = false ->
  rate (detectHeartBeat_Adaptive millis s) = rate s
  /\ hrv (detectHeartBeat_Adaptive millis s) = hrv s.
Proof. exact (detect_without_falling_edge s millis). Qed.

Lemma no_beat_without_falling_edge_witness :
  rate (detectHeartBeat_Adaptive 1400 pulsingNode) = rate pulsingNode
  /\ hrv (detectHeartBeat_Adaptive 1400 pulsingNode) = hrv pulsingNode.
Proof.
  apply no_beat_without_falling_edge. right. reflexivity.
Defined.

(** X5: while fewer than 5 inter-beat intervals are counted, a
    well-formed node with the finger on, an averaged rate and a noise
    level of at most 60 dB is reported as [STRESSED] when the network is
    up: the RMSSD it compares with 20 is still 0. *)
Theorem first_beats_report_stressed (v : SoundVars) (s : Node) :
  plausible s ->
  fingerDetected s = true ->
  0 < beatAvg (rate s) ->
  hrvSampleCount (hrv s) < 5 ->
  (soundDB v <= 60)%R ->
  updateSystemStatus true v s = STRESSED.
Proof.
  intros (_ & _ & _ & _ & Ph) Hf Ha Hc Hs.
  destruct (Ph Hc) as [_ Hr]. unfold updateSystemStatus. cbn [negb].
  rewrite (bool_decide_eq_false_2 (soundDB v > 70)%R) by lra.
  rewrite (bool_decide_eq_false_2 (soundDB v > 60)%R) by lra.
  apply Z.ltb_lt in Ha. rewrite Hf, Ha. cbn [andb]. rewrite Hr.
  rewrite (bool_decide_eq_false_2 (0 > 50)%R) by lra.
  now rewrite (bool_decide_eq_true_2 (0 < 20)%R) by lra.
Qed.

Lemma pulsingNode_plausible : plausible pulsingNode.
Proof.
  unfold plausible. cbn. repeat split; try lia.
  - repeat (constructor; [unfold rateValue; lia |]). constructor.
  - right. lia.
  - repeat (constructor; [unfold intervalValue; lia |]). constructor.
Qed.

Lemma first_beats_report_stressed_witness :
  updateSystemStatus true initialSound pulsingNode = STRESSED.
Proof.
  apply (first_beats_report_stressed initialSound pulsingNode
           pulsingNode_plausible eq_refl).
  - vm_compute. reflexivity.
  - vm_compute. reflexivity.
  - cbn. lra.
Defined.

(** ** The sound level *)

Lemma soundLevel_range (peakToPeak : Z) : levelValue (soundLevel peakToPeak).
Proof.
  unfold levelValue, soundLevel.
  case_bool_decide as Hlow; [lra |].
  case_bool_decide as Hhigh; [lra |].
  cbv zeta.
  assert (0 <= (IZR peakToPeak - 500) / (1500 - 500) <= 1)%R.
  { split.
    - apply Rmult_le_pos; [lra |]. apply Rlt_le, Rinv_0_lt_compat. lra.
    - apply (Rmult_le_reg_r (1500 - 500)); [lra |].
      unfold Rdiv. rewrite Rmult_assoc, Rinv_l by lra. lra. }
  nra.
Qed.

Lemma soundSum_five (a b c d e : R) :
  soundSum [a; b; c; d; e] = (0 + a + b + c + d + e)%R.
Proof. reflexivity. Qed.

Lemma readSoundSensor_fields (samples : list Z) (v : SoundVars) :
  let buffer := <[ Z.to_nat (soundIndex v)
                   := soundLevel (peakToPeakOf samples) ]> (soundBuffer v) in
  soundBuffer (readSoundSensor samples v) = buffer
  /\ soundIndex (readSoundSensor samples v) = Z.rem (s32 (soundIndex v + 1)) 5
  /\ soundDB (readSoundSensor samples v) = (soundSum buffer / 5)%R
  /\ soundPeakToPeak (readSoundSensor samples v) = peakToPeakOf samples.
Proof.
  unfold readSoundSensor, peakToPeakOf.
  destruct (soundPeaks samples) as [mx mn]. repeat split; reflexivity.
Qed.

Lemma readSoundSensor_keeps (samples : list Z) (v : SoundVars) :
  soundInRange v ->
  soundInRange (readSoundSensor samples v)
  /\ levelValue (soundDB (readSoundSensor samples v)).
Proof.
  intros (Hlen & Hidx & Hall).
  destruct (readSoundSensor_fields samples v) as (Hb & Hi & Hd & _).
  cbv zeta in Hb, Hd.
  assert (Hall' : Forall levelValue (soundBuffer (readSoundSensor samples v))).
  { rewrite Hb. apply Forall_insert; [exact Hall | apply soundLevel_range]. }
  assert (Hlen' : length (soundBuffer (readSoundSensor samples v)) = 5%nat)
    by (rewrite Hb; now rewrite length_insert).
  split.
  - split; [exact Hlen' |]. split; [| exact Hall'].
    rewrite Hi, s32_small by lia. rewrite Z.rem_mod_nonneg by lia.
    apply Z.mod_pos_bound. lia.
  - rewrite Hd. rewrite <- Hb.
    destruct (soundBuffer (readSoundSensor samples v))
      as [| a [| b [| c [| d [| e [| f l]]]]]]; try discriminate Hlen'.
    rewrite soundSum_five.
    apply Forall_cons in Hall' as [Ha Hall'].
    apply Forall_cons in Hall' as [Hb' Hall'].
    apply Forall_cons in Hall' as [Hc Hall'].
    apply Forall_cons in Hall' as [Hd' Hall'].
    apply Forall_cons in Hall' as [He _].
    unfold levelValue in *. lra.
Qed.

Lemma runSound_keeps (windows : list (list Z)) (v : SoundVars) :
  soundInRange v -> soundInRange (runSound windows v).
Proof.
  revert v. induction windows as [| w windows IH]; intros v Hv; [exact Hv |].
  unfold runSound. cbn [fold_left]. apply IH.
  exact (proj1 (readSoundSensor_keeps w v Hv)).
Qed.

(** X6: whatever the microphone delivers (even no sample at all), a
    reading keeps the filter buffer well formed and reports a smoothed
    level between 25 and 85 dB. *)
Theorem sound_level_in_range (windows : list (list Z)) (samples : list Z)
  (v : SoundVars) :
  soundInRange v ->
  let v' := readSoundSensor samples (runSound windows v) in
  soundInRange v' /\ (25 <= soundDB v' <= 85)%R.
Proof.
  intros Hv. cbv zeta.
  exact (readSoundSensor_keeps samples _ (runSound_keeps windows v Hv)).
Qed.

Lemma initialSound_inRange : soundInRange initialSound.
Proof.
  unfold soundInRange. cbn. repeat split; try lia.
  repeat (constructor; [unfold levelValue; lra |]). constructor.
Qed.

Lemma sound_level_in_range_witness :
  let v' := readSoundSensor [] (runSound [[1800; 2300]; [2000; 2100]]
                                  initialSound) in
  (25 <= soundDB v' <= 85)%R.
Proof.
  exact (proj2 (sound_level_in_range [[1800; 2300]; [2000; 2100]] []
                  initialSound initialSound_inRange)).
Defined.



(** ** Status *)

Lemma no_finger_tick (getIR millis : Z) (s : Node) :
  max30102OK s = false \/ s32 getIR <= IR_THRESHOLD ->
  fingerDetected (readHeartSensor_UltraSensitive getIR millis s) = false
  /\ beatAvg (rate (readHeartSensor_UltraSensitive getIR millis s)) = 0.
Proof.
  intros Hcase. unfold readHeartSensor_UltraSensitive.
  destruct (max30102OK s); cbn [negb]; [| split; reflexivity].
  destruct Hcase as [Hno | Hlow]; [discriminate Hno |].
  apply Z.ltb_ge in Hlow. rewrite Hlow. cbn [negb]. split; reflexivity.
Qed.

(** X8: when the sensor is missing or the reading is at or below the
    detection threshold, the sensor task never reports a status that
    depends on the heart ([RELAXED], [STRESSED], [CALM], [ACTIVE],
    [OPTIMAL]), whatever the node held before. *)
Theorem no_finger_no_heart_status (samples : list Z) (getIR millis : Z)
  (connected : bool) (y : System) :
  max30102OK (node y) = false \/ s32 getIR <= IR_THRESHOLD ->
  ~ heartStatus (systemStatus (sensorTask samples getIR millis connected y)).
Proof.
  intros Hcase. unfold sensorTask. cbn [systemStatus].
  destruct (no_finger_tick getIR millis (node y) Hcase) as [Hf _].
  unfold updateSystemStatus. rewrite Hf. cbn [andb].
  unfold heartStatus.
  destruct connected; cbn [negb];
    repeat destruct (bool_decide _);
    intros [E | [E | [E | [E | E]]]]; discriminate E.
Qed.

Lemma no_finger_no_heart_status_witness :
  ~ heartStatus
      (systemStatus (sensorTask [2000; 2100] 1000 60000 true pulsingSystem)).
Proof.
  assert (Hlow : s32 1000 <= IR_THRESHOLD) by (vm_compute; discriminate).
  exact (no_finger_no_heart_status [2000; 2100] 1000 60000 true pulsingSystem
           (or_intror Hlow)).
Defined.

(** ** The session log *)

Lemma logSessionData_fields (millis : Z) (v : SoundVars) (s : Node)
  (status : Status) (l : LogVars) :
  0 <= logIndex l < 50 ->
  let l' := logSessionData millis v s status l in
  sessionLog l'
  = <[ Z.to_nat (logIndex l) := sessionOf millis v s status ]> (sessionLog l)
  /\ logIndex l' = (logIndex l + 1) mod 50
  /\ logFull l' = ((logIndex l + 1) mod 50 =? 0) || logFull l.
Proof.
  intros Hidx. cbv zeta. unfold logSessionData, MAX_LOG_ENTRIES.
  cbn [sessionLog logIndex logFull].
  rewrite s32_small by lia. rewrite Z.rem_mod_nonneg by lia.
  repeat split.
Qed.

Lemma runLog_snoc (calls : list Snapshot) (c : Snapshot) (l : LogVars) :
  runLog (calls ++ [c]) l
  = logSessionData c.1.1.1 c.1.1.2 c.1.2 c.2 (runLog calls l).
Proof.
  unfold runLog. rewrite fold_left_app.
  destruct c as [[[millis v] s] status]. reflexivity.
Qed.

Lemma runLog_ring (calls : list Snapshot) (l : LogVars) :
  length (sessionLog l) = 50%nat -> logIndex l = 0 ->
  let l' := runLog calls l in
  let n := Z.of_nat (length calls) in
  length (sessionLog l') = 50%nat
  /\ logIndex l' = n mod 50
  /\ logFull l' = (50 <=? n) || logFull l
  /\ forall i : nat,
       (i < length calls)%nat -> n - 50 <= Z.of_nat i ->
       sessionLog l' !! Z.to_nat (Z.of_nat i mod 50)
       = sessionOfSnapshot <$> calls !! i.
Proof.
  intros Hlen Hidx. cbv zeta.
  induction calls as [| c calls IH] using rev_ind.
  - cbn. repeat split; try assumption; try lia.
  - destruct IH as (Il & Ii & If & Ie).
    rewrite (runLog_snoc calls c l).
    destruct c as [[[millis v] s] status]. cbn [fst snd].
    rewrite length_app. cbn [length].
    set (n := Z.of_nat (length calls)) in *.
    replace (Z.of_nat (length calls + 1)) with (n + 1) by lia.
    assert (Hrange : 0 <= logIndex (runLog calls l) < 50)
      by (rewrite Ii; apply Z.mod_pos_bound; lia).
    destruct (logSessionData_fields millis v s status (runLog calls l) Hrange)
      as (Fl & Fi & Ff).
    cbv zeta in Fl, Fi, Ff. rewrite Fl, Fi, Ff, Ii.
    split; [now rewrite length_insert |].
    split; [now rewrite Zplus_mod_idemp_l |].
    split.
    + rewrite Zplus_mod_idemp_l, If.
      destruct (Z.leb_spec 50 n) as [Hge | Hlt].
      * destruct (Z.leb_spec 50 (n + 1)); [| lia].
        now rewrite orb_true_r.
      * destruct (Z.eq_dec n 49) as [E | NE].
        -- rewrite E. reflexivity.
        -- rewrite (Z.mod_small (n + 1)) by lia.
           destruct (Z.eqb_spec (n + 1) 0); [lia |].
           destruct (Z.leb_spec 50 (n + 1)); [lia | reflexivity].
    + intros i Hi Hlast.
      destruct (Nat.eq_dec i (length calls)) as [-> | Hne].
      * fold n. rewrite list_lookup_insert_eq
          by (rewrite Il; pose proof (Z.mod_pos_bound n 50); lia).
        rewrite lookup_app_r by lia. rewrite Nat.sub_diag. reflexivity.
      * assert (Hi' : (i < length calls)%nat) by lia.
        rewrite lookup_app_l by exact Hi'.
        rewrite <- (Ie i Hi') by lia.
        apply list_lookup_insert_ne.
        intros E. apply Z2Nat.inj in E;
          [| apply Z.mod_pos_bound; lia | apply Z.mod_pos_bound; lia].
        assert (Hd : (n - Z.of_nat i) mod 50 = 0).
        { rewrite Zminus_mod, E, Z.sub_diag. reflexivity. }
        rewrite Z.mod_small in Hd by lia. lia.
Qed.

(** X9: the session log is a ring of 50: after any number of calls on a
    log whose index started at 0, the index is the number of calls
    modulo 50, the full flag tells whether at least 50 sessions were
    written, and each of the last 50 sessions (all of them, when there
    are fewer) is found in the slot of its number modulo 50. *)
Theorem log_keeps_last_50 (calls : list Snapshot) (l : LogVars) :
  length (sessionLog l) = 50%nat -> logIndex l = 0 -> logFull l = false ->
  let l' := runLog calls l in
  let n := Z.of_nat (length calls) in
  logIndex l' = n mod 50
  /\ logFull l' = (50 <=? n)
  /\ forall i : nat,
       (i < length calls)%nat -> n - 50 <= Z.of_nat i ->
       sessionLog l' !! Z.to_nat (Z.of_nat i mod 50)
       = sessionOfSnapshot <$> calls !! i.
Proof.
  intros Hlen Hidx Hfull.
  destruct (runLog_ring calls l Hlen Hidx) as (_ & Hi & Hf & He).
  cbv zeta. rewrite Hfull, orb_false_r in Hf. repeat split; assumption.
Qed.

Lemma log_keeps_last_50_witness :
  let calls := replicate 60 (5000, initialSound, initialNode, READY) in
  logIndex (runLog calls freshLog) = 10
  /\ logFull (runLog calls freshLog) = true.
Proof.
  destruct (log_keeps_last_50 (replicate 60 (5000, initialSound, initialNode, READY))
              freshLog eq_refl eq_refl eq_refl) as (Hi & Hf & _).
  cbv zeta. rewrite Hi, Hf. split; reflexivity.
Defined.

End NodeTasksFacts.

(** * Facts about the forecast as a whole *)

Module ForecastRunsFacts.

Import Forecast ForecastRuns ForecastFacts.
Local Open Scope R_scope.

(** ** The table of slots *)

Lemma aggregate_size (data : list Entry) (m : gmap (nat * nat) Cell) :
  size (fold_left aggregate data m) = size m.
Proof.
  revert m. induction data as [| e data IH]; intros m; [reflexivity |].
  cbn [fold_left]. rewrite IH. unfold aggregate.
  destruct (m !! (dayOfWeek e, hour e)) as [c |] eqn:Em; [| reflexivity].
  apply map_size_insert_Some. exact (mk_is_Some _ _ Em).
Qed.

Lemma initialPatterns_size : size initialPatterns = 168%nat.
Proof. vm_compute. reflexivity. Qed.

(** X10: whatever the rows are, the table has exactly the 168 slots of
    the week: a key is present exactly when its day is below 7 and its
    hour below 24. *)
Theorem patterns_cover_week (data : list Entry) :
  size (analyzeTemporalPatterns data) = 168%nat
  /\ forall key : nat * nat,
       is_Some (analyzeTemporalPatterns data !! key)
       <-> (key.1 < 7)%nat /\ (key.2 < 24)%nat.
Proof.
  split.
  - unfold analyzeTemporalPatterns.
    rewrite map_size_fmap, aggregate_size. exact initialPatterns_size.
  - intros [d h]. cbn [fst snd]. split.
    + intros [pattern Hp]. unfold analyzeTemporalPatterns in Hp.
      rewrite lookup_fmap in Hp.
      destruct (fold_left aggregate data initialPatterns !! (d, h))
        as [c |] eqn:Ec; [| discriminate Hp].
      destruct (aggregate_lookup_Some _ _ _ _ Ec) as [c0 Hc0].
      destruct (initialPatterns_keys (d, h) c0 Hc0) as (Hd & Hh & _).
      split; assumption.
    + intros [Hd Hh]. rewrite (analyze_lookup data d h Hd Hh). now eexists.
Qed.

(** ** The contents of a slot *)

Lemma addEntry_fold (rows : list Entry) (c : Cell) :
  let c' := fold_left addEntry rows c in
  totalCount c' = (totalCount c + length rows)%nat
  /\ flowStateCount c' = (flowStateCount c + length (flowRows rows))%nat
  /\ noiseSum c' = noiseSum c + sumR (noise <$> rows)
  /\ bpmSum c' = bpmSum c + sumR (bpm <$> rows)
  /\ rrIntervalSum c' = rrIntervalSum c + sumR (rrInterval <$> rows).
Proof.
  cbv zeta. revert c. induction rows as [| e rows IH]; intros c.
  - cbn. repeat split; try lia; lra.
  - cbn [fold_left]. destruct (IH (addEntry c e)) as (Ht & Hf & Hn & Hb & Hr).
    rewrite Ht, Hf, Hn, Hb, Hr.
    cbn [addEntry totalCount flowStateCount noiseSum bpmSum rrIntervalSum].
    change (sumR (noise <$> e :: rows)) with (noise e + sumR (noise <$> rows)).
    change (sumR (bpm <$> e :: rows)) with (bpm e + sumR (bpm <$> rows)).
    change (sumR (rrInterval <$> e :: rows))
      with (rrInterval e + sumR (rrInterval <$> rows)).
    unfold flowRows. rewrite filter_cons. cbn [length].
    repeat split; try lra; try lia.
    destruct (isFlowState e).
    + rewrite decide_True by reflexivity. cbn [length]. lia.
    + rewrite decide_False by discriminate. lia.
Qed.

Lemma slotCell_sums (d h : nat) (data : list Entry) :
  let rows := slotRows d h data in
  let c := slotCell d h data in
  totalCount c = length rows
  /\ flowStateCount c = length (flowRows rows)
  /\ noiseSum c = sumR (noise <$> rows)
  /\ bpmSum c = sumR (bpm <$> rows)
  /\ rrIntervalSum c = sumR (rrInterval <$> rows).
Proof.
  cbv zeta. unfold slotCell, slotRows.
  destruct (addEntry_fold (filter (inSlot d h) data) (emptyCell d h))
    as (Ht & Hf & Hn & Hb & Hr).
  cbv zeta in Ht, Hf, Hn, Hb, Hr. rewrite Ht, Hf, Hn, Hb, Hr.
  cbn [emptyCell totalCount flowStateCount noiseSum bpmSum rrIntervalSum].
  repeat split; try lia; lra.
Qed.

Lemma statistics_cell (c : Cell) : cell (statistics c) = c.
Proof. unfold statistics. now case_bool_decide. Qed.

Lemma statistics_empty (c : Cell) :
  totalCount c = 0%nat ->
  probability (statistics c) = 0 /\ consistency (statistics c) = 0
  /\ avgNoise (statistics c) = 0 /\ avgBPM (statistics c) = 0
  /\ avgRRInterval (statistics c) = 0.
Proof.
  intros H0. unfold statistics.
  rewrite bool_decide_eq_false_2 by lia. repeat split.
Qed.

Lemma statistics_filled (c : Cell) :
  (0 < totalCount c)%nat ->
  probability (statistics c) = INR (flowStateCount c) / INR (totalCount c)
  /\ consistency (statistics c)
     = 1 - sqrt (outcomeVariance c (probability (statistics c)))
  /\ avgNoise (statistics c) = noiseSum c / INR (totalCount c)
  /\ avgBPM (statistics c) = bpmSum c / INR (totalCount c)
  /\ avgRRInterval (statistics c) = rrIntervalSum c / INR (totalCount c).
Proof.
  intros Hpos. unfold statistics.
  rewrite bool_decide_eq_true_2 by exact Hpos. repeat split.
Qed.

Lemma slot_contents (data : list Entry) (d h : nat) :
  let rows := slotRows d h data in
  let pattern := statistics (slotCell d h data) in
  totalCount (cell pattern) = length rows
  /\ flowStateCount (cell pattern) = length (flowRows rows)
  /\ (rows = [] ->
      probability pattern = 0 /\ consistency pattern = 0
      /\ avgNoise pattern = 0 /\ avgBPM pattern = 0
      /\ avgRRInterval pattern = 0)
  /\ (rows <> [] ->
      probability pattern = INR (length (flowRows rows)) / INR (length rows)
      /\ avgNoise pattern = sumR (noise <$> rows) / INR (length rows)
      /\ avgBPM pattern = sumR (bpm <$> rows) / INR (length rows)
      /\ avgRRInterval pattern
         = sumR (rrInterval <$> rows) / INR (length rows)).
Proof.
  cbv zeta. destruct (slotCell_sums d h data) as (Ht & Hf & Hn & Hb & Hr).
  cbv zeta in Ht, Hf, Hn, Hb, Hr. rewrite statistics_cell.
  split; [exact Ht |]. split; [exact Hf |]. split.
  - intros Hrows. apply statistics_empty. rewrite Ht, Hrows. reflexivity.
  - intros Hrows.
    assert (Hpos : (0 < totalCount (slotCell d h data))%nat).
    { rewrite Ht. destruct (slotRows d h data); [contradiction | cbn; lia]. }
    destruct (statistics_filled _ Hpos) as (Sp & _ & Sn & Sb & Sr).
    rewrite Sp, Sn, Sb, Sr, Ht, Hf, Hn, Hb, Hr. repeat split.
Qed.

(** X11: the slot of day [d] and hour [h] holds the statistics of the
    rows taken on that day and hour, and of no other row: its counters
    are the number of these rows and the number of them flagged as flow
    state; with at least one row the probability is their quotient and
    the averages are the means of the rows' noise, heart rate and R-R
    interval; with no row every statistic is 0. *)
Theorem slot_statistics (data : list Entry) (d h : nat) :
  (d < 7)%nat -> (h < 24)%nat ->
  let rows := slotRows d h data in
  exists pattern,
    analyzeTemporalPatterns data !! (d, h) = Some pattern
    /\ totalCount (cell pattern) = length rows
    /\ flowStateCount (cell pattern) = length (flowRows rows)
    /\ (rows = [] ->
        probability pattern = 0 /\ consistency pattern = 0
        /\ avgNoise pattern = 0 /\ avgBPM pattern = 0
        /\ avgRRInterval pattern = 0)
    /\ (rows <> [] ->
        probability pattern = INR (length (flowRows rows)) / INR (length rows)
        /\ avgNoise pattern = sumR (noise <$> rows) / INR (length rows)
        /\ avgBPM pattern = sumR (bpm <$> rows) / INR (length rows)
        /\ avgRRInterval pattern
           = sumR (rrInterval <$> rows) / INR (length rows)).
Proof.
  intros Hd Hh rows. exists (statistics (slotCell d h data)).
  split; [exact (analyze_lookup data d h Hd Hh) |].
  exact (slot_contents data d h).
Qed.

Lemma slot_statistics_witness :
  exists pattern,
    analyzeTemporalPatterns thinData !! (4%nat, 9%nat) = Some pattern
    /\ totalCount (cell pattern) = 5%nat
    /\ flowStateCount (cell pattern) = 5%nat.
Proof.
  assert (Hd : (4 < 7)%nat) by lia. assert (Hh : (9 < 24)%nat) by lia.
  destruct (slot_statistics thinData 4 9 Hd Hh) as (pattern & Hl & Ht & Hf & _).
  exists pattern. split; [exact Hl |].
  split; [exact (eq_trans Ht eq_refl) | exact (eq_trans Hf eq_refl)].
Defined.

(** ** The order of the rows *)

Lemma probability_of_counts (c c' : Cell) :
  totalCount c = totalCount c' -> flowStateCount c = flowStateCount c' ->
  probability (statistics c) = probability (statistics c').
Proof.
  intros Ht Hf. unfold statistics. rewrite Ht, Hf.
  now case_bool_decide.
Qed.

Lemma slot_counts_permute (data data' : list Entry) (d h : nat) :
  data ≡ₚ data' ->
  totalCount (slotCell d h data) = totalCount (slotCell d h data')
  /\ flowStateCount (slotCell d h data) = flowStateCount (slotCell d h data').
Proof.
  intros Hperm.
  destruct (slotCell_sums d h data) as (Ht & Hf & _).
  destruct (slotCell_sums d h data') as (Ht' & Hf' & _).
  cbv zeta in Ht, Hf, Ht', Hf'. rewrite Ht, Hf, Ht', Hf'.
  assert (Hrows : slotRows d h data ≡ₚ slotRows d h data').
  { unfold slotRows. now rewrite Hperm. }
  split.
  - now rewrite Hrows.
  - unfold flowRows. now rewrite Hrows.
Qed.

(** X12: the counters and the probability of a slot do not depend on
    the order in which the rows arrive: two histories that are
    rearrangements of each other give every slot the same sample count,
    the same flow count and the same probability. *)
Theorem probability_order_independent (data data' : list Entry)
  (key : nat * nat) (pattern pattern' : Pattern) :
  data ≡ₚ data' ->
  analyzeTemporalPatterns data !! key = Some pattern ->
  analyzeTemporalPatterns data' !! key = Some pattern' ->
  totalCount (cell pattern) = totalCount (cell pattern')
  /\ flowStateCount (cell pattern) = flowStateCount (cell pattern')
  /\ probability pattern = probability pattern'.
Proof.
  intros Hperm Hl Hl'.
  apply analyze_lookup_inv in Hl. apply analyze_lookup_inv in Hl'.
  subst pattern pattern'. rewrite !statistics_cell.
  destruct (slot_counts_permute data data' key.1 key.2 Hperm) as [Ht Hf].
  split; [exact Ht |]. split; [exact Hf |].
  now apply probability_of_counts.
Qed.

Lemma probability_order_independent_witness :
  probability (statistics (slotCell 4 9 [quietEntry; loudEntry]))
  = probability (statistics (slotCell 4 9 [loudEntry; quietEntry])).
Proof.
  assert (Hd : (4 < 7)%nat) by lia. assert (Hh : (9 < 24)%nat) by lia.
  exact (proj2 (proj2
    (probability_order_independent [quietEntry; loudEntry]
       [loudEntry; quietEntry] (4%nat, 9%nat) _ _
       (perm_swap loudEntry quietEntry [])
       (analyze_lookup [quietEntry; loudEntry] 4 9 Hd Hh)
       (analyze_lookup [loudEntry; quietEntry] 4 9 Hd Hh)))).
Defined.

(** ** Rounding *)

Lemma Math_round_le (x : R) (n : Z) : x <= IZR n -> (Math_round x <= n)%Z.
Proof.
  intros Hx. unfold Math_round.
  destruct (base_Int_part (x + / 2)) as [Hlo _].
  assert (Hlt : IZR (Int_part (x + / 2)) < IZR (n + 1)).
  { rewrite plus_IZR. lra. }
  apply lt_IZR in Hlt. lia.
Qed.

Lemma Math_round_ge (x : R) (n : Z) : IZR n <= x -> (n <= Math_round x)%Z.
Proof.
  intros Hx. unfold Math_round.
  destruct (base_Int_part (x + / 2)) as [_ Hhi].
  assert (Hlt : IZR (n - 1) < IZR (Int_part (x + / 2))).
  { rewrite minus_IZR. lra. }
  apply lt_IZR in Hlt. lia.
Qed.

(** ** Ranges of the statistics *)

Lemma slot_ranges (data : list Entry) (d h : nat) :
  Forall flagAgrees data ->
  let pattern := statistics (slotCell d h data) in
  0 <= probability pattern <= 1
  /\ 0 <= consistency pattern <= 1
  /\ ((0 < totalCount (cell pattern))%nat -> 1 / 2 <= consistency pattern).
Proof.
  intros Hdata. cbv zeta. rewrite statistics_cell.
  pose proof (slotCell_counts d h data Hdata) as Hcounts.
  set (c := slotCell d h data) in *.
  destruct (Nat.eq_dec (totalCount c) 0%nat) as [H0 | Hne].
  - destruct (statistics_empty c H0) as (Hp & Hc & _). rewrite Hp, Hc.
    split; [lra |]. split; [lra |]. intros Hpos. lia.
  - assert (Hpos : (0 < totalCount c)%nat) by lia.
    destruct (statistics_filled c Hpos) as (Hp & Hc & _).
    rewrite Hc, (outcomeVariance_spec c _ Hcounts).
    destruct Hcounts as [Ht Hf].
    assert (Hsamples : samples c <> []).
    { intros E. rewrite E in Ht. cbn in Ht. lia. }
    destruct (bernoulli_variance (samples c) Hsamples) as [Hvar Hrange].
    cbv zeta in Hvar, Hrange. rewrite <- Hf, <- Ht, <- Hp in Hvar, Hrange.
    rewrite Hvar.
    set (p := probability (statistics c)) in *.
    assert (Hlo : 0 <= sqrt (p * (1 - p))) by apply sqrt_pos.
    assert (Hhi : sqrt (p * (1 - p)) <= 1 / 2).
    { replace (1 / 2) with (sqrt (1 / 2 * (1 / 2)))
        by (apply sqrt_square; lra).
      apply sqrt_le_1_alt.
      pose proof (Rle_0_sqr (p - 1 / 2)) as Hsq. unfold Rsqr in Hsq. lra. }
    split; [exact Hrange |]. split; [lra |]. intros _. lra.
Qed.

Lemma INR_ge (k n : nat) : (k <= n)%nat -> IZR (Z.of_nat k) <= INR n.
Proof. intros Hle. rewrite INR_IZR_INZ. apply IZR_le. lia. Qed.

Lemma sampleFactor_range (n : nat) :
  0 <= Rmin (INR n / IDEAL_SAMPLES) 1 <= 1
  /\ ((10 <= n)%nat -> 1 / 5 <= Rmin (INR n / IDEAL_SAMPLES) 1).
Proof.
  unfold IDEAL_SAMPLES. pose proof (pos_INR n) as H0.
  unfold Rmin. destruct (Rle_dec (INR n / 50) 1) as [Hle | Hgt].
  - split; [lra |]. intros Hn. apply INR_ge in Hn.
    change (IZR (Z.of_nat 10)) with 10 in Hn. lra.
  - split; [lra |]. intros _. lra.
Qed.

Lemma confidence_range (pattern : Pattern) :
  0 <= probability pattern <= 1 -> 0 <= consistency pattern <= 1 ->
  (0 <= calculatePredictionConfidence pattern <= 100)%Z
  /\ ((totalCount (cell pattern) < 10)%nat ->
      calculatePredictionConfidence pattern = 0%Z)
  /\ ((10 <= totalCount (cell pattern))%nat ->
      1 / 2 <= consistency pattern ->
      (23 <= calculatePredictionConfidence pattern)%Z).
Proof.
  intros Hp Hc. unfold calculatePredictionConfidence, MIN_SAMPLES_FOR_CONFIDENCE.
  destruct (sampleFactor_range (totalCount (cell pattern))) as [Hs Hs10].
  set (sampleFactor := Rmin (INR (totalCount (cell pattern)) / IDEAL_SAMPLES) 1)
    in *.
  case_bool_decide as Hn.
  - split; [lia |]. split; [reflexivity |]. intros Hge. lia.
  - split; [| split].
    + split.
      * apply (Math_round_ge _ 0). lra.
      * apply (Math_round_le _ 100). lra.
    + intros Hlt. contradiction.
    + intros Hge Hhalf. specialize (Hs10 Hge).
      apply (Math_round_ge _ 23). lra.
Qed.

Lemma slot_confidence (data : list Entry) (d h : nat) :
  Forall flagAgrees data ->
  let pattern := statistics (slotCell d h data) in
  ((totalCount (cell pattern) < 10)%nat ->
   calculatePredictionConfidence pattern = 0%Z)
  /\ ((10 <= totalCount (cell pattern))%nat ->
      (23 <= calculatePredictionConfidence pattern <= 100)%Z).
Proof.
  intros Hdata. cbv zeta.
  destruct (slot_ranges data d h Hdata) as (Hp & Hc & Hhalf).
  cbv zeta in Hp, Hc, Hhalf.
  destruct (confidence_range _ Hp Hc) as (Hrange & Hzero & Hhigh).
  split; [exact Hzero |]. intros Hge. split; [| apply Hrange].
  apply Hhigh; [exact Hge |]. apply Hhalf. lia.
Qed.

(** X13: in the table of a history whose flow flags agree with the
    states, the confidence of a slot is 0 exactly for the slots with
    fewer than 10 samples; with 10 samples or more it lies between 23
    and 100. *)
Theorem confidence_of_slot (data : list Entry) (key : nat * nat)
  (pattern : Pattern) :
  Forall flagAgrees data ->
  analyzeTemporalPatterns data !! key = Some pattern ->
  ((totalCount (cell pattern) < 10)%nat ->
   calculatePredictionConfidence pattern = 0%Z)
  /\ ((10 <= totalCount (cell pattern))%nat ->
      (23 <= calculatePredictionConfidence pattern <= 100)%Z).
Proof.
  intros Hdata Hl. apply analyze_lookup_inv in Hl. subst pattern.
  exact (slot_confidence data key.1 key.2 Hdata).
Qed.

Lemma thinData_flags : Forall flagAgrees thinData.
Proof.
  unfold thinData. apply Forall_app. split; apply Forall_replicate; reflexivity.
Qed.

Lemma confidence_of_slot_witness :
  (23 <= calculatePredictionConfidence (statistics (slotCell 4 15 thinData))
   <= 100)%Z.
Proof.
  assert (Hd : (4 < 7)%nat) by lia. assert (Hh : (15 < 24)%nat) by lia.
  assert (Hn : totalCount (slotCell 4 15 thinData) = 95%nat)
    by (vm_compute; reflexivity).
  apply (confidence_of_slot thinData (4%nat, 15%nat) _ thinData_flags
           (analyze_lookup thinData 4 15 Hd Hh)).
  rewrite statistics_cell, Hn. lia.
Defined.

(** ** The predictions of a forecast *)

Lemma omap_labelled {A B} (f : A -> option B) (g : B -> A)
  (P : B -> Prop) (Q : A -> Prop) (l : list A) :
  (forall x y, Q x -> f x = Some y -> P y /\ g y = x) ->
  Forall Q l ->
  Forall P (omap f l) /\ sublist (g <$> omap f l) l.
Proof.
  intros Hf Hl. induction Hl as [| x l Hx Hl [IHP IHs]].
  - split; [constructor | constructor].
  - cbn [omap list_omap]. destruct (f x) as [y |] eqn:Ey.
    + destruct (Hf x y Hx Ey) as [Hy Hg]. split.
      * constructor; assumption.
      * cbn [fmap list_fmap]. rewrite Hg. now apply sublist_skip.
    + split; [exact IHP | now apply sublist_cons].
Qed.

Lemma seq_range (a n : nat) :
  Forall (fun i => (a <= i < a + n)%nat) (seq a n).
Proof. apply Forall_forall. intros i Hi. now apply elem_of_seq in Hi. Qed.

Section Predictions.

Variable getDay getHours : Time -> nat.
Variable now : Time.
Variable data : list Entry.
Hypothesis Hdata : Forall flagAgrees data.

Lemma candidate_wellFormed (i : nat) (p : Prediction) :
  (1 <= i < 1 + 24)%nat ->
  candidate getDay getHours now (analyzeTemporalPatterns data) i = Some p ->
  wellFormed getDay getHours now p /\ hoursFromNow p = i.
Proof.
  intros Hi. unfold candidate.
  destruct (analyzeTemporalPatterns data !! _) as [pattern |] eqn:El;
    [| discriminate].
  apply analyze_lookup_inv in El. cbn [fst snd] in El.
  set (d := getDay (now + Z.of_nat i * 60 * 60 * 1000)%Z) in *.
  set (h := getHours (now + Z.of_nat i * 60 * 60 * 1000)%Z) in *.
  destruct (slot_ranges data d h Hdata) as (Hp & Hc & Hhalf).
  cbv zeta in Hp, Hc, Hhalf. rewrite <- El in Hp, Hc, Hhalf.
  case_bool_decide as Hprob; [| discriminate]. intros [= <-].
  unfold FLOW_STATE_THRESHOLD in Hprob.
  assert (Hpos : (0 < totalCount (cell pattern))%nat).
  { destruct (Nat.eq_dec (totalCount (cell pattern)) 0%nat) as [H0 | Hne];
      [| lia].
    rewrite El, statistics_cell in H0.
    destruct (statistics_empty _ H0) as (Hzero & _).
    rewrite <- El in Hzero. lra. }
  destruct (confidence_range pattern Hp Hc) as (Hconf & _).
  split; [| reflexivity].
  unfold wellFormed.
  cbn [hoursFromNow time pred_dayOfWeek pred_hour sampleSize pred_probability
       pred_consistency confidence].
  split; [lia |]. split; [lia |]. split; [reflexivity |].
  split; [reflexivity |]. split; [lia |]. split; [lra |].
  split; [| exact Hconf]. split; [now apply Hhalf | apply Hc].
Qed.

Lemma generate_wellFormed :
  let preds :=
    generateFlowStatePredictions getDay getHours now
      (analyzeTemporalPatterns data) in
  Forall (wellFormed getDay getHours now) preds
  /\ NoDup (hoursFromNow <$> preds).
Proof.
  cbv zeta. unfold generateFlowStatePredictions, candidates, PREDICTION_WINDOW,
    TOP_PREDICTIONS.
  destruct (omap_labelled
              (candidate getDay getHours now (analyzeTemporalPatterns data))
              hoursFromNow (wellFormed getDay getHours now)
              (fun i => (1 <= i < 1 + 24)%nat) (seq 1 24))
    as [Hall Hsub].
  { intros i p Hi Hc. now apply candidate_wellFormed. }
  { apply seq_range. }
  set (cands := omap _ (seq 1 24)) in *.
  pose proof (Array_sort_perm byScore cands) as Hperm.
  split.
  - apply Forall_take. eapply Permutation_Forall; [symmetry; exact Hperm |].
    exact Hall.
  - eapply sublist_NoDup; [| apply fmap_sublist, sublist_take].
    rewrite Hperm. eapply sublist_NoDup; [apply NoDup_seq | exact Hsub].
Qed.

End Predictions.

(** ** Overall confidence *)

Lemma confidence_sum (preds : list Prediction) :
  Forall (fun p => (0 <= confidence p <= 100)%Z) preds ->
  0 <= sumR ((fun p => IZR (confidence p)) <$> preds)
  <= 100 * INR (length preds).
Proof.
  induction 1 as [| p preds [Hlo Hhi] _ IH].
  - cbn. lra.
  - change (sumR ((fun p => IZR (confidence p)) <$> p :: preds))
      with (IZR (confidence p)
            + sumR ((fun p => IZR (confidence p)) <$> preds)).
    cbn [length]. rewrite S_INR.
    apply IZR_le in Hlo, Hhi. lra.
Qed.

Lemma overall_range (preds : list Prediction) (dataPoints : nat) :
  Forall (fun p => (0 <= confidence p <= 100)%Z) preds ->
  (0 <= calculateOverallConfidence preds dataPoints <= 100)%Z.
Proof.
  intros Hall. unfold calculateOverallConfidence.
  case_bool_decide as Hlen; [lia |].
  rewrite (SensorNodeFacts.fold_left_sumR (fun p => IZR (confidence p))).
  rewrite Rplus_0_l.
  pose proof (confidence_sum preds Hall) as [Hlo Hhi].
  assert (Hn : 0 < INR (length preds)) by (apply lt_0_INR; lia).
  set (total := sumR _) in *. set (n := INR (length preds)) in *.
  assert (Havg : 0 <= total / n <= 100).
  { split.
    - apply Rmult_le_pos; [exact Hlo |]. apply Rlt_le. now apply Rinv_0_lt_compat.
    - apply (Rmult_le_reg_r n); [exact Hn |].
      unfold Rdiv. rewrite Rmult_assoc, Rinv_l by lra. lra. }
  assert (Hfactor : 0 <= Rmin (INR dataPoints / 500) 1 <= 1).
  { pose proof (pos_INR dataPoints). unfold Rmin.
    destruct (Rle_dec (INR dataPoints / 500) 1); lra. }
  split.
  - apply (Math_round_ge _ 0). lra.
  - apply (Math_round_le _ 100). lra.
Qed.

Lemma wellFormed_confidence (getDay getHours : Time -> nat) (now : Time)
  (preds : list Prediction) :
  Forall (wellFormed getDay getHours now) preds ->
  Forall (fun p => (0 <= confidence p <= 100)%Z) preds.
Proof.
  intros Hall. eapply Forall_impl; [exact Hall |]. intros p Hp. apply Hp.
Qed.

(** ** Runs *)

Section Runs.

Variable getDay getHours : Time -> nat.

Lemma fetch_flags (response : option (list Feed)) (data : list Entry) :
  (fetchPredictionHistoricalData getDay getHours response).1 = Some data ->
  Forall flagAgrees data.
Proof.
  unfold fetchPredictionHistoricalData.
  destruct response as [[| feed feeds] |]; cbn [fst]; try discriminate.
  intros [= <-]. apply cleanData_flags.
Qed.

Lemma run_complete (response : option (list Feed)) (now finished : Time)
  (pd : PredictionData) (preds : list Prediction) :
  returned (runPredictionAnalysis getDay getHours response now finished pd)
  = Some preds ->
  exists data,
    Forall flagAgrees data
    /\ (100 <= length data)%nat
    /\ preds = generateFlowStatePredictions getDay getHours now
                 (analyzeTemporalPatterns data)
    /\ stored (runPredictionAnalysis getDay getHours response now finished pd)
       = {| predictions := preds; lastUpdate := Some finished;
            overallConfidence :=
              calculateOverallConfidence preds (length data);
            dataQuality := assessDataQuality (length data) |}.
Proof.
  intros Hret.
  destruct (run_returned getDay getHours response now finished pd preds Hret)
    as (data & Hfetch & Hlen & Hpreds).
  exists data. split; [exact (fetch_flags response data Hfetch) |].
  split; [exact Hlen |]. split; [exact Hpreds |].
  destruct (fetchPredictionHistoricalData getDay getHours response)
    as [fetched fetchEvents] eqn:Ef.
  cbn [fst] in Hfetch. subst fetched.
  rewrite (run_enough getDay getHours response now finished pd data
             fetchEvents Ef Hlen).
  cbn [stored]. now rewrite Hpreds.
Qed.

Lemma run_incomplete (response : option (list Feed)) (now finished : Time)
  (pd : PredictionData) :
  returned (runPredictionAnalysis getDay getHours response now finished pd)
  = None ->
  stored (runPredictionAnalysis getDay getHours response now finished pd) = pd.
Proof.
  unfold runPredictionAnalysis.
  destruct (fetchPredictionHistoricalData getDay getHours response)
    as [[data |] fetchEvents]; [| reflexivity].
  destruct (length data <? MIN_DATA_POINTS)%nat; [reflexivity | discriminate].
Qed.

Lemma returned_wellFormed (response : option (list Feed))
  (now finished : Time) (pd : PredictionData) (preds : list Prediction) :
  let r := runPredictionAnalysis getDay getHours response now finished pd in
  returned r = Some preds ->
  Forall (wellFormed getDay getHours now) preds
  /\ NoDup (hoursFromNow <$> preds)
  /\ (0 <= overallConfidence (stored r) <= 100)%Z.
Proof.
  cbv zeta. intros Hret.
  destruct (run_complete response now finished pd preds Hret)
    as (data & Hflags & Hlen & Hpreds & Hstored).
  destruct (generate_wellFormed getDay getHours now data Hflags)
    as [Hall Hdup].
  cbv zeta in Hall, Hdup. rewrite <- Hpreds in Hall, Hdup.
  split; [exact Hall |]. split; [exact Hdup |].
  rewrite Hstored. cbn [overallConfidence].
  apply overall_range. exact (wellFormed_confidence _ _ _ _ Hall).
Qed.

(** X14: every prediction that a run returns is for a different hour
    from 1 to 24 ahead of [now], carries the time of that hour and the
    day and hour of the clock at that time, comes from a slot with at
    least one sample, and has a probability from 0.3 to 1, a consistency
    from 0.5 to 1 and a confidence from 0 to 100; the overall confidence
    stored by the run lies between 0 and 100. *)
Theorem returned_predictions_wellFormed (response : option (list Feed))
  (now finished : Time) (pd : PredictionData) (preds : list Prediction) :
  let r := runPredictionAnalysis getDay getHours response now finished pd in
  returned r = Some preds ->
  Forall (wellFormed getDay getHours now) preds
  /\ NoDup (hoursFromNow <$> preds)
  /\ (0 <= overallConfidence (stored r) <= 100)%Z.
Proof. exact (returned_wellFormed response now finished pd preds). Qed.

Lemma assessDataQuality_enough (dataPoints : nat) :
  (100 <= dataPoints)%nat -> assessDataQuality dataPoints <> insufficient.
Proof.
  intros Hn. unfold assessDataQuality.
  apply Nat.ltb_ge in Hn. rewrite Hn.
  repeat (destruct (_ <? _)%nat; [discriminate |]). discriminate.
Qed.

Lemma run_keeps_wellFormedData (response : option (list Feed))
  (now finished : Time) (pd : PredictionData) :
  wellFormedData getDay getHours pd ->
  wellFormedData getDay getHours
    (stored (runPredictionAnalysis getDay getHours response now finished pd)).
Proof.
  intros Hpd.
  destruct (returned (runPredictionAnalysis getDay getHours response
                        now finished pd)) as [preds |] eqn:Hret.
  - destruct (run_complete response now finished pd preds Hret)
      as (data & Hflags & Hlen & Hpreds & Hstored).
    destruct (returned_wellFormed response now finished pd preds Hret)
      as (Hall & _ & Hoverall).
    rewrite Hstored in Hoverall |- *. cbn [overallConfidence] in Hoverall.
    unfold wellFormedData.
    cbn [predictions lastUpdate overallConfidence dataQuality].
    split.
    { rewrite Hpreds.
      exact (proj1 (generate_admissible getDay getHours now
                      (analyzeTemporalPatterns data))). }
    split; [exists now; exact Hall |]. split; [exact Hoverall |].
    split.
    + split; [| discriminate].
      intros Hq. now apply assessDataQuality_enough in Hq.
    + discriminate.
  - now rewrite (run_incomplete response now finished pd Hret).
Qed.

Lemma initial_wellFormedData :
  wellFormedData getDay getHours initialPredictionData.
Proof.
  unfold wellFormedData, initialPredictionData.
  cbn [predictions lastUpdate overallConfidence dataQuality length].
  split; [lia |]. split; [exists 0%Z; constructor |]. split; [lia |].
  split; [split; reflexivity |]. intros _. split; reflexivity.
Qed.

Lemma runAll_keeps_wellFormedData
  (calls : list (option (list Feed) * Time * Time)) (pd : PredictionData) :
  wellFormedData getDay getHours pd ->
  wellFormedData getDay getHours (runAll getDay getHours calls pd).
Proof.
  revert pd. induction calls as [| [[response now] finished] calls IH];
    intros pd Hpd; [exact Hpd |].
  unfold runAll. cbn [fold_left]. apply IH.
  now apply run_keeps_wellFormedData.
Qed.

(** X15: after any sequence of runs from the initial data, the stored
    [predictionData] holds at most 5 predictions, all of one forecast
    and in their ranges, and an overall confidence from 0 to 100; its
    quality label is 'insufficient' exactly while no run has completed
    ([lastUpdate] is still null), and then it holds no prediction and
    overall confidence 0. *)
Theorem stored_data_wellFormed
  (calls : list (option (list Feed) * Time * Time)) :
  wellFormedData getDay getHours
    (runAll getDay getHours calls initialPredictionData).
Proof.
  apply runAll_keeps_wellFormedData. exact initial_wellFormedData.
Qed.

End Runs.

Lemma returned_predictions_wellFormed_witness :
  exists p,
    returned (runPredictionAnalysis utcDay utcHours (Some thinFeeds)
                sampleNow sampleNow initialPredictionData) = Some [p]
    /\ Forall (wellFormed utcDay utcHours sampleNow) [p].
Proof.
  destruct (thin_run sampleNow initialPredictionData) as (p & Hret & _).
  exists p. split; [exact Hret |].
  exact (proj1 (returned_predictions_wellFormed utcDay utcHours
                  (Some thinFeeds) sampleNow sampleNow initialPredictionData
                  [p] Hret)).
Defined.

(** ** The five best candidates *)




(** ** When a run completes *)

Section Completion.

Variable getDay getHours : Time -> nat.

Lemma cleanData_length (feeds : list Feed) :
  length (cleanData getDay getHours feeds) = length (filter usable feeds).
Proof.
  unfold cleanData. rewrite filter_fmap, length_fmap. f_equal.
  apply list_filter_iff. intros feed. unfold validBpm, usable.
  rewrite parseFeed_bpm. unfold BPM_MIN_VALID, BPM_MAX_VALID.
  split; intros [Hlo Hhi]; split; lra.
Qed.

Lemma run_completes (response : option (list Feed)) (now finished : Time)
  (pd : PredictionData) :
  is_Some (returned (runPredictionAnalysis getDay getHours response
                       now finished pd))
  <-> exists feeds,
        response = Some feeds /\ (100 <= length (filter usable feeds))%nat.
Proof.
  unfold runPredictionAnalysis, fetchPredictionHistoricalData, MIN_DATA_POINTS.
  destruct response as [[| feed feeds] |].
  - cbn [returned]. split; [intros [preds Hp]; discriminate Hp |].
    intros (feeds & [= <-] & Hlen). cbn in Hlen. lia.
  - destruct (Nat.ltb_spec (length (cleanData getDay getHours (feed :: feeds)))
                100) as [Hlt | Hge]; cbn [returned].
    + split; [intros [preds Hp]; discriminate Hp |].
      intros (feeds' & [= <-] & Hlen). rewrite <- cleanData_length in Hlen. lia.
    + split; [| intros _; now eexists].
      intros _. exists (feed :: feeds). split; [reflexivity |].
      now rewrite <- cleanData_length.
  - cbn [returned]. split; [intros [preds Hp]; discriminate Hp |].
    intros (feeds & Hr & _). discriminate Hr.
Qed.


(** ** A history without flow state *)

Lemma filter_none {A} (P : A -> Prop) `{!forall x, Decision (P x)}
  (l : list A) :
  Forall (fun x => ~ P x) l -> filter P l = [].
Proof.
  induction 1 as [| x l Hx _ IH]; [reflexivity |].
  rewrite filter_cons, decide_False by exact Hx. exact IH.
Qed.

Lemma flowless_candidate (now : Time) (data : list Entry) (i : nat) :
  Forall (fun e => isFlowState e = false) data ->
  candidate getDay getHours now (analyzeTemporalPatterns data) i = None.
Proof.
  intros Hdata. unfold candidate.
  destruct (analyzeTemporalPatterns data !! _) as [pattern |] eqn:El;
    [| reflexivity].
  apply analyze_lookup_inv in El. cbn [fst snd] in El. subst pattern.
  set (d := getDay _). set (h := getHours _).
  destruct (slotCell_sums d h data) as (_ & Hf & _). cbv zeta in Hf.
  assert (Hnone : flowRows (slotRows d h data) = []).
  { unfold flowRows, slotRows. apply filter_none.
    apply Forall_forall. intros e He.
    apply list_elem_of_filter in He as [_ He].
    rewrite Forall_forall in Hdata. rewrite (Hdata e He). discriminate. }
  rewrite Hnone in Hf.
  rewrite (statistics_without_flow _ Hf). unfold FLOW_STATE_THRESHOLD.
  now rewrite bool_decide_eq_false_2 by lra.
Qed.

Lemma flowless_generate (now : Time) (data : list Entry) :
  Forall (fun e => isFlowState e = false) data ->
  generateFlowStatePredictions getDay getHours now
    (analyzeTemporalPatterns data) = [].
Proof.
  intros Hdata. unfold generateFlowStatePredictions, candidates.
  rewrite omap_all_None; [reflexivity |].
  apply Forall_true. intros i. now apply flowless_candidate.
Qed.

Lemma loud_row (feed : Feed) :
  55 <= default 0 (field2 feed) ->
  isFlowState (parseFeed getDay getHours feed) = false.
Proof.
  intros Hloud. unfold parseFeed. cbn [isFlowState].
  apply bool_decide_eq_false_2.
  unfold classifyStateForPrediction, NOISE_THRESHOLD.
  rewrite (bool_decide_eq_false_2 (default 0 (field2 feed) < 55)) by lra.
  cbn [andb negb].
  repeat (destruct (bool_decide _)); cbn [orb andb]; discriminate.
Qed.

Lemma loud_rows (feeds : list Feed) :
  Forall (fun feed => 55 <= default 0 (field2 feed)) feeds ->
  Forall (fun e => isFlowState e = false) (cleanData getDay getHours feeds).
Proof.
  intros Hloud. unfold cleanData. apply Forall_forall. intros e He.
  apply list_elem_of_filter in He as [_ He].
  apply list_elem_of_fmap in He as (feed & -> & Hin).
  rewrite Forall_forall in Hloud. apply loud_row. now apply Hloud.
Qed.

Lemma loud_run (feeds : list Feed) (now finished : Time)
  (pd : PredictionData) :
  Forall (fun feed => 55 <= default 0 (field2 feed)) feeds ->
  (100 <= length (filter usable feeds))%nat ->
  let r := runPredictionAnalysis getDay getHours (Some feeds) now finished pd in
  returned r = Some []
  /\ predictions (stored r) = []
  /\ overallConfidence (stored r) = 0%Z
  /\ lastUpdate (stored r) = Some finished.
Proof.
  intros Hloud Hlen. cbv zeta.
  assert (Hsome : is_Some (returned (runPredictionAnalysis getDay getHours
                                       (Some feeds) now finished pd))).
  { apply run_completes. now exists feeds. }
  destruct Hsome as [preds Hret].
  destruct (run_complete getDay getHours (Some feeds) now finished pd preds Hret)
    as (data & _ & _ & Hpreds & Hstored).
  destruct (run_returned getDay getHours (Some feeds) now finished pd preds Hret)
    as (data' & Hfetch & _ & Hpreds').
  assert (Hdata' : data' = cleanData getDay getHours feeds).
  { unfold fetchPredictionHistoricalData in Hfetch.
    destruct feeds as [| feed feeds]; cbn [fst] in Hfetch; [discriminate |].
    now injection Hfetch as <-. }
  assert (Hnil : preds = []).
  { rewrite Hpreds', Hdata'. apply flowless_generate. now apply loud_rows. }
  rewrite Hret, Hstored, Hnil.
  cbn [predictions overallConfidence lastUpdate]. repeat split.
Qed.

(** X18: when every row of the channel has a noise level of 55 dB or
    more (and at least 100 rows have a usable heart rate, so that the run
    completes), no slot reaches the probability threshold: the run
    returns an empty list and stores it with overall confidence 0. *)
Theorem loud_history_gives_no_prediction (feeds : list Feed)
  (now finished : Time) (pd : PredictionData) :
  Forall (fun feed => 55 <= default 0 (field2 feed)) feeds ->
  (100 <= length (filter usable feeds))%nat ->
  let r := runPredictionAnalysis getDay getHours (Some feeds) now finished pd in
  returned r = Some []
  /\ predictions (stored r) = []
  /\ overallConfidence (stored r) = 0%Z
  /\ lastUpdate (stored r) = Some finished.
Proof. exact (loud_run feeds now finished pd). Qed.

End Completion.

Lemma usable_loudFeed : usable loudFeed.
Proof. unfold usable, usedBpm, loudFeed. cbn. lra. Qed.

Lemma loud_history_gives_no_prediction_witness :
  returned (runPredictionAnalysis utcDay utcHours
              (Some (replicate 100 loudFeed)) sampleNow sampleNow
              initialPredictionData) = Some [].
Proof.
  assert (Hloud : Forall (fun feed => 55 <= default 0 (field2 feed))
                         (replicate 100 loudFeed)).
  { apply Forall_replicate. cbn. lra. }
  assert (Hlen : (100 <= length (filter usable (replicate 100 loudFeed)))%nat).
  { rewrite (filter_replicate_all usable 100 loudFeed usable_loudFeed).
    rewrite length_replicate. lia. }
  exact (proj1 (loud_history_gives_no_prediction utcDay utcHours
                  (replicate 100 loudFeed) sampleNow sampleNow
                  initialPredictionData Hloud Hlen)).
Defined.

(** ** Overall confidence and the amount of data *)

Lemma Math_round_mono (x y : R) : x <= y -> (Math_round x <= Math_round y)%Z.
Proof.
  intros Hxy. unfold Math_round.
  destruct (base_Int_part (x + / 2)) as [Hx _].
  destruct (base_Int_part (y + / 2)) as [_ Hy].
  assert (Hlt : IZR (Int_part (x + / 2)) < IZR (Int_part (y + / 2) + 1)).
  { rewrite plus_IZR. lra. }
  apply lt_IZR in Hlt. lia.
Qed.

Lemma dataFactor_mono (n m : nat) :
  (n <= m)%nat -> Rmin (INR n / 500) 1 <= Rmin (INR m / 500) 1.
Proof.
  intros Hnm. apply le_INR in Hnm.
  apply Rle_min_compat_r. lra.
Qed.

Lemma dataFactor_full (n : nat) : (500 <= n)%nat -> Rmin (INR n / 500) 1 = 1.
Proof.
  intros Hn. apply INR_ge in Hn. change (IZR (Z.of_nat 500)) with 500 in Hn.
  apply Rmin_right. lra.
Qed.

Lemma overall_mono (preds : list Prediction) (n m : nat) :
  (n <= m)%nat ->
  (calculateOverallConfidence preds n <= calculateOverallConfidence preds m)%Z
  /\ ((500 <= n)%nat ->
      calculateOverallConfidence preds n = calculateOverallConfidence preds m).
Proof.
  intros Hnm. unfold calculateOverallConfidence.
  case_bool_decide as Hlen; [split; [lia | reflexivity] |].
  split.
  - apply Math_round_mono. pose proof (dataFactor_mono n m Hnm). lra.
  - intros Hn. rewrite (dataFactor_full n Hn), (dataFactor_full m) by lia.
    reflexivity.
Qed.

(** X19: for the same predictions, more data points never lower the
    overall confidence, and from 500 data points on it no longer depends
    on their number. *)
Theorem overall_confidence_grows_with_data (preds : list Prediction)
  (n m : nat) :
  (n <= m)%nat ->
  (calculateOverallConfidence preds n <= calculateOverallConfidence preds m)%Z
  /\ ((500 <= n)%nat ->
      calculateOverallConfidence preds n = calculateOverallConfidence preds m).
Proof. exact (overall_mono preds n m). Qed.

Lemma overall_confidence_grows_with_data_witness :
  (calculateOverallConfidence [samplePrediction] 100
   <= calculateOverallConfidence [samplePrediction] 400)%Z.
Proof.
  assert (Hnm : (100 <= 400)%nat) by lia.
  exact (proj1 (overall_confidence_grows_with_data [samplePrediction]
                  100 400 Hnm)).
Defined.

(** ** Hours that are predicted *)

Lemma omap_elem_of {A B} (f : A -> option B) (l : list A) (x : A) (y : B) :
  x ∈ l -> f x = Some y -> y ∈ omap f l.
Proof.
  intros Hx Hf. induction l as [| a l IH]; [inversion Hx |].
  cbn [omap list_omap]. apply elem_of_cons in Hx as [<- | Hx].
  - rewrite Hf. apply elem_of_cons. now left.
  - destruct (f a); [apply elem_of_cons; right |]; now apply IH.
Qed.

Lemma flow_hour (getDay getHours : Time -> nat) (now : Time)
  (data : list Entry) (i : nat) :
  (1 <= i <= 24)%nat ->
  let slot := slotOf getDay getHours now i in
  (slot.1 < 7)%nat -> (slot.2 < 24)%nat ->
  let rows := slotRows slot.1 slot.2 data in
  rows <> [] ->
  3 / 10 <= INR (length (flowRows rows)) / INR (length rows) ->
  exists p,
    p ∈ candidates getDay getHours now (analyzeTemporalPatterns data)
    /\ hoursFromNow p = i
    /\ pred_probability p = INR (length (flowRows rows)) / INR (length rows)
    /\ sampleSize p = length rows
    /\ ((length (candidates getDay getHours now (analyzeTemporalPatterns data))
         <= 5)%nat ->
        p ∈ generateFlowStatePredictions getDay getHours now
              (analyzeTemporalPatterns data)).
Proof.
  intros Hi. unfold slotOf. cbn [fst snd]. cbv zeta.
  set (d := getDay _). set (h := getHours _). intros Hd Hh Hrows Hprob.
  destruct (slot_contents data d h) as (Ht & _ & _ & Hfilled).
  cbv zeta in Ht, Hfilled. destruct (Hfilled Hrows) as (Hp & _).
  set (pattern := statistics (slotCell d h data)) in *.
  assert (Hc : candidate getDay getHours now (analyzeTemporalPatterns data) i
               = Some {| time := (now + Z.of_nat i * 60 * 60 * 1000)%Z;
                         pred_hour := h; pred_dayOfWeek := d;
                         pred_probability := probability pattern;
                         confidence := calculatePredictionConfidence pattern;
                         expectedNoise := avgNoise pattern;
                         expectedBPM := avgBPM pattern;
                         expectedRRInterval := avgRRInterval pattern;
                         sampleSize := totalCount (cell pattern);
                         pred_consistency := consistency pattern;
                         hoursFromNow := i |}).
  { unfold candidate. fold d h. rewrite (analyze_lookup data d h Hd Hh).
    fold pattern. unfold FLOW_STATE_THRESHOLD.
    rewrite bool_decide_eq_true_2 by (rewrite Hp; lra). reflexivity. }
  eexists. split; [| split; [| split; [| split]]].
  - unfold candidates, PREDICTION_WINDOW.
    apply (omap_elem_of _ (seq 1 24) i _); [| exact Hc].
    apply elem_of_seq. lia.
  - reflexivity.
  - exact Hp.
  - exact Ht.
  - intros Hfew. unfold generateFlowStatePredictions, TOP_PREDICTIONS.
    pose proof (Array_sort_perm byScore
                  (candidates getDay getHours now
                     (analyzeTemporalPatterns data))) as Hperm.
    rewrite take_ge by (rewrite (Permutation_length Hperm); exact Hfew).
    rewrite Hperm. unfold candidates, PREDICTION_WINDOW.
    apply (omap_elem_of _ (seq 1 24) i _); [| exact Hc].
    apply elem_of_seq. lia.
Qed.

(** X20: every hour of the next 24 whose slot holds rows of which 30% or
    more are flagged as flow state is a candidate of the forecast, with
    that share as probability and the number of rows as sample size; and
    when there are no more than 5 candidates it is among the predictions
    returned. *)
Theorem flow_hour_is_predicted (getDay getHours : Time -> nat) (now : Time)
  (data : list Entry) (i : nat) :
  (1 <= i <= 24)%nat ->
  let slot := slotOf getDay getHours now i in
  (slot.1 < 7)%nat -> (slot.2 < 24)%nat ->
  let rows := slotRows slot.1 slot.2 data in
  rows <> [] ->
  3 / 10 <= INR (length (flowRows rows)) / INR (length rows) ->
  exists p,
    p ∈ candidates getDay getHours now (analyzeTemporalPatterns data)
    /\ hoursFromNow p = i
    /\ pred_probability p = INR (length (flowRows rows)) / INR (length rows)
    /\ sampleSize p = length rows
    /\ ((length (candidates getDay getHours now (analyzeTemporalPatterns data))
         <= 5)%nat ->
        p ∈ generateFlowStatePredictions getDay getHours now
              (analyzeTemporalPatterns data)).
Proof. exact (flow_hour getDay getHours now data i). Qed.

Lemma flow_hour_is_predicted_witness :
  exists p,
    p ∈ candidates utcDay utcHours sampleNow (analyzeTemporalPatterns thinData)
    /\ hoursFromNow p = 1%nat /\ sampleSize p = 5%nat.
Proof.
  assert (Hi : (1 <= 1 <= 24)%nat) by lia.
  assert (Hslot : slotOf utcDay utcHours sampleNow 1 = (4%nat, 9%nat))
    by (vm_compute; reflexivity).
  assert (Hrows : slotRows 4 9 thinData = replicate 5 quietEntry)
    by (vm_compute; reflexivity).
  assert (Hflow : flowRows (replicate 5 quietEntry) = replicate 5 quietEntry)
    by (vm_compute; reflexivity).
  pose proof (flow_hour_is_predicted utcDay utcHours sampleNow thinData 1 Hi)
    as Hthm.
  cbv zeta in Hthm. rewrite Hslot in Hthm. cbn [fst snd] in Hthm.
  rewrite Hrows, Hflow in Hthm.
  assert (Hd : (4 < 7)%nat) by lia. assert (Hh : (9 < 24)%nat) by lia.
  assert (Hne : replicate 5 quietEntry <> []) by discriminate.
  assert (Hprob : 3 / 10 <= INR (length (replicate 5 quietEntry))
                             / INR (length (replicate 5 quietEntry))).
  { rewrite length_replicate. rewrite INR_IZR_INZ.
    change (IZR (Z.of_nat 5)) with 5. lra. }
  destruct (Hthm Hd Hh Hne Hprob) as (p & Hin & Hhour & _ & Hsize & _).
  exists p. split; [exact Hin |]. split; [exact Hhour |].
  rewrite Hsize. apply length_replicate.
Defined.

End ForecastRunsFacts.
